(** * Confluent Cloud DR demo: the Avro producer and consumer scripts

    A shallow embedding of [python/avro_producer_app.py] and
    [python/avro_consumer_app.py].  Both scripts are straight-line
    module-level code (configuration, client construction, signal
    registration) followed by an endless loop.  They are embedded as
    computations in a small monad that threads the process state
    ([os.environ], the installed signal handlers, the trace of observable
    actions) and distinguishes the three ways a Python computation ends:
    a value, a raised [Exception], or [sys.exit].

    Conventions.
    - Python [str] is modelled by [string], read as a sequence of code
      points below 256; the builtins [str.lower], [repr] and [float] are
      modelled on ASCII text.
    - A Python [float] is a binary64 number: a finite one is carried as
      the rational it is, and every arithmetic operation rounds its exact
      result to 53 significant bits, ties to even.  The sign of zero is
      not represented.
    - Calls into [confluent_kafka], [dotenv], [random], [time] and the
      operating system are external: what they answer is read from an
      [oracle], what they are asked to do is recorded in the trace.  The
      behaviour of the library classes themselves (what
      [DeserializingConsumer.poll] raises, what [flush] serves, how Avro
      lays out a record) follows their documentation. *)

From Stdlib Require Import ZArith QArith Qround Qpower Qabs Lqa List Sorted Ascii String Lia.
From stdpp Require Import base option list strings gmap.

Local Open Scope string_scope.
Local Open Scope list_scope.
Local Open Scope Z_scope.

(** ** Python strings *)

Module PyStr.

Definition is_upper (c : ascii) : bool :=
  let n := N_of_ascii c in (65 <=? n)%N && (n <=? 90)%N.

Definition is_lower (c : ascii) : bool :=
  let n := N_of_ascii c in (97 <=? n)%N && (n <=? 122)%N.

Definition is_digit (c : ascii) : bool :=
  let n := N_of_ascii c in (48 <=? n)%N && (n <=? 57)%N.

(** [string.whitespace] *)
Definition is_space (c : ascii) : bool :=
  let n := N_of_ascii c in (n =? 32)%N || ((9 <=? n)%N && (n <=? 13)%N).

Definition lower_ascii (c : ascii) : ascii :=
  if is_upper c then ascii_of_N (N_of_ascii c + 32) else c.

(** [s.lower()] *)
Fixpoint lower (s : string) : string :=
  match s with
  | EmptyString => EmptyString
  | String c s' => String (lower_ascii c) (lower s')
  end.

(** [sep.join(l)] *)
Fixpoint join (sep : string) (l : list string) : string :=
  match l with
  | [] => ""
  | [x] => x
  | x :: l' => x +:+ sep +:+ join sep l'
  end.

(** ["".join(cs)] for a list of characters *)
Definition of_chars (cs : list ascii) : string := string_of_list_ascii cs.

Definition chars (s : string) : list ascii := list_ascii_of_string s.

(** [string.ascii_uppercase], [string.ascii_lowercase], [string.digits] *)
Definition ascii_uppercase : string := "ABCDEFGHIJKLMNOPQRSTUVWXYZ".
Definition ascii_lowercase : string := "abcdefghijklmnopqrstuvwxyz".
Definition digits : string := "0123456789".

(** [re.fullmatch("[class]{n}", s)] for a character class given as a
    predicate. *)
Definition fullmatch_class (cls : ascii -> bool) (n : nat) (s : string) : bool :=
  forallb cls (chars s) && (length (chars s) =? n)%nat.

Definition upper_alnum (c : ascii) : bool := is_upper c || is_digit c.

(** truthiness of an [Optional[str]]: [None] and [""] are falsy *)
Definition truthy (o : option string) : bool :=
  match o with
  | None => false
  | Some s => negb (String.eqb s "")
  end.

(** [s.isascii()] *)
Definition is_ascii (s : string) : bool :=
  forallb (fun c => (N_of_ascii c <? 128)%N) (chars s).

Definition quote1 : ascii := "'".
Definition quote2 : ascii := ascii_of_N 34.
Definition backslash : ascii := ascii_of_N 92.

Definition hex_digit (n : N) : ascii :=
  ascii_of_N (if (n <? 10)%N then 48 + n else 87 + n).

(** How [repr] writes one ASCII character inside the quote [q]. *)
Definition escaped (q c : ascii) : list ascii :=
  let n := N_of_ascii c in
  if Ascii.eqb c q || Ascii.eqb c backslash then [backslash; c]
  else if (n =? 9)%N then [backslash; "t"%char]
  else if (n =? 10)%N then [backslash; "n"%char]
  else if (n =? 13)%N then [backslash; "r"%char]
  else if (n <? 32)%N || (n =? 127)%N then
    [backslash; "x"%char; hex_digit (n / 16); hex_digit (n mod 16)]
  else [c].

(** [repr(s)] for ASCII text: double quotes when the text has a single
    quote and no double quote, single quotes otherwise. *)
Definition repr (s : string) : string :=
  let cs := chars s in
  let q := if existsb (Ascii.eqb quote1) cs && negb (existsb (Ascii.eqb quote2) cs)
           then quote2 else quote1 in
  of_chars (q :: flat_map (escaped q) cs ++ [q]).

End PyStr.

(** ** Binary floating point *)

(** Rounding to the nearest integer, ties to the even one. *)
Definition round_half_even (q : Q) : Z :=
  let f := Qfloor q in
  match Qcompare (q - inject_Z f) (1 # 2) with
  | Lt => f
  | Gt => f + 1
  | Eq => if Z.even f then f else f + 1
  end.

Module Binary.

Definition pow2 (e : Z) : Q := Qpower 2 e.

(** For [x > 0], the exponent [e] with [2^e <= x < 2^(e+1)]. *)
Definition ilog2 (x : Q) : Z :=
  let e := Z.log2 (Qnum x) - Z.log2 (Zpos (Qden x)) in
  if Qle_bool (pow2 e) x then e else e - 1.

(** The exponent of the unit in the last place of [x > 0] for a format
    with [prec] significant bits whose smallest unit is [2^qmin]. *)
Definition ulp_exp (prec : Z) (qmin : option Z) (x : Q) : Z :=
  let q := ilog2 x - (prec - 1) in
  match qmin with
  | Some m => Z.max q m
  | None => q
  end.

Definition round_pos (prec : Z) (qmin : option Z) (x : Q) : Q :=
  let q := ulp_exp prec qmin x in
  inject_Z (round_half_even (x * pow2 (- q))) * pow2 q.

(** Round to nearest, ties to even. *)
Definition round (prec : Z) (qmin : option Z) (x : Q) : Q :=
  match Qcompare x 0 with
  | Eq => 0
  | Gt => Qred (round_pos prec qmin x)
  | Lt => Qred (- round_pos prec qmin (- x))
  end.

(** The result of a binary64 operation whose exact value is [x].  The
    exponent range is left out: no operand of the scripts brings a result
    near either end of it. *)
Definition b64 (x : Q) : Q := round 53 None x.

(** [x * y], [x + y], [x - y], [x / y] on doubles *)
Definition fmul (x y : Q) : Q := b64 (x * y).
Definition fadd (x y : Q) : Q := b64 (x + y).
Definition fsub (x y : Q) : Q := b64 (x - y).
Definition fdiv (x y : Q) : Q := b64 (x / y).

(** The double nearest to [x] with subnormals: [None] when the rounded
    value is beyond the largest double. *)
Definition to_double (x : Q) : option Q :=
  let r := round 53 (Some (-1074)) x in
  if Qle_bool (pow2 1024) (Qabs r) then None else Some r.

(** The binary32 number nearest to [x], likewise. *)
Definition to_single (x : Q) : option Q :=
  let r := round 24 (Some (-149)) x in
  if Qle_bool (pow2 128) (Qabs r) then None else Some r.

End Binary.

(** ** Python floats *)

Module PyFloat.

(** A Python float: a finite binary64 number, carried as the rational it
    is, an infinity, or NaN.  A zero carries no sign: [-0.0] is
    [Finite 0], which compares, multiplies and sleeps as [0.0] does and
    differs from it only in its printed form. *)
Inductive t :=
| Finite (q : Q)
| Inf (negative : bool)
| NaN.

Definition digit_val (c : ascii) : Z := Z.of_N (N_of_ascii c) - 48.

(** [digitpart ::= digit (["_"] digit)*]; called after a first digit has
    been seen, returns the remaining digits and the unread input. *)
Fixpoint more_digits (l : list ascii) : list ascii * list ascii :=
  match l with
  | c :: l' =>
      if PyStr.is_digit c then
        let (ds, rest) := more_digits l' in (c :: ds, rest)
      else if Ascii.eqb c "_" then
        match l' with
        | d :: l'' =>
            if PyStr.is_digit d then
              let (ds, rest) := more_digits l'' in (d :: ds, rest)
            else ([], l)
        | [] => ([], l)
        end
      else ([], l)
  | [] => ([], [])
  end.

Definition digitpart (l : list ascii) : option (list ascii * list ascii) :=
  match l with
  | c :: l' =>
      if PyStr.is_digit c then
        let (ds, rest) := more_digits l' in Some (c :: ds, rest)
      else None
  | [] => None
  end.

Definition digits_val (ds : list ascii) : Z :=
  fold_left (fun acc c => 10 * acc + digit_val c) ds 0.

Definition sign (l : list ascii) : bool * list ascii :=
  match l with
  | c :: l' =>
      if Ascii.eqb c "-" then (true, l')
      else if Ascii.eqb c "+" then (false, l')
      else (false, l)
  | [] => (false, [])
  end.

(** [exponent ::= ("e" | "E") [sign] digitpart]; an absent exponent is 0 *)
Definition exponent (l : list ascii) : option (Z * list ascii) :=
  match l with
  | c :: l' =>
      if Ascii.eqb (PyStr.lower_ascii c) "e" then
        let (neg, l1) := sign l' in
        match digitpart l1 with
        | Some (ds, rest) =>
            Some ((if neg then - digits_val ds else digits_val ds), rest)
        | None => None
        end
      else Some (0, l)
  | [] => Some (0, [])
  end.

(** [number ::= [digitpart] "." digitpart | digitpart ["."]]; returns the
    integer digits, the fraction digits and the unread input. *)
Definition number (l : list ascii)
  : option (list ascii * list ascii * list ascii) :=
  match digitpart l with
  | Some (ip, rest) =>
      match rest with
      | c :: rest' =>
          if Ascii.eqb c "." then
            match digitpart rest' with
            | Some (fp, rest'') => Some (ip, fp, rest'')
            | None => Some (ip, [], rest')
            end
          else Some (ip, [], rest)
      | [] => Some (ip, [], [])
      end
  | None =>
      match l with
      | c :: rest' =>
          if Ascii.eqb c "." then
            match digitpart rest' with
            | Some (fp, rest'') => Some ([], fp, rest'')
            | None => None
            end
          else None
      | [] => None
      end
  end.

(** the value [m * 10^e] *)
Definition scale10 (m e : Z) : Q :=
  if 0 <=? e then inject_Z (m * 10 ^ e)
  else Qmake m (Z.to_pos (10 ^ (- e))).

(** The decimal number a [floatnumber] denotes, exactly. *)
Definition floatnumber (l : list ascii) : option Q :=
  match number l with
  | Some (ip, fp, rest) =>
      match exponent rest with
      | Some (e, []) =>
          Some (scale10 (digits_val (ip ++ fp)) (e - Z.of_nat (length fp)))
      | _ => None
      end
  | None => None
  end.

(** The double a decimal number is read as: the nearest one, an infinity
    beyond the largest. *)
Definition of_decimal (neg : bool) (q : Q) : t :=
  match Binary.to_double q with
  | Some r => Finite (if neg then Qred (Qopp r) else r)
  | None => Inf neg
  end.

Definition absfloatvalue (neg : bool) (l : list ascii) : option t :=
  let w := PyStr.lower (PyStr.of_chars l) in
  if String.eqb w "inf" || String.eqb w "infinity" then Some (Inf neg)
  else if String.eqb w "nan" then Some NaN
  else match floatnumber l with
       | Some q => Some (of_decimal neg q)
       | None => None
       end.

Fixpoint lstrip (l : list ascii) : list ascii :=
  match l with
  | c :: l' => if PyStr.is_space c then lstrip l' else l
  | [] => []
  end.

Definition strip (l : list ascii) : list ascii :=
  rev (lstrip (rev (lstrip l))).

(** [float(s)] for a string argument of ASCII text: [None] stands for
    [ValueError]. *)
Definition of_string (s : string) : option t :=
  let (neg, l) := sign (strip (PyStr.chars s)) in absfloatvalue neg l.

(** the float denotes the rational [q] *)
Definition denotes (f : t) (q : Q) : Prop :=
  match f with
  | Finite q' => Qeq q' q
  | _ => False
  end.

End PyFloat.

(** ** Values, observable actions and the process monad *)

(** Instances of [Exception] subclasses: the class name and [str(err)]. *)
Record exn := Exc { exn_class : string; exn_text : string }.

(** A [confluent_kafka.KafkaError]: its [code()] and [str()]. *)
Record KafkaError := mkKafkaError { code : Z; reason : string }.

(** [KafkaError._PARTITION_EOF] *)
Definition _PARTITION_EOF : Z := -191.

(** The dictionary built by [generate_random_transaction]. *)
Record transaction := mkTransaction {
  transaction_id : string;
  customer_id : string;
  amount : Q;
  timestamp_ms : Z
}.

(** A value decoded by the Avro deserializer. *)
Inductive scalar :=
| SString (s : string)
| SLong (z : Z)
| SFloat (f : PyFloat.t).

Inductive datum :=
| DNone
| DRecord (fields : list (string * scalar)).

(** Values interpolated into an f-string. *)
Inductive pyval :=
| VStr (s : string)
| VOptStr (o : option string)
| VInt (z : Z)
| VFloat (f : PyFloat.t)
| VTransaction (t : transaction)
| VDatum (d : datum)
| VKafkaError (e : KafkaError)
| VExn (e : exn).

(** An f-string: literal text and interpolated values, in order. *)
Inductive frag :=
| Lit (s : string)
| Fmt (v : pyval).

Definition fstring := list frag.

Inductive signal := SIGINT | SIGTERM.

Global Instance signal_eq_dec : EqDecision signal.
Proof. solve_decision. Defined.

(** The functions the scripts pass to [signal.signal]. *)
Inductive handler := ProducerShutdown | ConsumerShutdown.

(** Client configuration dictionaries: string-valued entries and entries
    holding a serializer object. *)
Inductive conf_value :=
| CStr (o : option string)
| CFmt (f : fstring)
| CStringSerializer (codec : string)
| CStringDeserializer (codec : string)
| CAvroSerializer
| CAvroDeserializer.

Definition conf := list (string * conf_value).

Inductive avro_type := AvroString | AvroFloat | AvroLong.

Record avro_record_schema := mkSchema {
  schema_name : string;
  schema_namespace : string;
  schema_fields : list (string * avro_type)
}.

Inductive event :=
| Print (line : fstring)
| LoadDotenv (path : string)
| NewSchemaRegistryClient (c : conf)
| NewAvroSerializer (schema : avro_record_schema)
| NewAvroDeserializer
| NewSerializingProducer (c : conf)
| NewDeserializingConsumer (c : conf)
| SignalSignal (sig : signal)
| Subscribe (topics : list (option string))
| ConsumerPoll (timeout : Q)
| Produce (topic : option string) (value : transaction)
| ProducerPoll (timeout : Z)
| Sleep (seconds : PyFloat.t)
| Flush (timeout : Z)
| Close.

(** The handles the claims call network clients. *)
Definition is_client_construction (e : event) : bool :=
  match e with
  | NewSchemaRegistryClient _ | NewAvroSerializer _ | NewAvroDeserializer
  | NewSerializingProducer _ | NewDeserializingConsumer _ => true
  | _ => false
  end.

Definition no_client_constructed (tr : list event) : bool :=
  forallb (fun e => negb (is_client_construction e)) tr.

(** The log level a printed line starts with.  The shutdown notices start
    with a newline before the tag. *)
Inductive level := INFO | WARN | ERROR.

Definition starts_with (p s : string) : bool := String.prefix p s.

Definition line_level (l : fstring) : option level :=
  match l with
  | Lit s :: _ =>
      if starts_with "[ERROR]" s then Some ERROR
      else if starts_with "[WARN]" s then Some WARN
      else if starts_with "[INFO]" s then Some INFO
      else None
  | _ => None
  end.

Definition is_print_at (lv : level) (e : event) : bool :=
  match e with
  | Print l =>
      match line_level l, lv with
      | Some ERROR, ERROR | Some WARN, WARN | Some INFO, INFO => true
      | _, _ => false
      end
  | _ => false
  end.

(** A message handed to the delivery callback or returned by [poll]. *)
Record message := mkMessage {
  msg_error : option KafkaError;
  msg_topic : string;
  msg_partition : Z;
  msg_offset : Z;
  msg_value : datum
}.

(** What the outside world answers.  A tape is read at the cursor kept in
    the process state. *)
Record oracle := mkOracle {
  (** [random.random()] is [k / 2^53] for the 53-bit integer [k] *)
  rnd : nat -> N;
  (** the system clock, in nanoseconds since the epoch *)
  clock : nat -> Z;
  (** what the broker hands up at a poll: nothing, or a message, which
      may carry an error *)
  polls : nat -> option message;
  (** whether the Avro deserializer fails on the message of that poll *)
  decode_raises : nat -> option exn;
  (** [producer.produce(...)]: returns, or raises *)
  produce_raises : nat -> option exn;
  (** [producer.poll(0)]: the delivery reports served, then returns or raises *)
  reports : nat -> list (option KafkaError * message) * option exn;
  (** the delivery reports still pending when [producer.flush] is called *)
  flushed : list (option KafkaError * message);
  (** whether the constructor call recorded as this event raises *)
  constructor_raises : event -> option exn;
  (** whether the operating system refuses a sleep of this length *)
  sleep_raises : PyFloat.t -> option exn
}.

Record world := mkWorld {
  environ : gmap string string;
  trace : list event;
  handlers : list (signal * handler);
  rnd_pos : nat;
  clock_pos : nat;
  polls_pos : nat;
  produce_pos : nat;
  reports_pos : nat
}.

Definition initial_world (env : gmap string string) : world :=
  mkWorld env [] [] 0 0 0 0 0.

(** How a computation ends: normally, by an exception derived from
    [Exception], or by [sys.exit(code)] ([SystemExit] is not an
    [Exception] and is caught by no handler in either script). *)
Inductive result (A : Type) :=
| Ret (a : A)
| Raise (e : exn)
| Exit (code : Z).
Arguments Ret {A} a.
Arguments Raise {A} e.
Arguments Exit {A} code.

Definition M (A : Type) : Type := oracle -> world -> result A * world.

Definition ret {A} (a : A) : M A := fun _ w => (Ret a, w).

Definition bind {A B} (m : M A) (k : A -> M B) : M B :=
  fun o w =>
    match m o w with
    | (Ret a, w') => k a o w'
    | (Raise e, w') => (Raise e, w')
    | (Exit c, w') => (Exit c, w')
    end.

Declare Scope py_scope.
Delimit Scope py_scope with py.
Notation "x <- m ;; k" := (bind m (fun x => k))
  (at level 100, m at next level, right associativity) : py_scope.
Notation "m ;; k" := (bind m (fun _ => k))
  (at level 100, right associativity) : py_scope.
Local Open Scope py_scope.

Definition raise {A} (e : exn) : M A := fun _ w => (Raise e, w).

(** [sys.exit(code)] *)
Definition sys_exit {A} (c : Z) : M A := fun _ w => (Exit c, w).

(** [try: body except Exception as err: handler(err)] *)
Definition try_except {A} (body : M A) (handler : exn -> M A) : M A :=
  fun o w =>
    match body o w with
    | (Raise e, w') => handler e o w'
    | r => r
    end.

Definition emit (e : event) : M unit :=
  fun _ w =>
    (Ret tt, mkWorld (environ w) (trace w ++ [e]) (handlers w) (rnd_pos w)
                     (clock_pos w) (polls_pos w) (produce_pos w) (reports_pos w)).

Definition print (l : fstring) : M unit := emit (Print l).

(** A constructor of a client class: it returns the handle, or raises. *)
Definition construct (e : event) : M unit :=
  fun o w =>
    match constructor_raises o e with
    | Some x => (Raise x, w)
    | None => emit e o w
    end.

(** [os.getenv(k)] *)
Definition getenv (k : string) : M (option string) :=
  fun _ w => (Ret (environ w !! k), w).

(** [os.getenv(k, d)] *)
Definition getenv_default (k d : string) : M string :=
  fun _ w => (Ret (default d (environ w !! k)), w).

(** [load_dotenv(path)] with the default [override=False]: the keys of the
    file are added to [os.environ], keys already set keep their value.
    The file is given by the dictionary [dotenv_values] parses it to. *)
Definition load_dotenv (path : string) (parsed : gmap string string) : M unit :=
  fun _ w =>
    (Ret tt, mkWorld (environ w ∪ parsed) (trace w ++ [LoadDotenv path]) (handlers w)
                     (rnd_pos w) (clock_pos w) (polls_pos w) (produce_pos w)
                     (reports_pos w)).

(** [signal.signal(sig, h)]: from now on [h] is the handler of [sig] *)
Definition signal_signal (sig : signal) (h : handler) : M unit :=
  fun _ w =>
    (Ret tt, mkWorld (environ w) (trace w ++ [SignalSignal sig])
                     ((sig, h) :: handlers w)
                     (rnd_pos w) (clock_pos w) (polls_pos w) (produce_pos w)
                     (reports_pos w)).

(** [signal.getsignal(sig)], when a Python function is installed *)
Fixpoint getsignal (sig : signal) (hs : list (signal * handler)) : option handler :=
  match hs with
  | [] => None
  | (s, h) :: hs' => if bool_decide (s = sig) then Some h else getsignal sig hs'
  end.

(** The status the operating system sees: [sys.exit(c)] gives [c], an
    uncaught exception gives 1, falling off the end of the script gives 0. *)
Definition exit_status {A} (r : result A) : Z :=
  match r with
  | Ret _ => 0
  | Raise _ => 1
  | Exit c => c
  end.

(** The command line and the files next to the script. *)
Record invocation := mkInvocation {
  argv : list string;
  files : gmap string (gmap string string)
}.

(** ** Builtins and library calls used by the loops *)

Definition take_rnd (w : world) : world :=
  mkWorld (environ w) (trace w) (handlers w) (S (rnd_pos w)) (clock_pos w)
          (polls_pos w) (produce_pos w) (reports_pos w).

Definition take_clock (w : world) : world :=
  mkWorld (environ w) (trace w) (handlers w) (rnd_pos w) (S (clock_pos w))
          (polls_pos w) (produce_pos w) (reports_pos w).

Definition take_poll (w : world) : world :=
  mkWorld (environ w) (trace w) (handlers w) (rnd_pos w) (clock_pos w)
          (S (polls_pos w)) (produce_pos w) (reports_pos w).

Definition take_produce (w : world) : world :=
  mkWorld (environ w) (trace w) (handlers w) (rnd_pos w) (clock_pos w)
          (polls_pos w) (S (produce_pos w)) (reports_pos w).

Definition take_reports (w : world) : world :=
  mkWorld (environ w) (trace w) (handlers w) (rnd_pos w) (clock_pos w)
          (polls_pos w) (produce_pos w) (S (reports_pos w)).

(** [random.random()]: a multiple of [2^-53] in [[0, 1)] *)
Definition random : M Q :=
  fun o w =>
    (Ret (Qmake (Z.of_N (rnd o (rnd_pos w)) mod 2 ^ 53) (2 ^ 53)), take_rnd w).

(** [random.uniform(a, b)] is [a + (b - a) * random()] *)
Definition uniform (a b : Q) : M Q :=
  r <- random;;
  ret (Binary.fadd a (Binary.fmul (Binary.fsub b a) r)).

(** [random.choices(population, k=k)] without weights: with
    [n = len(population) + 0.0],
    [[population[floor(random() * n)] for i in _repeat(None, k)]] *)
Fixpoint choices (population : list ascii) (k : nat) : M (list ascii) :=
  match k with
  | O => ret []
  | S k' =>
      r <- random;;
      let n := Binary.b64 (inject_Z (Z.of_nat (length population))) in
      let i := Qfloor (Binary.fmul r n) in
      match population !! Z.to_nat i with
      | Some c =>
          cs <- choices population k';;
          ret (c :: cs)
      | None => raise (Exc "IndexError" "list index out of range")
      end
  end.

(** [round(x, ndigits)] for a float and [ndigits >= 0]: the double
    nearest to the decimal with [ndigits] places nearest to [x]. *)
Definition py_round (x : Q) (ndigits : Z) : Q :=
  Binary.b64
    (Qmake (round_half_even (x * inject_Z (10 ^ ndigits))) (Z.to_pos (10 ^ ndigits))).

(** [int(x)] for a finite float: truncation towards zero *)
Definition py_int (x : Q) : Z := Z.quot (Qnum x) (Zpos (Qden x)).

(** A count of nanoseconds as the system call returns it: 64 bits, signed. *)
Definition wrap_int64 (z : Z) : Z := (z + 2 ^ 63) mod 2 ^ 64 - 2 ^ 63.

Definition SEC_TO_NS : Z := 1000000000.

(** The interpreter's conversion of a nanosecond count to seconds in a
    double: exact for whole seconds, otherwise the count is converted to
    a double and divided by [1e9]. *)
Definition seconds_as_double (t : Z) : Q :=
  if Z.rem t SEC_TO_NS =? 0 then Binary.b64 (inject_Z (Z.quot t SEC_TO_NS))
  else Binary.fdiv (Binary.b64 (inject_Z t)) (inject_Z SEC_TO_NS).

(** The double [time.time()] returns at position [i] of the clock tape. *)
Definition time_at (o : oracle) (i : nat) : Q :=
  seconds_as_double (wrap_int64 (clock o i)).

(** [time.time()] *)
Definition time_time : M Q :=
  fun o w => (Ret (time_at o (clock_pos w)), take_clock w).

(** Rounding a double to an integer away from zero. *)
Definition round_away (d : Q) : Z :=
  if Qle_bool 0 d then Qceiling d else Qfloor d.

(** [time.sleep(secs)]: NaN is refused; the length is converted to
    nanoseconds, rounding away from zero, and must fit 64 bits; a
    negative length is refused; then the operating system sleeps, or
    refuses.  (At exactly [2^63] nanoseconds the class of the exception
    depends on the interpreter build; the call raises either way.) *)
Definition time_sleep (secs : PyFloat.t) : M unit :=
  match secs with
  | PyFloat.NaN => raise (Exc "ValueError" "Invalid value NaN (not a number)")
  | PyFloat.Inf _ =>
      raise (Exc "OverflowError" "timestamp too large to convert to C _PyTime_t")
  | PyFloat.Finite q =>
      let ns := round_away (Binary.fmul q (inject_Z SEC_TO_NS)) in
      if (ns <? - 2 ^ 63) || (2 ^ 63 <=? ns) then
        raise (Exc "OverflowError" "timestamp too large to convert to C _PyTime_t")
      else if ns <? 0 then
        raise (Exc "ValueError" "sleep length must be non-negative")
      else
        fun o w =>
          match sleep_raises o secs with
          | Some e => (Raise e, w)
          | None => emit (Sleep secs) o w
          end
  end.

(** [for x in l: f(x)] *)
Fixpoint for_each {A} (l : list A) (f : A -> M unit) : M unit :=
  match l with
  | [] => ret tt
  | x :: l' => f x;; for_each l' f
  end.

(** [n] rounds of [while True: body]; the loop is left only by an
    exception or an exit escaping the body. *)
Fixpoint while_true (n : nat) (body : M unit) : M unit :=
  match n with
  | O => ret tt
  | S n' => body;; while_true n' body
  end.

(** [float(s)]: raises [ValueError] on text that is not a float literal *)
Definition py_float (s : string) : M PyFloat.t :=
  match PyFloat.of_string s with
  | Some f => ret f
  | None =>
      raise (Exc "ValueError" ("could not convert string to float: " +:+ PyStr.repr s))
  end.

Definition required_vars : list string :=
  [ "BOOTSTRAP_SERVER"; "SASL_USERNAME"; "SASL_PASSWORD"; "TOPIC_NAME";
    "SCHEMA_REGISTRY_URL"; "SCHEMA_REGISTRY_API_KEY"; "SCHEMA_REGISTRY_API_SECRET" ].

(** ** The Avro value on the wire *)

(** The bytes [AvroSerializer] writes and [AvroDeserializer] reads, after
    the Avro specification (binary encoding of [string], [float], [long]
    and records) and the schema-registry framing (a zero byte, the schema
    id in four bytes, the payload).  A byte is a [Z] in [[0, 256)]; [None]
    stands for the exception the library raises. *)

Module Avro.

(** [(n << 1) ^ (n >> 63)] *)
Definition zigzag (n : Z) : Z := Z.lxor (Z.shiftl n 1) (Z.shiftr n 63).

(** [(n >> 1) ^ -(n & 1)] *)
Definition unzigzag (n : Z) : Z := Z.lxor (Z.shiftr n 1) (- Z.land n 1).

(** [while (datum & ~0x7F) != 0: write((datum & 0x7f) | 0x80); datum >>= 7]
    and then [write(datum)], for at most [fuel] rounds of the loop. *)
Fixpoint write_varint (fuel : nat) (datum : Z) : list Z :=
  match fuel with
  | O => [datum]
  | S fuel' =>
      if Z.land datum (Z.lnot 127) =? 0 then [datum]
      else Z.lor (Z.land datum 127) 128 :: write_varint fuel' (Z.shiftr datum 7)
  end.

(** [write_long]: the loop runs once per seven bits of the datum. *)
Definition write_long (n : Z) : list Z :=
  let datum := zigzag n in
  write_varint (Z.to_nat (Z.log2 datum / 7)) datum.

(** [n |= (b & 0x7F) << shift] for each byte up to the first one without
    the continuation bit; the first byte enters with [n = 0], [shift = 0]. *)
Fixpoint read_varint (bs : list Z) (n shift : Z) : option (Z * list Z) :=
  match bs with
  | [] => None
  | b :: bs' =>
      let n' := Z.lor n (Z.shiftl (Z.land b 127) shift) in
      if Z.land b 128 =? 0 then Some (n', bs')
      else read_varint bs' n' (shift + 7)
  end.

Definition read_long (bs : list Z) : option (Z * list Z) :=
  match read_varint bs 0 0 with
  | Some (n, rest) => Some (unzigzag n, rest)
  | None => None
  end.

(** The UTF-8 encoding of a code point below 256: itself below 128, two
    bytes from there on. *)
Definition utf8 (c : ascii) : list Z :=
  let n := Z.of_N (N_of_ascii c) in
  if n <? 128 then [n] else [192 + n / 64; 128 + n mod 64].

(** [s.encode('utf-8')] *)
Definition bytes_of (s : string) : list Z := flat_map utf8 (PyStr.chars s).

(** [bs.decode('utf-8')]; [None] for bytes that are not the encoding of
    code points below 256. *)
Fixpoint utf8_decode (bs : list Z) : option (list ascii) :=
  match bs with
  | [] => Some []
  | b :: bs' =>
      if (0 <=? b) && (b <? 128) then
        cons (ascii_of_N (Z.to_N b)) <$> utf8_decode bs'
      else
        match bs' with
        | b' :: bs'' =>
            if (194 <=? b) && (b <=? 195) && (128 <=? b') && (b' <? 192) then
              cons (ascii_of_N (Z.to_N ((b - 192) * 64 + (b' - 128))))
                <$> utf8_decode bs''
            else None
        | [] => None
        end
  end.

Definition string_of (bs : list Z) : option string :=
  PyStr.of_chars <$> utf8_decode bs.

(** [write_utf8]: the length of the encoding as a long, then its bytes *)
Definition write_string (s : string) : list Z :=
  write_long (Z.of_nat (length (bytes_of s))) ++ bytes_of s.

(** [read_utf8]: the length, then that many bytes, decoded *)
Definition read_string (bs : list Z) : option (string * list Z) :=
  match read_long bs with
  | Some (n, rest) =>
      if (n <? 0) || (Z.of_nat (length rest) <? n) then None
      else
        match string_of (take (Z.to_nat n) rest) with
        | Some s => Some (s, drop (Z.to_nat n) rest)
        | None => None
        end
  | None => None
  end.

(** The bit pattern of a finite binary32 number: sign, eight bits of
    biased exponent, twenty-three bits of fraction. *)
Definition single_bits (r : Q) : Z :=
  match Qcompare r 0 with
  | Eq => 0
  | c =>
      let s := match c with Lt => 2 ^ 31 | _ => 0 end in
      let a := Qabs r in
      let e := Binary.ilog2 a in
      if e <? -126 then s + Qfloor (a * Binary.pow2 149)%Q
      else s + (e + 127) * 2 ^ 23 + (Qfloor (a * Binary.pow2 (23 - e))%Q - 2 ^ 23)
  end.

Definition float_bits (f : PyFloat.t) : option Z :=
  match f with
  | PyFloat.Finite q =>
      match Binary.to_single q with
      | Some r => Some (single_bits r)
      | None => None
      end
  | PyFloat.Inf false => Some (255 * 2 ^ 23)
  | PyFloat.Inf true => Some (2 ^ 31 + 255 * 2 ^ 23)
  | PyFloat.NaN => Some (255 * 2 ^ 23 + 2 ^ 22)
  end.

Definition float_of_bits (b : Z) : PyFloat.t :=
  let neg := 2 ^ 31 <=? b in
  let ef := (b / 2 ^ 23) mod 256 in
  let mf := b mod 2 ^ 23 in
  if ef =? 255 then (if mf =? 0 then PyFloat.Inf neg else PyFloat.NaN)
  else
    let a := if ef =? 0 then (inject_Z mf * Binary.pow2 (-149))%Q
             else (inject_Z (2 ^ 23 + mf) * Binary.pow2 (ef - 150))%Q in
    PyFloat.Finite (Qred (if neg then Qopp a else a)).

(** Four bytes, least significant first. *)
Definition le32 (b : Z) : list Z :=
  [b mod 256; (b / 256) mod 256; (b / 65536) mod 256; (b / 16777216) mod 256].

Definition of_le32 (b0 b1 b2 b3 : Z) : Z :=
  b0 + 256 * b1 + 65536 * b2 + 16777216 * b3.

(** [pack('<f', x)]: the double is narrowed to binary32 *)
Definition write_float (f : PyFloat.t) : option (list Z) :=
  match float_bits f with
  | Some b => Some (le32 b)
  | None => None
  end.

Definition read_float (bs : list Z) : option (PyFloat.t * list Z) :=
  match bs with
  | b0 :: b1 :: b2 :: b3 :: rest => Some (float_of_bits (of_le32 b0 b1 b2 b3), rest)
  | _ => None
  end.

Definition write_datum (ty : avro_type) (v : scalar) : option (list Z) :=
  match ty, v with
  | AvroString, SString s => Some (write_string s)
  | AvroFloat, SFloat f => write_float f
  | AvroLong, SLong z => Some (write_long z)
  | _, _ => None
  end.

Definition read_datum (ty : avro_type) (bs : list Z) : option (scalar * list Z) :=
  match ty with
  | AvroString =>
      match read_string bs with
      | Some (s, rest) => Some (SString s, rest)
      | None => None
      end
  | AvroFloat =>
      match read_float bs with
      | Some (f, rest) => Some (SFloat f, rest)
      | None => None
      end
  | AvroLong =>
      match read_long bs with
      | Some (z, rest) => Some (SLong z, rest)
      | None => None
      end
  end.

(** A record: the values of its fields in the order the schema declares
    them, each looked up by name in the dictionary. *)
Fixpoint write_record (fields : list (string * avro_type))
    (dict : string -> option scalar) : option (list Z) :=
  match fields with
  | [] => Some []
  | (name, ty) :: fields' =>
      match dict name with
      | Some v =>
          match write_datum ty v, write_record fields' dict with
          | Some b, Some bs => Some (b ++ bs)
          | _, _ => None
          end
      | None => None
      end
  end.

Fixpoint read_record (fields : list (string * avro_type)) (bs : list Z)
  : option (list (string * scalar) * list Z) :=
  match fields with
  | [] => Some ([], bs)
  | (name, ty) :: fields' =>
      match read_datum ty bs with
      | Some (v, rest) =>
          match read_record fields' rest with
          | Some (vs, rest') => Some ((name, v) :: vs, rest')
          | None => None
          end
      | None => None
      end
  end.

(** The framing: [pack('>bI', 0, schema_id)] before the payload. *)
Definition frame (schema_id : Z) (payload : list Z) : list Z :=
  0 :: (schema_id / 16777216) mod 256 :: (schema_id / 65536) mod 256
    :: (schema_id / 256) mod 256 :: schema_id mod 256 :: payload.

Definition unframe (bs : list Z) : option (Z * list Z) :=
  match bs with
  | magic :: b3 :: b2 :: b1 :: b0 :: payload =>
      if magic =? 0 then Some (of_le32 b0 b1 b2 b3, payload) else None
  | _ => None
  end.

End Avro.

(** ** The producer script, module level *)

Module Producer.

Definition load_environment_file (inv : invocation) : M unit :=
  env_file <-
    match argv inv with
    | _ :: arg1 :: _ =>
        let env_arg := PyStr.lower arg1 in
        if bool_decide (env_arg ∈ ["east"; "west"]) then ret (env_arg +:+ ".env")
        else
          print [Lit "[ERROR] Invalid environment argument: "; Fmt (VStr env_arg)];;
          print [Lit "[INFO] Valid options: 'east', 'west'"];;
          sys_exit 1
    | _ => ret ".env"
    end;;
  match files inv !! env_file with
  | Some parsed =>
      load_dotenv env_file parsed;;
      print [Lit "[INFO] Loaded environment from "; Fmt (VStr env_file)]
  | None =>
      print [Lit "[ERROR] "; Fmt (VStr env_file);
             Lit " does not exist. Please generate or provide it."];;
      sys_exit 1
  end.

Definition TRANSACTION_SCHEMA : avro_record_schema :=
  mkSchema "Transaction" "com.example"
    [ ("transaction_id", AvroString); ("customer_id", AvroString);
      ("amount", AvroFloat); ("timestamp_ms", AvroLong) ].

Definition transaction_to_avro (t : transaction) : transaction :=
  {| transaction_id := transaction_id t;
     customer_id := customer_id t;
     amount := amount t;
     timestamp_ms := timestamp_ms t |}.

(** The dictionary as the Avro writer reads it: a value for each key. *)
Definition to_dict (t : transaction) (key : string) : option scalar :=
  if String.eqb key "transaction_id" then Some (SString (transaction_id t))
  else if String.eqb key "customer_id" then Some (SString (customer_id t))
  else if String.eqb key "amount" then Some (SFloat (PyFloat.Finite (amount t)))
  else if String.eqb key "timestamp_ms" then Some (SLong (timestamp_ms t))
  else None.

(** The module-level names bound by the configuration section. *)
Record globals := mkGlobals {
  BOOTSTRAP_SERVER : option string;
  SASL_USERNAME : option string;
  SASL_PASSWORD : option string;
  TOPIC_NAME : option string;
  SCHEMA_REGISTRY_URL : option string;
  SCHEMA_REGISTRY_API_KEY : option string;
  SCHEMA_REGISTRY_API_SECRET : option string;
  MESSAGE_INTERVAL : PyFloat.t
}.

(** [[var for var in required_vars if os.getenv(var) is None]] *)
Definition missing_vars (env : gmap string string) : list string :=
  List.filter (fun var => bool_decide (env !! var = None)) required_vars.

Definition schema_registry_conf (g : globals) : conf :=
  [ ("url", CStr (SCHEMA_REGISTRY_URL g));
    ("basic.auth.user.info",
     CFmt [Fmt (VOptStr (SCHEMA_REGISTRY_API_KEY g)); Lit ":";
           Fmt (VOptStr (SCHEMA_REGISTRY_API_SECRET g))]) ].

Definition producer_conf (g : globals) : conf :=
  [ ("bootstrap.servers", CStr (BOOTSTRAP_SERVER g));
    ("security.protocol", CStr (Some "SASL_SSL"));
    ("sasl.mechanism", CStr (Some "PLAIN"));
    ("sasl.username", CStr (SASL_USERNAME g));
    ("sasl.password", CStr (SASL_PASSWORD g));
    ("key.serializer", CStringSerializer "utf_8");
    ("value.serializer", CAvroSerializer) ].

(** Lines 131-157: read the environment and validate it. *)
Definition settings : M globals :=
  bootstrap_server <- getenv "BOOTSTRAP_SERVER";;
  sasl_username <- getenv "SASL_USERNAME";;
  sasl_password <- getenv "SASL_PASSWORD";;
  topic_name <- getenv "TOPIC_NAME";;
  schema_registry_url <- getenv "SCHEMA_REGISTRY_URL";;
  schema_registry_api_key <- getenv "SCHEMA_REGISTRY_API_KEY";;
  schema_registry_api_secret <- getenv "SCHEMA_REGISTRY_API_SECRET";;
  interval_text <- getenv_default "MESSAGE_INTERVAL" "1.0";;
  message_interval <- py_float interval_text;;
  missing <- (fun _ w => (Ret (missing_vars (environ w)), w));;
  match missing with
  | _ :: _ =>
      print [Lit "[ERROR] Missing required environment variables: ";
             Fmt (VStr (PyStr.join ", " missing))];;
      sys_exit 1
  | [] =>
      ret (mkGlobals bootstrap_server sasl_username sasl_password topic_name
             schema_registry_url schema_registry_api_key
             schema_registry_api_secret message_interval)
  end.

(** Lines 129-157: load the environment file, then read and validate. *)
Definition configuration (inv : invocation) : M globals :=
  load_environment_file inv;;
  settings.

(** Lines 159-202: the clients are built, each constructor returning or
    raising, then [handle_shutdown] is registered for both signals. *)
Definition clients (g : globals) : M unit :=
  construct (NewSchemaRegistryClient (schema_registry_conf g));;
  construct (NewAvroSerializer TRANSACTION_SCHEMA);;
  construct (NewSerializingProducer (producer_conf g));;
  signal_signal SIGINT ProducerShutdown;;
  signal_signal SIGTERM ProducerShutdown.

(** Everything the script runs before [main()]. *)
Definition startup (inv : invocation) : M globals :=
  g <- configuration inv;;
  clients g;;
  ret g.

(** [generate_random_transaction()] *)
Definition generate_random_transaction : M transaction :=
  tid <- choices (PyStr.chars (PyStr.ascii_uppercase +:+ PyStr.digits)) 8;;
  let transaction_id := PyStr.of_chars tid in
  cid <- choices (PyStr.chars PyStr.ascii_lowercase) 6;;
  let customer_id := PyStr.of_chars cid in
  u <- uniform 1 1000;;
  let amount := py_round u 2 in
  now <- time_time;;
  let timestamp_ms := py_int (Binary.fmul now 1000) in
  ret (mkTransaction transaction_id customer_id amount timestamp_ms).

(** [delivery_callback(err, msg)] *)
Definition delivery_callback (err : option KafkaError) (msg : message) : M unit :=
  match err with
  | Some e => print [Lit "[ERROR] Message failed delivery: "; Fmt (VKafkaError e)]
  | None =>
      print [Lit "[INFO] Message delivered to "; Fmt (VStr (msg_topic msg));
             Lit " ["; Fmt (VInt (msg_partition msg)); Lit "] at offset ";
             Fmt (VInt (msg_offset msg))]
  end.

(** [producer.flush(timeout)]: the delivery reports still pending are
    served through the callback given to [produce]; the count of messages
    left in the queue is returned. *)
Definition producer_flush (timeout : Z) : M unit :=
  fun o w =>
    (emit (Flush timeout);;
     for_each (flushed o) (fun r => delivery_callback (fst r) (snd r))) o w.

(** [handle_shutdown(signal_received, frame)] *)
Definition handle_shutdown (signal_received : signal) : M unit :=
  print [Lit "
[INFO] Shutdown signal received. Flushing producer."];;
  producer_flush 10;;
  sys_exit 0.

(** The bytes [avro_serializer] makes of a record: the dictionary
    [transaction_to_avro] returns, written field by field after
    [TRANSACTION_SCHEMA] and framed with the id the registry gave the
    schema.  [None] is a [ValueSerializationError]. *)
Definition avro_serializer (schema_id : Z) (t : transaction) : option (list Z) :=
  Avro.frame schema_id
    <$> Avro.write_record (schema_fields TRANSACTION_SCHEMA)
          (to_dict (transaction_to_avro t)).

(** [producer.produce(topic=..., value=..., key=None, on_delivery=...)]:
    the value goes through [transaction_to_avro] and is queued, or the
    call raises. *)
Definition produce (topic : option string) (value : transaction) : M unit :=
  fun o w =>
    match produce_raises o (produce_pos w) with
    | Some e => (Raise e, take_produce w)
    | None => emit (Produce topic (transaction_to_avro value)) o (take_produce w)
    end.

(** [producer.poll(0)]: serves the delivery reports that are ready through
    the callback given to [produce]. *)
Definition producer_poll (timeout : Z) : M unit :=
  fun o w =>
    let (served, failure) := reports o (reports_pos w) in
    (emit (ProducerPoll timeout);;
     for_each served (fun r => delivery_callback (fst r) (snd r));;
     match failure with
     | Some e => raise e
     | None => ret tt
     end) o (take_reports w).

(** The [try] block of the loop of [main()]. *)
Definition attempt (g : globals) : M unit :=
  transaction_record <- generate_random_transaction;;
  produce (TOPIC_NAME g) transaction_record;;
  producer_poll 0;;
  print [Lit "[INFO] Produced record: "; Fmt (VTransaction transaction_record)];;
  time_sleep (MESSAGE_INTERVAL g).

(** One round of the [while True] of [main()]: the [try] block and its
    [except Exception as err] clause. *)
Definition loop_body (g : globals) : M unit :=
  try_except (attempt g)
    (fun err =>
       print [Lit "[ERROR] Exception while producing message: "; Fmt (VExn err)]).

(** [main()], observed for [n] rounds of its loop *)
Definition main (g : globals) (n : nat) : M unit :=
  print [Lit "[INFO] Starting Avro producer for Confluent Cloud..."];;
  print [Lit "[INFO] Kafka Bootstrap: "; Fmt (VOptStr (BOOTSTRAP_SERVER g))];;
  print [Lit "[INFO] Topic: "; Fmt (VOptStr (TOPIC_NAME g))];;
  print [Lit "[INFO] Schema Registry: "; Fmt (VOptStr (SCHEMA_REGISTRY_URL g))];;
  print [Lit "[INFO] Producing a message every "; Fmt (VFloat (MESSAGE_INTERVAL g));
         Lit " seconds.
"];;
  print [Lit "[INFO] Press Ctrl+C to exit."];;
  while_true n (loop_body g).

End Producer.

(** ** The consumer script, module level *)

Module Consumer.

Definition load_environment_file (inv : invocation) : M unit :=
  env_file <-
    match argv inv with
    | _ :: arg1 :: _ =>
        let env_arg := PyStr.lower arg1 in
        if bool_decide (env_arg ∈ ["east"; "west"]) then ret (env_arg +:+ ".env")
        else
          print [Lit "[ERROR] Invalid environment argument: "; Fmt (VStr env_arg)];;
          print [Lit "[INFO] Valid options: 'east', 'west'"];;
          sys_exit 1
    | _ => ret ".env"
    end;;
  match files inv !! env_file with
  | Some parsed =>
      load_dotenv env_file parsed;;
      print [Lit "[INFO] Loaded environment from "; Fmt (VStr env_file)]
  | None =>
      print [Lit "[ERROR] "; Fmt (VStr env_file);
             Lit " does not exist. Please generate or provide it."];;
      sys_exit 1
  end.

Record globals := mkGlobals {
  BOOTSTRAP_SERVER : option string;
  SASL_USERNAME : option string;
  SASL_PASSWORD : option string;
  TOPIC_NAME : option string;
  CONSUMER_GROUP : option string;
  SCHEMA_REGISTRY_URL : option string;
  SCHEMA_REGISTRY_API_KEY : option string;
  SCHEMA_REGISTRY_API_SECRET : option string
}.

(** [[v for v in required_vars if not os.getenv(v)]] *)
Definition missing_vars (env : gmap string string) : list string :=
  List.filter (fun v => negb (PyStr.truthy (env !! v))) required_vars.

Definition schema_registry_conf (g : globals) : conf :=
  [ ("url", CStr (SCHEMA_REGISTRY_URL g));
    ("basic.auth.user.info",
     CFmt [Fmt (VOptStr (SCHEMA_REGISTRY_API_KEY g)); Lit ":";
           Fmt (VOptStr (SCHEMA_REGISTRY_API_SECRET g))]) ].

Definition consumer_conf (g : globals) : conf :=
  [ ("bootstrap.servers", CStr (BOOTSTRAP_SERVER g));
    ("security.protocol", CStr (Some "SASL_SSL"));
    ("sasl.mechanism", CStr (Some "PLAIN"));
    ("sasl.username", CStr (SASL_USERNAME g));
    ("sasl.password", CStr (SASL_PASSWORD g));
    ("key.deserializer", CStringDeserializer "utf_8");
    ("value.deserializer", CAvroDeserializer);
    ("group.id", CStr (CONSUMER_GROUP g));
    ("auto.offset.reset", CStr (Some "earliest")) ].

(** Lines 83-107: read the environment, validate it, default the
    consumer group. *)
Definition settings : M globals :=
  bootstrap_server <- getenv "BOOTSTRAP_SERVER";;
  sasl_username <- getenv "SASL_USERNAME";;
  sasl_password <- getenv "SASL_PASSWORD";;
  topic_name <- getenv "TOPIC_NAME";;
  consumer_group <- getenv "CONSUMER_GROUP";;
  schema_registry_url <- getenv "SCHEMA_REGISTRY_URL";;
  schema_registry_api_key <- getenv "SCHEMA_REGISTRY_API_KEY";;
  schema_registry_api_secret <- getenv "SCHEMA_REGISTRY_API_SECRET";;
  missing <- (fun _ w => (Ret (missing_vars (environ w)), w));;
  match missing with
  | _ :: _ =>
      print [Lit "[ERROR] Missing environment variables: ";
             Fmt (VStr (PyStr.join ", " missing))];;
      sys_exit 1
  | [] =>
      consumer_group <-
        (if PyStr.truthy consumer_group then ret consumer_group
         else
           let consumer_group := Some "demo-dr-consumer-group" in
           print [Lit "[WARN] 'CONSUMER_GROUP' is not set. Using default: ";
                  Fmt (VOptStr consumer_group)];;
           ret consumer_group);;
      ret (mkGlobals bootstrap_server sasl_username sasl_password topic_name
             consumer_group schema_registry_url schema_registry_api_key
             schema_registry_api_secret)
  end.

(** Lines 78-107: load the environment file, then read and validate. *)
Definition configuration (inv : invocation) : M globals :=
  load_environment_file inv;;
  settings.

(** Lines 112-150: the clients are built, each constructor returning or
    raising, then [handle_shutdown] is registered for both signals. *)
Definition clients (g : globals) : M unit :=
  construct (NewSchemaRegistryClient (schema_registry_conf g));;
  construct NewAvroDeserializer;;
  construct (NewDeserializingConsumer (consumer_conf g));;
  signal_signal SIGINT ConsumerShutdown;;
  signal_signal SIGTERM ConsumerShutdown.

Definition startup (inv : invocation) : M globals :=
  g <- configuration inv;;
  clients g;;
  ret g.

(** [handle_shutdown(sig, frame)] *)
Definition handle_shutdown (sig : signal) : M unit :=
  print [Lit "
[INFO] Shutdown signal received. Closing consumer."];;
  emit Close;;
  sys_exit 0.

(** The exception [DeserializingConsumer.poll] raises for a result that
    carries an error. *)
Definition ConsumeError (err : KafkaError) : exn := Exc "ConsumeError" (reason err).

(** The record [avro_deserializer] makes of a message value: the schema is
    looked up in the registry by the id in the frame (no reader schema is
    given), and the fields are read in its order.  [None] is a
    [ValueDeserializationError]. *)
Definition avro_deserializer (registry : gmap Z avro_record_schema) (bs : list Z)
  : option datum :=
  match Avro.unframe bs with
  | Some (schema_id, payload) =>
      match registry !! schema_id with
      | Some schema =>
          match Avro.read_record (schema_fields schema) payload with
          | Some (fields, _) => Some (DRecord fields)
          | None => None
          end
      | None => None
      end
  | None => None
  end.

(** [consumer.poll(timeout=1.0)] of a [DeserializingConsumer]: nothing
    arrived and [None] is returned; or the result carries an error and
    [ConsumeError] is raised; or a deserializer fails and its error is
    raised; or the message is returned with its value decoded. *)
Definition consumer_poll (timeout : Q) : M (option message) :=
  fun o w =>
    (emit (ConsumerPoll timeout);;
     match polls o (polls_pos w) with
     | None => ret None
     | Some msg =>
         match msg_error msg with
         | Some err => raise (ConsumeError err)
         | None =>
             match decode_raises o (polls_pos w) with
             | Some e => raise e
             | None => ret (Some msg)
             end
         end
     end) o (take_poll w).

(** One round of the [while True] of [main()]. *)
Definition loop_body : M unit :=
  msg <- consumer_poll 1;;
  match msg with
  | None => ret tt
  | Some msg =>
      match msg_error msg with
      | Some err =>
          if code err =? _PARTITION_EOF then ret tt
          else print [Lit "[ERROR] "; Fmt (VKafkaError err)]
      | None =>
          let record_value := msg_value msg in
          let partition := msg_partition msg in
          let offset := msg_offset msg in
          print [Lit "[INFO] Consumed record @ offset "; Fmt (VInt offset);
                 Lit ", partition "; Fmt (VInt partition); Lit ": ";
                 Fmt (VDatum record_value)]
      end
  end.

(** [main()], observed for [n] rounds of its loop *)
Definition main (g : globals) (n : nat) : M unit :=
  print [Lit "[INFO] Starting Avro consumer for topic: "; Fmt (VOptStr (TOPIC_NAME g))];;
  print [Lit "[INFO] Kafka Bootstrap: "; Fmt (VOptStr (BOOTSTRAP_SERVER g))];;
  print [Lit "[INFO] Consumer Group: "; Fmt (VOptStr (CONSUMER_GROUP g))];;
  print [Lit "[INFO] Schema Registry: "; Fmt (VOptStr (SCHEMA_REGISTRY_URL g))];;
  emit (Subscribe [TOPIC_NAME g]);;
  print [Lit "[INFO] Press Ctrl+C to exit.
"];;
  while_true n loop_body.

End Consumer.


(** ** Running a script from a fresh process *)

(** The module-level code of each script, started with the environment
    [env] inherited from the parent process. *)
Definition run_producer (inv : invocation) (env : gmap string string) (o : oracle)
  : result Producer.globals * world :=
  Producer.startup inv o (initial_world env).

Definition run_consumer (inv : invocation) (env : gmap string string) (o : oracle)
  : result Consumer.globals * world :=
  Consumer.startup inv o (initial_world env).

(** [n] successive calls of [generate_random_transaction()] *)
Fixpoint successive_transactions (n : nat) : M (list transaction) :=
  match n with
  | O => ret []
  | S n' =>
      t <- Producer.generate_random_transaction;;
      ts <- successive_transactions n';;
      ret (t :: ts)
  end.

(** What the interpreter runs when a signal arrives: the function
    registered for it, called with the signal number. *)
Definition run_handler (h : handler) (sig : signal) : M unit :=
  match h with
  | ProducerShutdown => Producer.handle_shutdown sig
  | ConsumerShutdown => Consumer.handle_shutdown sig
  end.

(** The arrival of [sig]: the handler registered last for it runs; with
    none registered the default action of the signal is taken, which is
    outside the scripts ([None]). *)
Definition receive (sig : signal) (o : oracle) (w : world)
  : option (result unit * world) :=
  match getsignal sig (handlers w) with
  | Some h => Some (run_handler h sig o w)
  | None => None
  end.


(** *** Sample inputs *)

Definition sample_env : gmap string string :=
  list_to_map
    [ ("BOOTSTRAP_SERVER", "pkc-east.example:9092"); ("SASL_USERNAME", "key");
      ("SASL_PASSWORD", "secret"); ("TOPIC_NAME", "transactions");
      ("SCHEMA_REGISTRY_URL", "https://psrc.example");
      ("SCHEMA_REGISTRY_API_KEY", "srkey");
      ("SCHEMA_REGISTRY_API_SECRET", "srsecret") ].

(** An outside world in which nothing happens: no message arrives, no call
    fails, the clock stands still. *)
Definition idle_oracle : oracle :=
  mkOracle (fun _ => 0%N) (fun _ => 0) (fun _ => None) (fun _ => None)
           (fun _ => None) (fun _ => ([], None)) [] (fun _ => None) (fun _ => None).

(** ** Definitions used to state the properties *)

(** What the world looks like when the loader returns: one file was found
    and merged under the inherited environment, and one line was printed. *)
Definition loaded (inv : invocation) (w w1 : world) : Prop :=
  exists f parsed,
    files inv !! f = Some parsed /\
    w1 = mkWorld (environ w ∪ parsed)
           (trace w ++ [LoadDotenv f;
                        Print [Lit "[INFO] Loaded environment from "; Fmt (VStr f)]])
           (handlers w) (rnd_pos w) (clock_pos w) (polls_pos w) (produce_pos w)
           (reports_pos w).

Definition returned {A} (r : result A) : bool :=
  match r with
  | Ret _ => true
  | _ => false
  end.

Definition add_trace (w : world) (es : list event) : world :=
  mkWorld (environ w) (trace w ++ es) (handlers w) (rnd_pos w) (clock_pos w)
          (polls_pos w) (produce_pos w) (reports_pos w).

Definition producer_clients_built (g : Producer.globals) : list event :=
  [ NewSchemaRegistryClient (Producer.schema_registry_conf g);
    NewAvroSerializer Producer.TRANSACTION_SCHEMA;
    NewSerializingProducer (Producer.producer_conf g) ].

Definition consumer_clients_built (g : Consumer.globals) : list event :=
  [ NewSchemaRegistryClient (Consumer.schema_registry_conf g);
    NewAvroDeserializer;
    NewDeserializingConsumer (Consumer.consumer_conf g) ].

Definition producer_client_events (g : Producer.globals) : list event :=
  producer_clients_built g ++ [SignalSignal SIGINT; SignalSignal SIGTERM].

Definition consumer_client_events (g : Consumer.globals) : list event :=
  consumer_clients_built g ++ [SignalSignal SIGINT; SignalSignal SIGTERM].

(** The constructor calls [es] in order, up to the first that raises. *)
Fixpoint constructed (o : oracle) (es : list event) : list event * option exn :=
  match es with
  | [] => ([], None)
  | e :: es' =>
      match constructor_raises o e with
      | Some x => ([], Some x)
      | None => (e :: fst (constructed o es'), snd (constructed o es'))
      end
  end.

Definition with_handlers (h : handler) (w : world) : world :=
  mkWorld (environ w) (trace w) ((SIGTERM, h) :: (SIGINT, h) :: handlers w)
          (rnd_pos w) (clock_pos w) (polls_pos w) (produce_pos w) (reports_pos w).

(** How the client section of a script ends: the constructors [es] are
    called in order; the first that raises ends it, and when all return
    the handler [h] is registered for both signals. *)
Definition clients_outcome (o : oracle) (es : list event) (h : handler) (w : world)
  : result unit * world :=
  match snd (constructed o es) with
  | Some x => (Raise x, add_trace w (fst (constructed o es)))
  | None =>
      (Ret tt,
       with_handlers h (add_trace w (es ++ [SignalSignal SIGINT; SignalSignal SIGTERM])))
  end.

(** The rest of a script once its settings are bound. *)
Definition then_clients {G} (g : G) (r : result unit * world) : result G * world :=
  match r with
  | (Ret _, w) => (Ret g, w)
  | (Raise e, w) => (Raise e, w)
  | (Exit c, w) => (Exit c, w)
  end.

Definition selector_diagnostic (env_arg : string) : list event :=
  [ Print [Lit "[ERROR] Invalid environment argument: "; Fmt (VStr env_arg)];
    Print [Lit "[INFO] Valid options: 'east', 'west'"] ].

Definition env_without_topic : gmap string string := delete "TOPIC_NAME" sample_env.

Definition group_warning : event :=
  Print [Lit "[WARN] 'CONSUMER_GROUP' is not set. Using default: ";
         Fmt (VOptStr (Some "demo-dr-consumer-group"))].

Definition env_with_empty_password : gmap string string :=
  <[ "SASL_PASSWORD" := "" ]> sample_env.

(** A schema registry that cannot be reached. *)
Definition registry_down : exn :=
  Exc "ConnectionError" "HTTPSConnectionPool: Max retries exceeded".

Definition unreachable_oracle : oracle :=
  mkOracle (fun _ => 0%N) (fun _ => 0) (fun _ => None) (fun _ => None)
           (fun _ => None) (fun _ => ([], None)) []
           (fun e => match e with
                     | NewSchemaRegistryClient _ => Some registry_down
                     | _ => None
                     end)
           (fun _ => None).

Definition set_rnd (w : world) (n : nat) : world :=
  mkWorld (environ w) (trace w) (handlers w) n (clock_pos w) (polls_pos w)
          (produce_pos w) (reports_pos w).

(** The shape of a generated record: the two identifiers match their
    patterns, the amount lies in [[1, 1000]] and is the double nearest to
    a whole number of hundredths. *)
Definition well_formed (t : transaction) : Prop :=
  PyStr.fullmatch_class PyStr.upper_alnum 8 (transaction_id t) = true /\
  PyStr.fullmatch_class PyStr.is_lower 6 (customer_id t) = true /\
  (1 <= amount t)%Q /\ (amount t <= 1000)%Q /\
  exists cents : Z, 100 <= cents <= 100000 /\ amount t = Binary.b64 (Qmake cents 100).

Definition after_transaction (w : world) : world :=
  mkWorld (environ w) (trace w) (handlers w) (15 + rnd_pos w) (S (clock_pos w))
          (polls_pos w) (produce_pos w) (reports_pos w).

(** A clock that is set back by one second between two readings. *)
Definition stepping_back_oracle : oracle :=
  mkOracle (fun _ => 0%N)
           (fun i => if (i =? 0)%nat then 2 * SEC_TO_NS else 1 * SEC_TO_NS)
           (fun _ => None) (fun _ => None) (fun _ => None) (fun _ => ([], None)) []
           (fun _ => None) (fun _ => None).

Definition value {A} (r : result A) : option A :=
  match r with
  | Ret a => Some a
  | _ => None
  end.

(** A clock that advances by a quarter of a second per reading for eight
    readings and then stands still, and a generator that counts. *)
Definition ticking_oracle : oracle :=
  mkOracle (fun i => (N.of_nat i * 123456789012345)%N)
           (fun i => 1700000000 * SEC_TO_NS + Z.of_nat (Nat.min i 8) * 250000000)
           (fun _ => None) (fun _ => None) (fun _ => None) (fun _ => ([], None)) []
           (fun _ => None) (fun _ => None).

(** The record of the schema's four fields that holds the values of [t],
    but for the amount, which is [a]. *)
Definition decoded_as (t : transaction) (a : Q) : datum :=
  DRecord [ ("transaction_id", SString (transaction_id t));
            ("customer_id", SString (customer_id t));
            ("amount", SFloat (PyFloat.Finite a));
            ("timestamp_ms", SLong (timestamp_ms t)) ].

(** A generator whose fifteenth draw makes the amount 192.7. *)
Definition draw_192_7 : oracle :=
  mkOracle (fun i => if (i =? 14)%nat then 1728408505639487%N else 0%N)
           (fun _ => 1700000000 * SEC_TO_NS)
           (fun _ => None) (fun _ => None) (fun _ => None) (fun _ => ([], None)) []
           (fun _ => None) (fun _ => None).

(** The four outcomes of a poll, in the words of the specification. *)
Inductive poll_class :=
| NoMessage
| EndOfPartition
| OtherError (err : KafkaError)
| Record_ (msg : message).

Definition spec_classify (r : option message) : poll_class :=
  match r with
  | None => NoMessage
  | Some msg =>
      match msg_error msg with
      | Some err => if code err =? _PARTITION_EOF then EndOfPartition else OtherError err
      | None => Record_ msg
      end
  end.

Definition record_line (msg : message) : event :=
  Print [Lit "[INFO] Consumed record @ offset "; Fmt (VInt (msg_offset msg));
         Lit ", partition "; Fmt (VInt (msg_partition msg)); Lit ": ";
         Fmt (VDatum (msg_value msg))].

(** What the specification has each class print. *)
Definition spec_poll_output (c : poll_class) : list event :=
  match c with
  | NoMessage => []
  | EndOfPartition => []
  | OtherError err => [Print [Lit "[ERROR] "; Fmt (VKafkaError err)]]
  | Record_ msg => [record_line msg]
  end.

(** What the poll at position [i] of the tape does: it raises, or it
    returns and the round prints these lines. *)
Definition poll_outcome (o : oracle) (i : nat) : exn + list event :=
  match polls o i with
  | None => inr []
  | Some msg =>
      match msg_error msg with
      | Some err => inl (Consumer.ConsumeError err)
      | None =>
          match decode_raises o i with
          | Some e => inl e
          | None => inr [record_line msg]
          end
      end
  end.

(** Whether the poll at position [i] returns a record. *)
Definition poll_returns_record (o : oracle) (i : nat) : bool :=
  match poll_outcome o i with
  | inr (_ :: _) => true
  | _ => false
  end.

(** The rounds of the consumer loop from position [a] of the tape, at
    most [n] of them: the events, the position reached, and the exception
    that ended the loop, if one did. *)
Fixpoint consumer_rounds (o : oracle) (a n : nat) : list event * nat * option exn :=
  match n with
  | O => ([], a, None)
  | S n' =>
      match poll_outcome o a with
      | inl e => ([ConsumerPoll 1], S a, Some e)
      | inr out =>
          let '(es, b, failure) := consumer_rounds o (S a) n' in
          (ConsumerPoll 1 :: out ++ es, b, failure)
      end
  end.

Definition rounds_events (o : oracle) (a n : nat) : list event :=
  fst (fst (consumer_rounds o a n)).

Definition rounds_end (o : oracle) (a n : nat) : nat :=
  snd (fst (consumer_rounds o a n)).

Definition rounds_failure (o : oracle) (a n : nat) : option exn :=
  snd (consumer_rounds o a n).

Definition ended_by (failure : option exn) : result unit :=
  match failure with
  | Some e => Raise e
  | None => Ret tt
  end.

Definition set_polls (w : world) (n : nat) (tr : list event) : world :=
  mkWorld (environ w) tr (handlers w) (rnd_pos w) (clock_pos w) n
          (produce_pos w) (reports_pos w).

Definition eof_message : message :=
  mkMessage (Some (mkKafkaError _PARTITION_EOF "Broker: No more messages"))
            "transactions" 0 42 DNone.

Definition eof_oracle : oracle :=
  mkOracle (fun _ => 0%N) (fun _ => 0) (fun _ => Some eof_message)
           (fun _ => None) (fun _ => None) (fun _ => ([], None)) []
           (fun _ => None) (fun _ => None).

(** The error a consumer is handed when the topic it subscribed to does
    not exist. *)
Definition unknown_topic : KafkaError :=
  mkKafkaError 3
    "Subscribed topic not available: transactions: Broker: Unknown topic or partition".

Definition unknown_topic_oracle : oracle :=
  mkOracle (fun _ => 0%N) (fun _ => 0)
           (fun _ => Some (mkMessage (Some unknown_topic) "transactions" 0 (-1001) DNone))
           (fun _ => None) (fun _ => None) (fun _ => ([], None)) []
           (fun _ => None) (fun _ => None).

(** The line [delivery_callback] prints for one delivery report. *)
Definition callback_line (r : option KafkaError * message) : event :=
  match fst r with
  | Some e => Print [Lit "[ERROR] Message failed delivery: "; Fmt (VKafkaError e)]
  | None =>
      Print [Lit "[INFO] Message delivered to "; Fmt (VStr (msg_topic (snd r)));
             Lit " ["; Fmt (VInt (msg_partition (snd r))); Lit "] at offset ";
             Fmt (VInt (msg_offset (snd r)))]
  end.

Definition caught_line (e : exn) : event :=
  Print [Lit "[ERROR] Exception while producing message: "; Fmt (VExn e)].

(** What a round may change: the trace grows, the tapes advance. *)
Definition round_invariant (w w' : world) : Prop :=
  environ w' = environ w /\ handlers w' = handlers w /\
  rnd_pos w' = (15 + rnd_pos w)%nat /\
  exists es : list event, trace w' = (trace w ++ es)%list.

(** A broker client whose local queue is full on every call. *)
Definition queue_full : exn := Exc "BufferError" "Local: Queue full".

Definition failing_oracle : oracle :=
  mkOracle (fun _ => 0%N) (fun _ => 0) (fun _ => None) (fun _ => None)
           (fun _ => Some queue_full) (fun _ => ([], None)) []
           (fun _ => None) (fun _ => None).

Definition sample_globals : Producer.globals :=
  Producer.mkGlobals (Some "pkc-east.example:9092") (Some "key") (Some "secret")
    (Some "transactions") (Some "https://psrc.example") (Some "srkey")
    (Some "srsecret") (PyFloat.Finite 1).

Definition producer_notice : event :=
  Print [Lit "
[INFO] Shutdown signal received. Flushing producer."].

Definition consumer_notice : event :=
  Print [Lit "
[INFO] Shutdown signal received. Closing consumer."].

(** What the producer's handler does: the notice, the flush, and the
    lines of the delivery reports the flush serves. *)
Definition producer_shutdown_events (o : oracle) : list event :=
  [producer_notice; Flush 10] ++ map callback_line (flushed o).

(** A cluster with one delivery report pending when the signal arrives. *)
Definition pending_oracle : oracle :=
  mkOracle (fun _ => 0%N) (fun _ => 0) (fun _ => None) (fun _ => None)
           (fun _ => None) (fun _ => ([], None))
           [ (None, mkMessage None "transactions" 3 99 DNone) ]
           (fun _ => None) (fun _ => None).

(** ** Definitions used to state further properties *)

(** The file the loader settles on (lines 69-79 of the producer, 60-68 of
    the consumer): [None] when the selector is rejected. *)
Definition env_file_for (args : list string) : option string :=
  match args with
  | _ :: arg1 :: _ =>
      let env_arg := PyStr.lower arg1 in
      if bool_decide (env_arg ∈ ["east"; "west"]) then Some (env_arg +:+ ".env")
      else None
  | _ => Some ".env"
  end.

Definition missing_file_diagnostic (env_file : string) : event :=
  Print [Lit "[ERROR] "; Fmt (VStr env_file);
         Lit " does not exist. Please generate or provide it."].

Definition loaded_line (env_file : string) : event :=
  Print [Lit "[INFO] Loaded environment from "; Fmt (VStr env_file)].

Definition with_environ (w : world) (env : gmap string string) : world :=
  mkWorld env (trace w) (handlers w) (rnd_pos w) (clock_pos w) (polls_pos w)
          (produce_pos w) (reports_pos w).

(** The seven required settings as the producer binds them. *)
Definition producer_required_settings (g : Producer.globals)
  : list (string * option string) :=
  [ ("BOOTSTRAP_SERVER", Producer.BOOTSTRAP_SERVER g);
    ("SASL_USERNAME", Producer.SASL_USERNAME g);
    ("SASL_PASSWORD", Producer.SASL_PASSWORD g);
    ("TOPIC_NAME", Producer.TOPIC_NAME g);
    ("SCHEMA_REGISTRY_URL", Producer.SCHEMA_REGISTRY_URL g);
    ("SCHEMA_REGISTRY_API_KEY", Producer.SCHEMA_REGISTRY_API_KEY g);
    ("SCHEMA_REGISTRY_API_SECRET", Producer.SCHEMA_REGISTRY_API_SECRET g) ].

(** The seven required settings as the consumer binds them. *)
Definition consumer_required_settings (g : Consumer.globals)
  : list (string * option string) :=
  [ ("BOOTSTRAP_SERVER", Consumer.BOOTSTRAP_SERVER g);
    ("SASL_USERNAME", Consumer.SASL_USERNAME g);
    ("SASL_PASSWORD", Consumer.SASL_PASSWORD g);
    ("TOPIC_NAME", Consumer.TOPIC_NAME g);
    ("SCHEMA_REGISTRY_URL", Consumer.SCHEMA_REGISTRY_URL g);
    ("SCHEMA_REGISTRY_API_KEY", Consumer.SCHEMA_REGISTRY_API_KEY g);
    ("SCHEMA_REGISTRY_API_SECRET", Consumer.SCHEMA_REGISTRY_API_SECRET g) ].

(** The value [random.random()] returns at position [i] of the tape. *)
Definition unit_draw (o : oracle) (i : nat) : Q :=
  Qmake (Z.of_N (rnd o i) mod 2 ^ 53) (2 ^ 53).

(** The largest value [random.random()] returns. *)
Definition max_draw : Q := Qmake (2 ^ 53 - 1) (2 ^ 53).

(** [population[floor(r * len(population))]] *)
Definition pick (population : list ascii) (r : Q) : option ascii :=
  population !!
    Z.to_nat (Qfloor (Binary.fmul r
                        (Binary.b64 (inject_Z (Z.of_nat (length population)))))).

(** [1.0 + (1000.0 - 1.0) * r], the value of [random.uniform(1.0, 1000.0)]
    for the draw [r] *)
Definition sample_of (r : Q) : Q :=
  Binary.fadd 1 (Binary.fmul (Binary.fsub 1000 1) r).

(** A tape that agrees with the idle one on its first fifteen draws. *)
Definition late_oracle : oracle :=
  mkOracle (fun i => if (i <? 15)%nat then 0%N else 7%N) (fun _ => 0)
           (fun _ => None) (fun _ => None)
           (fun _ => Some (Exc "BufferError" "Local: Queue full"))
           (fun _ => ([], None)) [] (fun _ => None) (fun _ => None).

(** The exception [time.sleep] raises for a length, if any. *)
Definition sleep_failure (o : oracle) (secs : PyFloat.t) : option exn :=
  match fst (time_sleep secs o (initial_world ∅)) with
  | Raise e => Some e
  | _ => None
  end.

Definition produced_line (t : transaction) : event :=
  Print [Lit "[INFO] Produced record: "; Fmt (VTransaction t)].

(** The events of one round of the producer's [try] block for the
    generated record [t], and the exception that ends the block, if any. *)
Definition round_events (g : Producer.globals) (o : oracle) (w : world)
    (t : transaction) : list event * option exn :=
  match produce_raises o (produce_pos w) with
  | Some e => ([], Some e)
  | None =>
      let polled :=
        [Produce (Producer.TOPIC_NAME g) t; ProducerPoll 0]
        ++ map callback_line (fst (reports o (reports_pos w))) in
      match snd (reports o (reports_pos w)) with
      | Some e => (polled, Some e)
      | None =>
          match sleep_failure o (Producer.MESSAGE_INTERVAL g) with
          | Some e => (polled ++ [produced_line t], Some e)
          | None =>
              (polled ++ [produced_line t; Sleep (Producer.MESSAGE_INTERVAL g)], None)
          end
      end
  end.

Definition caught (failure : option exn) : list event :=
  match failure with
  | Some e => [caught_line e]
  | None => []
  end.

Definition is_sleep (e : event) : bool :=
  match e with
  | Sleep _ => true
  | _ => false
  end.

Definition is_produce (e : event) : bool :=
  match e with
  | Produce _ _ => true
  | _ => false
  end.

Definition is_caught_line (e : event) : bool :=
  match e with
  | Print [Lit s; Fmt (VExn _)] =>
      String.eqb s "[ERROR] Exception while producing message: "
  | _ => false
  end.

(** Whether [produce] returns at position [i] of its tape. *)
Definition produce_returns (o : oracle) (i : nat) : bool :=
  match produce_raises o i with
  | None => true
  | Some _ => false
  end.

(** A cluster that reports one failed and one successful delivery at
    every poll. *)
Definition reporting_oracle : oracle :=
  mkOracle (fun _ => 0%N) (fun _ => 0) (fun _ => None) (fun _ => None) (fun _ => None)
           (fun _ => ([ (Some (mkKafkaError 4 "Broker: Message size too large"),
                         mkMessage None "transactions" 0 0 DNone);
                        (None, mkMessage None "transactions" 2 17 DNone) ], None))
           [] (fun _ => None) (fun _ => None).

Definition negative_interval_globals : Producer.globals :=
  Producer.mkGlobals (Some "pkc-east.example:9092") (Some "key") (Some "secret")
    (Some "transactions") (Some "https://psrc.example") (Some "srkey")
    (Some "srsecret") (PyFloat.Finite (Qopp (1 # 2))).

(** What [main()] of the consumer does before its loop. *)
Definition consumer_preamble (g : Consumer.globals) : list event :=
  [ Print [Lit "[INFO] Starting Avro consumer for topic: ";
           Fmt (VOptStr (Consumer.TOPIC_NAME g))];
    Print [Lit "[INFO] Kafka Bootstrap: "; Fmt (VOptStr (Consumer.BOOTSTRAP_SERVER g))];
    Print [Lit "[INFO] Consumer Group: "; Fmt (VOptStr (Consumer.CONSUMER_GROUP g))];
    Print [Lit "[INFO] Schema Registry: ";
           Fmt (VOptStr (Consumer.SCHEMA_REGISTRY_URL g))];
    Subscribe [Consumer.TOPIC_NAME g];
    Print [Lit "[INFO] Press Ctrl+C to exit.
"] ].

Definition sample_consumer_globals : Consumer.globals :=
  Consumer.mkGlobals (Some "pkc-east.example:9092") (Some "key") (Some "secret")
    (Some "transactions") (Some "demo-dr-consumer-group") (Some "https://psrc.example")
    (Some "srkey") (Some "srsecret").

Definition is_subscribe (e : event) : bool :=
  match e with
  | Subscribe _ => true
  | _ => false
  end.

Definition is_consumer_poll (e : event) : bool :=
  match e with
  | ConsumerPoll _ => true
  | _ => false
  end.

(** A topic that answers, in turn: nothing, two records, and then a
    record the deserializer cannot read. *)
Definition mixed_oracle : oracle :=
  mkOracle (fun _ => 0%N) (fun _ => 0)
    (fun i =>
       match i with
       | 0%nat => None
       | _ => Some (mkMessage None "transactions" 1 (Z.of_nat i)
                      (DRecord [("transaction_id", SString "AB12CD34")]))
       end)
    (fun i => if (i <? 3)%nat then None
              else Some (Exc "ValueDeserializationError" "Unknown magic byte"))
    (fun _ => None) (fun _ => ([], None)) [] (fun _ => None) (fun _ => None).

(** Whether a delivery report carries an error. *)
Definition report_failed (r : option KafkaError * message) : bool :=
  match fst r with
  | Some _ => true
  | None => false
  end.

(** A population from which [random.choices] never picks out of range. *)
Definition fair (population : list ascii) : Prop :=
  let n := Z.of_nat (length population) in
  (0 <= Binary.b64 (inject_Z n))%Q /\
  (Binary.fmul max_draw (Binary.b64 (inject_Z n)) < inject_Z n)%Q.

(** A binary32 number in the normal range: [m * 2^(e-23)] with a 24-bit
    [m], carried in lowest terms. *)
Definition normal_single (r : Q) (m e : Z) : Prop :=
  Qred r = r /\ (r == inject_Z m * Binary.pow2 (e - 23))%Q /\
  2 ^ 23 <= m < 2 ^ 24 /\ -126 <= e <= 127.


(** * Properties *)

(** ** The builtins on examples *)

Example float_default : PyFloat.of_string "1.0" = Some (PyFloat.Finite 1).
Proof. reflexivity. Qed.

Example float_exponent :
  PyFloat.of_string " -2_5.e-1 " = Some (PyFloat.Finite (Qopp (5 # 2))).
Proof. reflexivity. Qed.

Example float_rejects_word : PyFloat.of_string "fast" = None.
Proof. reflexivity. Qed.

Example float_rejects_empty : PyFloat.of_string "" = None.
Proof. reflexivity. Qed.

Example float_infinity : PyFloat.of_string "-Infinity" = Some (PyFloat.Inf true).
Proof. reflexivity. Qed.

Example float_tenth :
  PyFloat.of_string "0.1"
  = Some (PyFloat.Finite (3602879701896397 # 36028797018963968)).
Proof. vm_compute. reflexivity. Qed.

Example float_overflow : PyFloat.of_string "1e400" = Some (PyFloat.Inf false).
Proof. vm_compute. reflexivity. Qed.

Example float_underflow : PyFloat.of_string "1e-400" = Some (PyFloat.Finite 0).
Proof. vm_compute. reflexivity. Qed.

Example repr_plain : PyStr.repr "fast" = "'fast'".
Proof. reflexivity. Qed.

Example repr_apostrophe :
  PyStr.repr "it's" = String PyStr.quote2 ("it's" +:+ String PyStr.quote2 "").
Proof. reflexivity. Qed.

Example lower_east : PyStr.lower "EaSt" = "east".
Proof. reflexivity. Qed.

Example time_is_a_double :
  time_at ticking_oracle 1 = (7130316801048575 # 4194304)%Q /\
  py_int (Binary.fmul (time_at ticking_oracle 1) 1000) = 1700000000249.
Proof. split; vm_compute; reflexivity. Qed.

Example sleep_refuses_ten_billion_seconds :
  fst (time_sleep (PyFloat.Finite 10000000000) idle_oracle (initial_world ∅))
  = Raise (Exc "OverflowError" "timestamp too large to convert to C _PyTime_t").
Proof. vm_compute. reflexivity. Qed.

(** ** Rounding to binary floating point *)

Lemma round_half_even_cases (q : Q) :
  round_half_even q = Qfloor q \/
  (round_half_even q = Qfloor q + 1 /\ (inject_Z (Qfloor q) < q)%Q).
Proof.
  unfold round_half_even.
  destruct (Qcompare (q - inject_Z (Qfloor q)) (1 # 2)) eqn:E.
  - destruct (Z.even (Qfloor q)); [now left|right]. split; [reflexivity|].
    apply Qeq_alt in E. apply Qlt_minus_iff. rewrite E. reflexivity.
  - now left.
  - right. split; [reflexivity|]. apply Qgt_alt in E.
    apply Qlt_minus_iff. eapply Qlt_trans; [|exact E]. reflexivity.
Qed.

Lemma round_half_even_lower (q : Q) (n : Z) :
  (inject_Z n <= q)%Q -> n <= round_half_even q.
Proof.
  intros H. apply Qfloor_resp_le in H. rewrite Qfloor_Z in H.
  destruct (round_half_even_cases q) as [->|[-> _]]; lia.
Qed.

Lemma round_half_even_upper (q : Q) (n : Z) :
  (q <= inject_Z n)%Q -> round_half_even q <= n.
Proof.
  intros H. destruct (round_half_even_cases q) as [->|[-> Hlt]].
  - apply Qfloor_resp_le in H. now rewrite Qfloor_Z in H.
  - assert (Hfn : (inject_Z (Qfloor q) < inject_Z n)%Q) by (eapply Qlt_le_trans; eauto).
    rewrite <- Zlt_Qlt in Hfn. lia.
Qed.

Lemma round_half_even_mono (x y : Q) :
  (x <= y)%Q -> round_half_even x <= round_half_even y.
Proof.
  intros Hxy. pose proof (Qfloor_resp_le _ _ Hxy) as Hf.
  destruct (Z.eq_dec (Qfloor x) (Qfloor y)) as [E|NE].
  - unfold round_half_even. rewrite <- E.
    destruct (Qcompare_spec (x - inject_Z (Qfloor x)) (1 # 2)) as [Hx|Hx|Hx];
      destruct (Qcompare_spec (y - inject_Z (Qfloor x)) (1 # 2)) as [Hy|Hy|Hy];
      try destruct (Z.even (Qfloor x)); try lia; exfalso; lra.
  - assert (Hlt : Qfloor x + 1 <= Qfloor y) by lia.
    destruct (round_half_even_cases x) as [->|[-> _]];
      destruct (round_half_even_cases y) as [->|[-> _]]; lia.
Qed.

Lemma pow2_pos (e : Z) : (0 < Binary.pow2 e)%Q.
Proof. apply Qpower_0_lt. reflexivity. Qed.

Lemma pow2_add (a b : Z) : (Binary.pow2 (a + b) == Binary.pow2 a * Binary.pow2 b)%Q.
Proof. apply Qpower_plus. discriminate. Qed.

Lemma pow2_le (a b : Z) : a <= b -> (Binary.pow2 a <= Binary.pow2 b)%Q.
Proof. intros H. apply Qpower_le_compat_l; [exact H | discriminate]. Qed.

Lemma pow2_lt_inv (a b : Z) : (Binary.pow2 a < Binary.pow2 b)%Q -> a < b.
Proof. intros H. eapply Qpower_lt_compat_l_inv; [exact H | reflexivity]. Qed.

Lemma pow2_Z (e : Z) : 0 <= e -> (Binary.pow2 e == inject_Z (2 ^ e))%Q.
Proof. intros H. unfold Binary.pow2. now rewrite Zpower_Qpower. Qed.

Lemma pow2_cancel (e : Z) : (Binary.pow2 (- e) * Binary.pow2 e == 1)%Q.
Proof.
  rewrite <- pow2_add. replace (- e + e) with 0 by lia. reflexivity.
Qed.

Lemma ilog2_spec (x : Q) :
  (0 < x)%Q ->
  (Binary.pow2 (Binary.ilog2 x) <= x)%Q /\ (x < Binary.pow2 (Binary.ilog2 x + 1))%Q.
Proof.
  intros Hx. destruct x as [n d]. unfold Binary.ilog2. cbn [Qnum Qden].
  assert (Hn : 0 < n) by (unfold Qlt in Hx; cbn in Hx; lia).
  set (ln := Z.log2 n). set (ld := Z.log2 (Z.pos d)).
  pose proof (Z.log2_spec n Hn) as [Hn1 Hn2]. fold ln in Hn1, Hn2.
  pose proof (Z.log2_spec (Z.pos d) eq_refl) as [Hd1 Hd2]. fold ld in Hd1, Hd2.
  assert (Hln : 0 <= ln) by apply Z.log2_nonneg.
  assert (Hld : 0 <= ld) by apply Z.log2_nonneg.
  (* the quotient lies strictly between 2^(ln-ld-1) and 2^(ln-ld+1) *)
  assert (Hup : (n # d < Binary.pow2 (ln - ld + 1))%Q).
  { apply (Qmult_lt_r _ _ (Binary.pow2 ld)); [apply pow2_pos|].
    rewrite <- pow2_add. replace (ln - ld + 1 + ld) with (Z.succ ln) by lia.
    rewrite !pow2_Z by lia.
    unfold Qlt, Qmult, inject_Z. cbn [Qnum Qden]. nia. }
  assert (Hlo : (Binary.pow2 (ln - ld - 1) <= n # d)%Q).
  { apply (Qmult_le_r _ _ (Binary.pow2 (Z.succ ld))); [apply pow2_pos|].
    rewrite <- pow2_add. replace (ln - ld - 1 + Z.succ ld) with ln by lia.
    rewrite !pow2_Z by lia.
    unfold Qle, Qmult, inject_Z. cbn [Qnum Qden]. nia. }
  destruct (Qle_bool (Binary.pow2 (ln - ld)) (n # d)) eqn:E.
  - apply Qle_bool_iff in E. split; assumption.
  - split.
    + exact Hlo.
    + replace (ln - ld - 1 + 1) with (ln - ld) by lia.
      apply Qnot_le_lt. intros H. apply Qle_bool_iff in H. congruence.
Qed.

Lemma ilog2_unique (x : Q) (e : Z) :
  (Binary.pow2 e <= x)%Q -> (x < Binary.pow2 (e + 1))%Q -> Binary.ilog2 x = e.
Proof.
  intros H1 H2.
  assert (Hx : (0 < x)%Q) by (eapply Qlt_le_trans; [apply pow2_pos | exact H1]).
  destruct (ilog2_spec x Hx) as [H3 H4].
  assert (e < Binary.ilog2 x + 1).
  { apply pow2_lt_inv. eapply Qle_lt_trans; eassumption. }
  assert (Binary.ilog2 x < e + 1).
  { apply pow2_lt_inv. eapply Qle_lt_trans; eassumption. }
  lia.
Qed.

Lemma ilog2_mono (x y : Q) :
  (0 < x)%Q -> (x <= y)%Q -> Binary.ilog2 x <= Binary.ilog2 y.
Proof.
  intros Hx Hxy.
  assert (Hy : (0 < y)%Q) by (eapply Qlt_le_trans; eassumption).
  destruct (ilog2_spec x Hx) as [H1 _]. destruct (ilog2_spec y Hy) as [_ H2].
  assert (Binary.ilog2 x < Binary.ilog2 y + 1); [|lia].
  apply pow2_lt_inv.
  eapply Qle_lt_trans; [exact H1|]. eapply Qle_lt_trans; eassumption.
Qed.

(** The significand of a positive number, scaled to [prec] bits, lies
    between [2^(prec-1)] and [2^prec]. *)
Lemma scaled_range (prec : Z) (x : Q) :
  1 <= prec -> (0 < x)%Q ->
  let q := Binary.ilog2 x - (prec - 1) in
  (inject_Z (2 ^ (prec - 1)) <= x * Binary.pow2 (- q))%Q /\
  (x * Binary.pow2 (- q) < inject_Z (2 ^ prec))%Q.
Proof.
  intros Hp Hx q. destruct (ilog2_spec x Hx) as [H1 H2].
  rewrite <- !pow2_Z by lia. split.
  - replace (prec - 1) with (Binary.ilog2 x + - q) by (unfold q; lia).
    rewrite (pow2_add (Binary.ilog2 x) (- q)). apply Qmult_le_compat_r; [exact H1|].
    apply Qlt_le_weak, pow2_pos.
  - replace (Binary.pow2 prec) with (Binary.pow2 (Binary.ilog2 x + 1 + - q))
      by (f_equal; unfold q; lia).
    rewrite (pow2_add (Binary.ilog2 x + 1) (- q)). apply Qmult_lt_compat_r; [apply pow2_pos | exact H2].
Qed.

Lemma round_pos_eq (prec : Z) (x : Q) :
  Binary.round_pos prec None x =
  (inject_Z (round_half_even (x * Binary.pow2 (- (Binary.ilog2 x - (prec - 1)))))
   * Binary.pow2 (Binary.ilog2 x - (prec - 1)))%Q.
Proof. reflexivity. Qed.

Lemma round_pos_range (prec : Z) (x : Q) :
  1 <= prec -> (0 < x)%Q ->
  (Binary.pow2 (Binary.ilog2 x) <= Binary.round_pos prec None x)%Q /\
  (Binary.round_pos prec None x <= Binary.pow2 (Binary.ilog2 x + 1))%Q.
Proof.
  intros Hp Hx. rewrite round_pos_eq.
  destruct (scaled_range prec x Hp Hx) as [H1 H2].
  set (q := Binary.ilog2 x - (prec - 1)) in *.
  apply round_half_even_lower in H1.
  apply Qlt_le_weak, round_half_even_upper in H2.
  set (m := round_half_even (x * Binary.pow2 (- q))) in *.
  split.
  - replace (Binary.ilog2 x) with (prec - 1 + q) at 1 by (unfold q; lia).
    rewrite (pow2_add (prec - 1) q), (pow2_Z (prec - 1)) by lia.
    apply Qmult_le_compat_r; [|apply Qlt_le_weak, pow2_pos].
    now rewrite <- Zle_Qle.
  - replace (Binary.ilog2 x + 1) with (prec + q) by (unfold q; lia).
    rewrite (pow2_add prec q), (pow2_Z prec) by lia.
    apply Qmult_le_compat_r; [|apply Qlt_le_weak, pow2_pos].
    now rewrite <- Zle_Qle.
Qed.

Lemma round_pos_pos (prec : Z) (x : Q) :
  1 <= prec -> (0 < x)%Q -> (0 < Binary.round_pos prec None x)%Q.
Proof.
  intros Hp Hx. eapply Qlt_le_trans; [apply (pow2_pos (Binary.ilog2 x))|].
  now apply round_pos_range.
Qed.

Lemma round_pos_mono (prec : Z) (x y : Q) :
  1 <= prec -> (0 < x)%Q -> (x <= y)%Q ->
  (Binary.round_pos prec None x <= Binary.round_pos prec None y)%Q.
Proof.
  intros Hp Hx Hxy.
  assert (Hy : (0 < y)%Q) by (eapply Qlt_le_trans; eassumption).
  pose proof (ilog2_mono x y Hx Hxy) as He.
  destruct (Z.eq_dec (Binary.ilog2 x) (Binary.ilog2 y)) as [E|NE].
  - rewrite !round_pos_eq, E.
    apply Qmult_le_compat_r; [|apply Qlt_le_weak, pow2_pos].
    rewrite <- Zle_Qle. apply round_half_even_mono.
    apply Qmult_le_compat_r; [exact Hxy | apply Qlt_le_weak, pow2_pos].
  - destruct (round_pos_range prec x Hp Hx) as [_ H1].
    destruct (round_pos_range prec y Hp Hy) as [H2 _].
    eapply Qle_trans; [exact H1|]. eapply Qle_trans; [|exact H2].
    apply pow2_le. lia.
Qed.

Lemma round_cases (prec : Z) (qmin : option Z) (x : Q) :
  ((x == 0)%Q /\ Binary.round prec qmin x = 0%Q) \/
  ((0 < x)%Q /\ Binary.round prec qmin x = Qred (Binary.round_pos prec qmin x)) \/
  ((x < 0)%Q /\ Binary.round prec qmin x = Qred (- Binary.round_pos prec qmin (- x))).
Proof.
  unfold Binary.round.
  destruct (Qcompare_spec x 0) as [H|H|H]; [left | right; right | right; left];
    split; auto.
Qed.

Lemma round_sign (prec : Z) (x : Q) :
  1 <= prec ->
  ((0 <= x)%Q -> (0 <= Binary.round prec None x)%Q) /\
  ((0 < x)%Q -> (0 < Binary.round prec None x)%Q) /\
  ((x < 0)%Q -> (Binary.round prec None x < 0)%Q).
Proof.
  intros Hp.
  destruct (round_cases prec None x) as [[H ->]|[[H ->]|[H ->]]]; rewrite ?Qred_correct.
  - repeat split; intros; try lra.
  - pose proof (round_pos_pos prec x Hp H). repeat split; intros; lra.
  - assert (H' : (0 < - x)%Q) by lra.
    pose proof (round_pos_pos prec (- x) Hp H'). repeat split; intros; lra.
Qed.

Lemma round_mono (prec : Z) (x y : Q) :
  1 <= prec -> (x <= y)%Q ->
  (Binary.round prec None x <= Binary.round prec None y)%Q.
Proof.
  intros Hp Hxy.
  destruct (round_cases prec None x) as [[Hx Ex]|[[Hx Ex]|[Hx Ex]]];
    destruct (round_cases prec None y) as [[Hy Ey]|[[Hy Ey]|[Hy Ey]]];
    try (exfalso; lra).
  - rewrite Ex, Ey. lra.
  - rewrite Ex. apply (round_sign prec y Hp). lra.
  - rewrite Ex, Ey, !Qred_correct. now apply round_pos_mono.
  - rewrite Ey. apply Qlt_le_weak, (round_sign prec x Hp), Hx.
  - apply Qle_trans with 0%Q.
    + apply Qlt_le_weak, (round_sign prec x Hp), Hx.
    + apply (round_sign prec y Hp). lra.
  - rewrite Ex, Ey, !Qred_correct. apply Qopp_le_compat.
    apply round_pos_mono; [exact Hp | lra | lra].
Qed.

Lemma b64_mono (x y : Q) : (x <= y)%Q -> (Binary.b64 x <= Binary.b64 y)%Q.
Proof. apply round_mono. lia. Qed.

Lemma b64_neg (x : Q) : (x < 0)%Q -> (Binary.b64 x < 0)%Q.
Proof. apply (round_sign 53 x). lia. Qed.

Lemma b64_nonneg (x : Q) : (0 <= x)%Q -> (0 <= Binary.b64 x)%Q.
Proof. apply (round_sign 53 x). lia. Qed.

(** Rounding keeps a number between two doubles it lies between. *)
Lemma b64_between (lo hi x : Q) :
  Binary.b64 lo = lo -> Binary.b64 hi = hi ->
  (lo <= x)%Q -> (x <= hi)%Q -> (lo <= Binary.b64 x)%Q /\ (Binary.b64 x <= hi)%Q.
Proof.
  intros Hlo Hhi H1 H2. split.
  - rewrite <- Hlo. now apply b64_mono.
  - rewrite <- Hhi. now apply b64_mono.
Qed.

Lemma round_half_even_error (q : Q) :
  (inject_Z (round_half_even q) - q <= 1 # 2)%Q /\
  (q - inject_Z (round_half_even q) <= 1 # 2)%Q.
Proof.
  pose proof (Qfloor_le q) as Hlo. pose proof (Qlt_floor q) as Hhi.
  rewrite inject_Z_plus in Hhi. change (inject_Z 1) with 1%Q in Hhi.
  unfold round_half_even.
  destruct (Qcompare (q - inject_Z (Qfloor q)) (1 # 2)) eqn:E.
  - apply Qeq_alt in E.
    destruct (Z.even (Qfloor q)); rewrite ?inject_Z_plus;
      change (inject_Z 1) with 1%Q; lra.
  - apply Qlt_alt in E. lra.
  - apply Qgt_alt in E. rewrite inject_Z_plus. change (inject_Z 1) with 1%Q. lra.
Qed.

Lemma round_pos_normal (prec m : Z) (x : Q) :
  m <= Binary.ilog2 x - (prec - 1) ->
  Binary.round_pos prec (Some m) x = Binary.round_pos prec None x.
Proof.
  intros H. unfold Binary.round_pos, Binary.ulp_exp. now rewrite Z.max_l by lia.
Qed.

Lemma Qred_idem (q : Q) : Qred (Qred q) = Qred q.
Proof. apply Qred_complete, Qred_correct. Qed.

(** ** Loading the environment file *)

(** Unfolds the monad and the primitive actions, and projects the worlds
    they build. *)
Ltac run :=
  unfold bind, ret, raise, sys_exit, print, emit, getenv, getenv_default,
    load_dotenv, signal_signal, try_except, take_rnd, take_clock, take_poll,
    take_produce, take_reports, initial_world;
  cbn [environ trace handlers rnd_pos clock_pos polls_pos produce_pos
       reports_pos fst snd].

(** The two scripts carry the same loader. *)
Lemma load_environment_file_same :
  Consumer.load_environment_file = Producer.load_environment_file.
Proof. reflexivity. Qed.

Lemma load_from_file (inv : invocation) (f : string) (o : oracle) (w : world) :
  (match files inv !! f with
   | Some parsed =>
       load_dotenv f parsed;;
       print [Lit "[INFO] Loaded environment from "; Fmt (VStr f)]
   | None =>
       print [Lit "[ERROR] "; Fmt (VStr f);
              Lit " does not exist. Please generate or provide it."];;
       sys_exit 1
   end) o w =
  match files inv !! f with
  | Some parsed =>
      (Ret tt, mkWorld (environ w ∪ parsed)
           (trace w ++ [LoadDotenv f;
                        Print [Lit "[INFO] Loaded environment from "; Fmt (VStr f)]])
           (handlers w) (rnd_pos w) (clock_pos w) (polls_pos w) (produce_pos w)
           (reports_pos w))
  | None =>
      (Exit 1, mkWorld (environ w)
           (trace w ++ [Print [Lit "[ERROR] "; Fmt (VStr f);
                Lit " does not exist. Please generate or provide it."]])
           (handlers w) (rnd_pos w) (clock_pos w) (polls_pos w) (produce_pos w)
           (reports_pos w))
  end.
Proof.
  destruct (files inv !! f) as [parsed|]; run; [|reflexivity].
  now rewrite <- app_assoc.
Qed.

Lemma load_returns (inv : invocation) (o : oracle) (w w1 : world) :
  Producer.load_environment_file inv o w = (Ret tt, w1) -> loaded inv w w1.
Proof.
  unfold Producer.load_environment_file, bind at 1.
  destruct (argv inv) as [|prog [|arg1 rest]].
  1,2: unfold ret at 1; rewrite load_from_file;
    destruct (files inv !! ".env") eqn:E; [|discriminate];
    intros [= <-]; eexists _, _; eauto.
  case_bool_decide.
  - unfold ret at 1. rewrite load_from_file.
    destruct (files inv !! _) eqn:E; [|discriminate].
    intros [= <-]; eexists _, _; eauto.
  - run. discriminate.
Qed.

Lemma load_rejects_selector (inv : invocation) (prog arg1 : string)
    (rest : list string) (o : oracle) (w : world) :
  argv inv = prog :: arg1 :: rest ->
  PyStr.lower arg1 ∉ ["east"; "west"] ->
  Producer.load_environment_file inv o w =
    (Exit 1, mkWorld (environ w)
       (trace w ++ [Print [Lit "[ERROR] Invalid environment argument: ";
                           Fmt (VStr (PyStr.lower arg1))];
                    Print [Lit "[INFO] Valid options: 'east', 'west'"]])
       (handlers w) (rnd_pos w) (clock_pos w) (polls_pos w) (produce_pos w)
       (reports_pos w)).
Proof.
  intros Hargv Hsel. unfold Producer.load_environment_file, bind at 1.
  rewrite Hargv. rewrite bool_decide_eq_false_2 by assumption.
  run. now rewrite <- app_assoc.
Qed.

(** ** Reading and validating the settings *)

Lemma world_eta (w : world) :
  mkWorld (environ w) (trace w) (handlers w) (rnd_pos w) (clock_pos w)
          (polls_pos w) (produce_pos w) (reports_pos w) = w.
Proof. now destruct w. Qed.

Lemma producer_missing_vars_spec (env : gmap string string) (v : string) :
  v ∈ Producer.missing_vars env <-> v ∈ required_vars /\ env !! v = None.
Proof.
  unfold Producer.missing_vars. rewrite !list_elem_of_In, filter_In.
  now rewrite bool_decide_eq_true.
Qed.

Lemma truthy_false (o : option string) :
  PyStr.truthy o = false <-> o = None \/ o = Some "".
Proof.
  destruct o as [s|]; cbn.
  - rewrite negb_false_iff, String.eqb_eq. split.
    + intros ->. now right.
    + intros [H|H]; congruence.
  - split; auto.
Qed.

Lemma consumer_missing_vars_spec (env : gmap string string) (v : string) :
  v ∈ Consumer.missing_vars env <->
  v ∈ required_vars /\ (env !! v = None \/ env !! v = Some "").
Proof.
  unfold Consumer.missing_vars. rewrite !list_elem_of_In, filter_In.
  now rewrite negb_true_iff, truthy_false.
Qed.

Lemma producer_settings_eq (o : oracle) (w : world) :
  Producer.settings o w =
  let text := default "1.0" (environ w !! "MESSAGE_INTERVAL") in
  match PyFloat.of_string text with
  | None =>
      (Raise (Exc "ValueError" ("could not convert string to float: " +:+ PyStr.repr text)),
       w)
  | Some interval =>
      match Producer.missing_vars (environ w) with
      | [] =>
          (Ret (Producer.mkGlobals
                  (environ w !! "BOOTSTRAP_SERVER") (environ w !! "SASL_USERNAME")
                  (environ w !! "SASL_PASSWORD") (environ w !! "TOPIC_NAME")
                  (environ w !! "SCHEMA_REGISTRY_URL")
                  (environ w !! "SCHEMA_REGISTRY_API_KEY")
                  (environ w !! "SCHEMA_REGISTRY_API_SECRET") interval), w)
      | missing =>
          (Exit 1,
           add_trace w
             [Print [Lit "[ERROR] Missing required environment variables: ";
                     Fmt (VStr (PyStr.join ", " missing))]])
      end
  end.
Proof.
  unfold Producer.settings, py_float. run.
  destruct (PyFloat.of_string _); [|reflexivity].
  destruct (Producer.missing_vars _); reflexivity.
Qed.

Lemma consumer_settings_eq (o : oracle) (w : world) :
  Consumer.settings o w =
  match Consumer.missing_vars (environ w) with
  | [] =>
      let group := environ w !! "CONSUMER_GROUP" in
      (Ret (Consumer.mkGlobals
              (environ w !! "BOOTSTRAP_SERVER") (environ w !! "SASL_USERNAME")
              (environ w !! "SASL_PASSWORD") (environ w !! "TOPIC_NAME")
              (if PyStr.truthy group then group else Some "demo-dr-consumer-group")
              (environ w !! "SCHEMA_REGISTRY_URL")
              (environ w !! "SCHEMA_REGISTRY_API_KEY")
              (environ w !! "SCHEMA_REGISTRY_API_SECRET")),
       if PyStr.truthy group then w
       else add_trace w
              [Print [Lit "[WARN] 'CONSUMER_GROUP' is not set. Using default: ";
                      Fmt (VOptStr (Some "demo-dr-consumer-group"))]])
  | missing =>
      (Exit 1,
       add_trace w
         [Print [Lit "[ERROR] Missing environment variables: ";
                 Fmt (VStr (PyStr.join ", " missing))]])
  end.
Proof.
  unfold Consumer.settings. run.
  destruct (Consumer.missing_vars _); [|reflexivity].
  destruct (PyStr.truthy _); reflexivity.
Qed.

Lemma add_trace_nil (w : world) : add_trace w [] = w.
Proof. unfold add_trace. rewrite app_nil_r. apply world_eta. Qed.

Lemma three_constructors (o : oracle) (e1 e2 e3 : event) (h : handler) (w : world) :
  (construct e1;; construct e2;; construct e3;;
   signal_signal SIGINT h;; signal_signal SIGTERM h) o w
  = clients_outcome o [e1; e2; e3] h w.
Proof.
  unfold clients_outcome, construct. cbn [constructed]. unfold bind at 1.
  destruct (constructor_raises o e1); cbn [fst snd]; [now rewrite add_trace_nil|].
  unfold emit at 1, bind at 1.
  destruct (constructor_raises o e2); cbn [fst snd]; [reflexivity|].
  unfold emit at 1, bind at 1.
  destruct (constructor_raises o e3); cbn [fst snd].
  - unfold add_trace. cbn [environ trace handlers rnd_pos clock_pos
      polls_pos produce_pos reports_pos]. now rewrite <- app_assoc.
  - run. unfold with_handlers, add_trace. cbn [environ trace handlers rnd_pos clock_pos
      polls_pos produce_pos reports_pos]. now rewrite <- !app_assoc.
Qed.

Lemma producer_clients_eq (g : Producer.globals) (o : oracle) (w : world) :
  Producer.clients g o w =
  clients_outcome o (producer_clients_built g) ProducerShutdown w.
Proof. apply three_constructors. Qed.

Lemma consumer_clients_eq (g : Consumer.globals) (o : oracle) (w : world) :
  Consumer.clients g o w =
  clients_outcome o (consumer_clients_built g) ConsumerShutdown w.
Proof. apply three_constructors. Qed.

(** What the client section leaves behind, whichever way it ends. *)
Lemma clients_outcome_cases (o : oracle) (es : list event) (h : handler) (w : world) :
  (exists x done rest,
     clients_outcome o es h w = (Raise x, add_trace w done) /\
     es = done ++ rest /\
     (forall e, e ∈ done -> constructor_raises o e = None) /\
     (exists e, head rest = Some e /\ constructor_raises o e = Some x)) \/
  (clients_outcome o es h w =
     (Ret tt, with_handlers h (add_trace w (es ++ [SignalSignal SIGINT; SignalSignal SIGTERM])))
   /\ forall e, e ∈ es -> constructor_raises o e = None).
Proof.
  unfold clients_outcome.
  assert (H : (exists x done rest,
                 constructed o es = (done, Some x) /\ es = done ++ rest /\
                 (forall e, e ∈ done -> constructor_raises o e = None) /\
                 exists e, head rest = Some e /\ constructor_raises o e = Some x) \/
              (constructed o es = (es, None) /\
               forall e, e ∈ es -> constructor_raises o e = None)).
  { induction es as [|e es IH].
    - right. split; [reflexivity|]. intros e He. now apply elem_of_nil in He.
    - cbn [constructed]. destruct (constructor_raises o e) as [x|] eqn:E.
      + left. exists x, [], (e :: es). split; [reflexivity|]. split; [reflexivity|].
        split; [intros e' He'; now apply elem_of_nil in He'|].
        exists e. now split.
      + destruct IH as [(x & done & rest & Hc & Hes & Hdone & Hraise)|[Hc Hall]].
        * left. exists x, (e :: done), rest. rewrite Hc. cbn [fst snd].
          split; [reflexivity|]. split; [now rewrite Hes|]. split; [|exact Hraise].
          intros e' He'. apply elem_of_cons in He' as [->|He']; auto.
        * right. rewrite Hc. cbn [fst snd]. split; [reflexivity|].
          intros e' He'. apply elem_of_cons in He' as [->|He']; auto. }
  destruct H as [(x & done & rest & Hc & Hes & Hdone & Hraise)|[Hc Hall]];
    rewrite Hc; cbn [fst snd].
  - left. exists x, done, rest. auto.
  - right. auto.
Qed.

(** The script as a whole, once the loader has returned. *)
Lemma producer_startup_after_load (inv : invocation) (o : oracle) (w w1 : world) :
  Producer.load_environment_file inv o w = (Ret tt, w1) ->
  Producer.startup inv o w =
  match Producer.settings o w1 with
  | (Ret g, w2) =>
      then_clients g (clients_outcome o (producer_clients_built g) ProducerShutdown w2)
  | r => r
  end.
Proof.
  intros Hload. unfold Producer.startup, Producer.configuration.
  unfold bind at 1 2. rewrite Hload.
  destruct (Producer.settings o w1) as [[g|e|c] w2]; try reflexivity.
  unfold bind. rewrite producer_clients_eq.
  now destruct (clients_outcome _ _ _ _) as [[[]|e|c] w3].
Qed.

Lemma consumer_startup_after_load (inv : invocation) (o : oracle) (w w1 : world) :
  Consumer.load_environment_file inv o w = (Ret tt, w1) ->
  Consumer.startup inv o w =
  match Consumer.settings o w1 with
  | (Ret g, w2) =>
      then_clients g (clients_outcome o (consumer_clients_built g) ConsumerShutdown w2)
  | r => r
  end.
Proof.
  intros Hload. unfold Consumer.startup, Consumer.configuration.
  unfold bind at 1 2. rewrite Hload.
  destruct (Consumer.settings o w1) as [[g|e|c] w2]; try reflexivity.
  unfold bind. rewrite consumer_clients_eq.
  now destruct (clients_outcome _ _ _ _) as [[[]|e|c] w3].
Qed.

Lemma loaded_trace (inv : invocation) (env : gmap string string) (w1 : world) :
  loaded inv (initial_world env) w1 ->
  exists f, trace w1 =
    [LoadDotenv f; Print [Lit "[INFO] Loaded environment from "; Fmt (VStr f)]].
Proof. intros (f & parsed & _ & ->). now exists f. Qed.

(** ** The environment selector *)

(** C1, as stated, fails: the selector is lower-cased before it is
    compared, so the argument [EAST], which is not one of [east] and
    [west], selects [east.env]; with a complete file the producer goes on
    to build its clients. *)
Lemma uppercase_selector_is_accepted :
  let inv := mkInvocation ["avro_producer_app.py"; "EAST"]
                          {[ "east.env" := sample_env ]} in
("EAST" ∉ ["east"; "west"]) /\
  returned (fst (run_producer inv ∅ idle_oracle)) = true /\
  no_client_constructed (trace (snd (run_producer inv ∅ idle_oracle))) = false.
Proof.
  split; [|split; vm_compute; reflexivity].
  rewrite !elem_of_cons, elem_of_nil. intros [H|[H|[]]]; discriminate H.
Qed.

(** C1, amended: when the first command-line argument, once lower-cased,
    is neither [east] nor [west], either script prints the [ERROR]
    diagnostic naming the lower-cased argument and the line of valid
    options, then exits with status 1; nothing else has happened, so no
    schema-registry or broker client was constructed and the environment
    is untouched. *)
Theorem invalid_selector_exits_before_clients
    (inv : invocation) (prog arg1 : string) (rest : list string)
    (env : gmap string string) (o : oracle) :
  argv inv = prog :: arg1 :: rest ->
  PyStr.lower arg1 ∉ ["east"; "west"] ->
  (exists w, run_producer inv env o = (Exit 1, w) /\
             trace w = selector_diagnostic (PyStr.lower arg1) /\
             environ w = env /\
             no_client_constructed (trace w) = true /\
             existsb (is_print_at ERROR) (trace w) = true) /\
  (exists w, run_consumer inv env o = (Exit 1, w) /\
             trace w = selector_diagnostic (PyStr.lower arg1) /\
             environ w = env /\
             no_client_constructed (trace w) = true /\
             existsb (is_print_at ERROR) (trace w) = true).
Proof.
  intros Hargv Hsel.
  pose proof (load_rejects_selector inv prog arg1 rest o (initial_world env) Hargv Hsel)
    as Hload.
  split.
  - eexists. unfold run_producer, Producer.startup, Producer.configuration.
    unfold bind at 1 2 3. rewrite Hload. repeat split; reflexivity.
  - eexists. unfold run_consumer, Consumer.startup, Consumer.configuration.
    unfold bind at 1 2 3. rewrite load_environment_file_same, Hload.
    repeat split; reflexivity.
Qed.

Lemma invalid_selector_witness :
  let inv := mkInvocation ["avro_consumer_app.py"; "North"] ∅ in
  (exists w, run_producer inv sample_env idle_oracle = (Exit 1, w) /\
             trace w = selector_diagnostic "north" /\
             environ w = sample_env /\
             no_client_constructed (trace w) = true /\
             existsb (is_print_at ERROR) (trace w) = true) /\
  (exists w, run_consumer inv sample_env idle_oracle = (Exit 1, w) /\
             trace w = selector_diagnostic "north" /\
             environ w = sample_env /\
             no_client_constructed (trace w) = true /\
             existsb (is_print_at ERROR) (trace w) = true).
Proof.
  apply (invalid_selector_exits_before_clients
           (mkInvocation ["avro_consumer_app.py"; "North"] ∅)
           "avro_consumer_app.py" "North" [] sample_env idle_oracle).
  - reflexivity.
  - refine (bool_decide_eq_false_1 _ _). vm_compute. reflexivity.
Defined.

(** ** Required variables *)

Lemma loaded_quiet (inv : invocation) (env : gmap string string) (w1 : world)
    (es : list event) :
  loaded inv (initial_world env) w1 ->
  no_client_constructed (trace w1 ++ es) = no_client_constructed es /\
  existsb (is_print_at ERROR) (trace w1 ++ es) = existsb (is_print_at ERROR) es /\
  existsb (is_print_at WARN) (trace w1 ++ es) = existsb (is_print_at WARN) es.
Proof.
  intros Hl. destruct (loaded_trace _ _ _ Hl) as [f ->]. repeat split.
Qed.

Lemma producer_reports_missing
    (inv : invocation) (env : gmap string string) (o : oracle) (w1 : world)
    (v : string) :
  v ∈ required_vars ->
  Producer.load_environment_file inv o (initial_world env) = (Ret tt, w1) ->
  environ w1 !! v = None ->
  is_Some (PyFloat.of_string (default "1.0" (environ w1 !! "MESSAGE_INTERVAL"))) ->
  exists w2,
    run_producer inv env o = (Exit 1, w2) /\
    trace w2 = (trace w1 ++
      [Print [Lit "[ERROR] Missing required environment variables: ";
              Fmt (VStr (PyStr.join ", " (Producer.missing_vars (environ w1))))]])%list /\
    no_client_constructed (trace w2) = true.
Proof.
  intros Hv Hload Hnone [f Hf]. pose proof (load_returns _ _ _ _ Hload) as Hl.
  assert (Hin : v ∈ Producer.missing_vars (environ w1))
    by now apply producer_missing_vars_spec.
  unfold run_producer. rewrite (producer_startup_after_load _ _ _ _ Hload).
  rewrite producer_settings_eq. cbv zeta. rewrite Hf.
  destruct (Producer.missing_vars (environ w1)) as [|m ms];
    [now apply elem_of_nil in Hin|].
  eexists. split; [reflexivity|]. split; [reflexivity|].
  cbn [trace add_trace]. now rewrite (proj1 (loaded_quiet _ _ _ _ Hl)).
Qed.

Lemma consumer_reports_missing
    (inv : invocation) (env : gmap string string) (o : oracle) (w1 : world)
    (v : string) :
  v ∈ required_vars ->
  Consumer.load_environment_file inv o (initial_world env) = (Ret tt, w1) ->
  environ w1 !! v = None \/ environ w1 !! v = Some "" ->
  exists w2,
    run_consumer inv env o = (Exit 1, w2) /\
    trace w2 = (trace w1 ++
      [Print [Lit "[ERROR] Missing environment variables: ";
              Fmt (VStr (PyStr.join ", " (Consumer.missing_vars (environ w1))))]])%list /\
    no_client_constructed (trace w2) = true.
Proof.
  intros Hv Hload Hempty. pose proof (load_returns _ _ _ _ Hload) as Hl.
  assert (Hin : v ∈ Consumer.missing_vars (environ w1))
    by now apply consumer_missing_vars_spec.
  unfold run_consumer. rewrite (consumer_startup_after_load _ _ _ w1 Hload).
  rewrite consumer_settings_eq.
  destruct (Consumer.missing_vars (environ w1)) as [|m ms];
    [now apply elem_of_nil in Hin|].
  eexists. split; [reflexivity|]. split; [reflexivity|].
  cbn [trace add_trace]. now rewrite (proj1 (loaded_quiet _ _ _ _ Hl)).
Qed.

(** C2, as stated, fails for the producer: [MESSAGE_INTERVAL] is converted
    before the required variables are checked.  With a [.env] that sets
    only [MESSAGE_INTERVAL=fast], every required variable is missing, yet
    the producer ends in an uncaught [ValueError] and prints no [ERROR]
    line, hence no diagnostic naming the missing variables. *)
Lemma unparsable_interval_hides_missing_variables :
  let inv := mkInvocation ["avro_producer_app.py"]
                          {[ ".env" := {[ "MESSAGE_INTERVAL" := "fast" ]} ]} in
  let loading := Producer.load_environment_file inv idle_oracle (initial_world ∅) in
  fst loading = Ret tt /\
  environ (snd loading) !! "TOPIC_NAME" = None /\
  fst (run_producer inv ∅ idle_oracle) =
    Raise (Exc "ValueError" "could not convert string to float: 'fast'") /\
  existsb (is_print_at ERROR) (trace (snd (run_producer inv ∅ idle_oracle))) = false.
Proof. repeat split; vm_compute; reflexivity. Qed.

(** C2, amended: once the environment file is loaded,
    - the consumer, when a required key is unset or set to the empty
      string, and
    - the producer, when a required key is unset and [MESSAGE_INTERVAL] is
      unset or is a float literal,
    prints one [ERROR] line listing exactly the required keys it finds
    missing, in the order of [required_vars], and exits with status 1; no
    schema-registry or broker client has been constructed. *)
Theorem missing_required_variable_exits_before_clients
    (inv : invocation) (env : gmap string string) (o : oracle) (w1 : world)
    (v : string) :
  v ∈ required_vars ->
  Producer.load_environment_file inv o (initial_world env) = (Ret tt, w1) ->
  (environ w1 !! v = None ->
   is_Some (PyFloat.of_string (default "1.0" (environ w1 !! "MESSAGE_INTERVAL"))) ->
   let missing := Producer.missing_vars (environ w1) in
   v ∈ missing /\
   (forall x, x ∈ missing <-> x ∈ required_vars /\ environ w1 !! x = None) /\
   exists w2,
     run_producer inv env o = (Exit 1, w2) /\
     trace w2 = (trace w1 ++
       [Print [Lit "[ERROR] Missing required environment variables: ";
               Fmt (VStr (PyStr.join ", " missing))]])%list /\
     no_client_constructed (trace w2) = true) /\
  (environ w1 !! v = None \/ environ w1 !! v = Some "" ->
   let missing := Consumer.missing_vars (environ w1) in
   v ∈ missing /\
   (forall x, x ∈ missing <->
              x ∈ required_vars /\ (environ w1 !! x = None \/ environ w1 !! x = Some "")) /\
   exists w2,
     run_consumer inv env o = (Exit 1, w2) /\
     trace w2 = (trace w1 ++
       [Print [Lit "[ERROR] Missing environment variables: ";
               Fmt (VStr (PyStr.join ", " missing))]])%list /\
     no_client_constructed (trace w2) = true).
Proof.
  intros Hv Hload. split.
  - intros Hnone Hf missing.
    split; [now apply producer_missing_vars_spec|].
    split; [apply producer_missing_vars_spec|].
    now apply (producer_reports_missing inv env o w1 v).
  - intros Hempty missing.
    split; [now apply consumer_missing_vars_spec|].
    split; [apply consumer_missing_vars_spec|].
    now apply (consumer_reports_missing inv env o w1 v).
Qed.

Lemma missing_required_variable_witness :
  let inv := mkInvocation ["avro_producer_app.py"; "west"]
                          {[ "west.env" := env_without_topic ]} in
  (exists w2,
     run_producer inv ∅ idle_oracle = (Exit 1, w2) /\
     existsb (is_print_at ERROR) (trace w2) = true /\
     no_client_constructed (trace w2) = true) /\
  (exists w2,
     run_consumer inv ∅ idle_oracle = (Exit 1, w2) /\
     existsb (is_print_at ERROR) (trace w2) = true /\
     no_client_constructed (trace w2) = true).
Proof.
  pose (inv := mkInvocation ["avro_producer_app.py"; "west"]
                            {[ "west.env" := env_without_topic ]}).
  pose (w1 := snd (Producer.load_environment_file inv idle_oracle (initial_world ∅))).
  assert (Hv : "TOPIC_NAME" ∈ required_vars).
  { refine (bool_decide_eq_true_1 _ _). vm_compute. reflexivity. }
  assert (Hload : Producer.load_environment_file inv idle_oracle (initial_world ∅)
                  = (Ret tt, w1)) by (vm_compute; reflexivity).
  assert (Hnone : environ w1 !! "TOPIC_NAME" = None) by (vm_compute; reflexivity).
  destruct (missing_required_variable_exits_before_clients
              inv ∅ idle_oracle w1 "TOPIC_NAME" Hv Hload) as [HP HC].
  split.
  - destruct (HP Hnone) as (_ & _ & w2 & Hrun & Htr & Hno).
    { eexists. vm_compute. reflexivity. }
    exists w2. split; [exact Hrun|]. split; [|exact Hno].
    rewrite Htr. rewrite existsb_app. apply orb_true_iff. right. reflexivity.
  - destruct (HC (or_introl Hnone)) as (_ & _ & w2 & Hrun & Htr & Hno).
    exists w2. split; [exact Hrun|]. split; [|exact Hno].
    rewrite Htr. rewrite existsb_app. apply orb_true_iff. right. reflexivity.
Defined.

Lemma producer_all_set (env : gmap string string) :
  (forall v, v ∈ required_vars -> is_Some (env !! v)) ->
  Producer.missing_vars env = [].
Proof.
  intros Hall. destruct (Producer.missing_vars env) as [|x l] eqn:E; [reflexivity|].
  assert (Hx : x ∈ Producer.missing_vars env) by (rewrite E; apply elem_of_cons; now left).
  apply producer_missing_vars_spec in Hx as [Hreq Hnone].
  destruct (Hall x Hreq) as [s Hs]. congruence.
Qed.

Lemma consumer_all_set (env : gmap string string) :
  (forall v, v ∈ required_vars -> exists s, env !! v = Some s /\ s <> "") ->
  Consumer.missing_vars env = [].
Proof.
  intros Hall. destruct (Consumer.missing_vars env) as [|x l] eqn:E; [reflexivity|].
  assert (Hx : x ∈ Consumer.missing_vars env) by (rewrite E; apply elem_of_cons; now left).
  apply consumer_missing_vars_spec in Hx as [Hreq Hbad].
  destruct (Hall x Hreq) as (s & Hs & Hne). destruct Hbad; congruence.
Qed.

(** ** The optional variable *)

Lemma producer_configuration_after_load (inv : invocation) (o : oracle) (w w1 : world) :
  Producer.load_environment_file inv o w = (Ret tt, w1) ->
  Producer.configuration inv o w = Producer.settings o w1.
Proof.
  intros Hload. unfold Producer.configuration, bind. now rewrite Hload.
Qed.

Lemma consumer_configuration_after_load (inv : invocation) (o : oracle) (w w1 : world) :
  Consumer.load_environment_file inv o w = (Ret tt, w1) ->
  Consumer.configuration inv o w = Consumer.settings o w1.
Proof.
  intros Hload. unfold Consumer.configuration, bind. now rewrite Hload.
Qed.

Lemma constructions_are_quiet (lv : level) (es : list event) :
  forallb is_client_construction es = true -> existsb (is_print_at lv) es = false.
Proof.
  induction es as [|e es IH]; [reflexivity|]. cbn [forallb existsb].
  intros H. apply andb_true_iff in H as [He Hes]. rewrite (IH Hes), orb_false_r.
  now destruct e.
Qed.

Lemma forallb_prefix {A} (f : A -> bool) (done rest : list A) :
  forallb f (done ++ rest) = true -> forallb f done = true.
Proof. rewrite forallb_app. intros H. now apply andb_true_iff in H as [H _]. Qed.

(** The two ways the producer ends once its settings are bound. *)
Lemma producer_run_cases (inv : invocation) (env : gmap string string) (o : oracle)
    (w1 w2 : world) (g : Producer.globals) :
  Producer.load_environment_file inv o (initial_world env) = (Ret tt, w1) ->
  Producer.settings o w1 = (Ret g, w2) ->
  (exists x done rest,
     run_producer inv env o = (Raise x, add_trace w2 done) /\
     producer_clients_built g = done ++ rest /\
     (forall e, e ∈ done -> constructor_raises o e = None) /\
     exists e, head rest = Some e /\ constructor_raises o e = Some x) \/
  (run_producer inv env o =
     (Ret g, with_handlers ProducerShutdown (add_trace w2 (producer_client_events g))) /\
   forall e, e ∈ producer_clients_built g -> constructor_raises o e = None).
Proof.
  intros Hload Hset. unfold run_producer.
  rewrite (producer_startup_after_load _ _ _ _ Hload), Hset.
  destruct (clients_outcome_cases o (producer_clients_built g) ProducerShutdown w2)
    as [(x & done & rest & -> & Hes & Hdone & Hraise)|[-> Hall]]; [left|right].
  - exists x, done, rest. auto.
  - auto.
Qed.

Lemma consumer_run_cases (inv : invocation) (env : gmap string string) (o : oracle)
    (w1 w2 : world) (g : Consumer.globals) :
  Consumer.load_environment_file inv o (initial_world env) = (Ret tt, w1) ->
  Consumer.settings o w1 = (Ret g, w2) ->
  (exists x done rest,
     run_consumer inv env o = (Raise x, add_trace w2 done) /\
     consumer_clients_built g = done ++ rest /\
     (forall e, e ∈ done -> constructor_raises o e = None) /\
     exists e, head rest = Some e /\ constructor_raises o e = Some x) \/
  (run_consumer inv env o =
     (Ret g, with_handlers ConsumerShutdown (add_trace w2 (consumer_client_events g))) /\
   forall e, e ∈ consumer_clients_built g -> constructor_raises o e = None).
Proof.
  intros Hload Hset. unfold run_consumer.
  rewrite (consumer_startup_after_load _ _ _ _ Hload), Hset.
  destruct (clients_outcome_cases o (consumer_clients_built g) ConsumerShutdown w2)
    as [(x & done & rest & -> & Hes & Hdone & Hraise)|[-> Hall]]; [left|right].
  - exists x, done, rest. auto.
  - auto.
Qed.

(** C3, as stated, fails for the producer: with every required variable
    set and [MESSAGE_INTERVAL] absent the interval is 1.0, but no [WARN]
    line is printed. *)
Lemma producer_default_interval_is_silent :
  let inv := mkInvocation ["avro_producer_app.py"] {[ ".env" := sample_env ]} in
  let run := run_producer inv ∅ idle_oracle in
  environ (snd run) !! "MESSAGE_INTERVAL" = None /\
  (exists g, fst run = Ret g /\ PyFloat.denotes (Producer.MESSAGE_INTERVAL g) 1) /\
  existsb (is_print_at WARN) (trace (snd run)) = false.
Proof.
  split; [vm_compute; reflexivity|]. split; [|vm_compute; reflexivity].
  eexists. split; [vm_compute; reflexivity|]. reflexivity.
Qed.

(** C3, amended: once the environment file is loaded,
    - the consumer, with every required key set to a non-empty string and
      [CONSUMER_GROUP] absent, settles on the group
      [demo-dr-consumer-group] and prints a [WARN] line saying so, before
      it builds any client; the group is the [group.id] of the broker
      client's configuration, and the warning stays in the output however
      the constructors end;
    - the producer, with every required key set and [MESSAGE_INTERVAL]
      absent, settles on the interval [float("1.0")], that is 1 second,
      and prints nothing; no [WARN] line is printed later either, however
      the constructors end. *)
Theorem optional_variable_defaults
    (inv : invocation) (env : gmap string string) (o : oracle) (w1 : world) :
  Producer.load_environment_file inv o (initial_world env) = (Ret tt, w1) ->
  ((forall v, v ∈ required_vars -> exists s, environ w1 !! v = Some s /\ s <> "") ->
   environ w1 !! "CONSUMER_GROUP" = None ->
   exists g,
     Consumer.configuration inv o (initial_world env)
       = (Ret g, add_trace w1 [group_warning]) /\
     Consumer.CONSUMER_GROUP g = Some "demo-dr-consumer-group" /\
     ("group.id", CStr (Some "demo-dr-consumer-group")) ∈ Consumer.consumer_conf g /\
     is_print_at WARN group_warning = true /\
     exists r w3 es,
       run_consumer inv env o = (r, w3) /\
       trace w3 = trace w1 ++ group_warning :: es /\
       (forall g', r = Ret g' -> g' = g /\ es = consumer_client_events g)) /\
  ((forall v, v ∈ required_vars -> is_Some (environ w1 !! v)) ->
   environ w1 !! "MESSAGE_INTERVAL" = None ->
   exists g,
     Producer.configuration inv o (initial_world env) = (Ret g, w1) /\
     PyFloat.of_string "1.0" = Some (Producer.MESSAGE_INTERVAL g) /\
     PyFloat.denotes (Producer.MESSAGE_INTERVAL g) 1 /\
     exists r w3,
       run_producer inv env o = (r, w3) /\
       existsb (is_print_at WARN) (trace w3) = false /\
       (forall g', r = Ret g' ->
                   g' = g /\ trace w3 = trace w1 ++ producer_client_events g)).
Proof.
  intros Hload. pose proof (load_returns _ _ _ _ Hload) as Hl. split.
  - intros Hall Hgroup.
    assert (Hset : exists g,
              Consumer.settings o w1 = (Ret g, add_trace w1 [group_warning]) /\
              Consumer.CONSUMER_GROUP g = Some "demo-dr-consumer-group").
    { rewrite consumer_settings_eq, (consumer_all_set _ Hall). cbv zeta.
      rewrite Hgroup. cbn [PyStr.truthy]. eexists. split; reflexivity. }
    destruct Hset as (g & Hset & Hg). exists g.
    split; [now rewrite (consumer_configuration_after_load _ _ _ w1 Hload)|].
    split; [exact Hg|].
    split; [rewrite <- Hg; apply list_elem_of_In; cbn; tauto|].
    split; [reflexivity|].
    destruct (consumer_run_cases inv env o w1 _ g Hload Hset)
      as [(x & done & rest & -> & _ & _ & _)|[-> _]].
    + eexists _, _, done. split; [reflexivity|].
      split; [cbn [trace add_trace]; now rewrite <- app_assoc|]. discriminate.
    + eexists _, _, (consumer_client_events g). split; [reflexivity|].
      split; [cbn [trace add_trace with_handlers]; now rewrite <- app_assoc|].
      intros g' [= <-]. now split.
  - intros Hall Hinterval.
    assert (Hset : exists g,
              Producer.settings o w1 = (Ret g, w1) /\
              Producer.MESSAGE_INTERVAL g = PyFloat.Finite 1).
    { rewrite producer_settings_eq. cbv zeta. rewrite Hinterval.
      change (default "1.0" None) with "1.0".
      change (PyFloat.of_string "1.0") with (Some (PyFloat.Finite 1)).
      cbv iota. rewrite (producer_all_set _ Hall). eexists. split; reflexivity. }
    destruct Hset as (g & Hset & Hg). exists g.
    split; [now rewrite (producer_configuration_after_load _ _ _ w1 Hload)|].
    rewrite Hg. split; [reflexivity|]. split; [reflexivity|].
    destruct (producer_run_cases inv env o w1 _ g Hload Hset)
      as [(x & done & rest & -> & Hes & _ & _)|[-> _]].
    + eexists _, _. split; [reflexivity|]. split; [|discriminate].
      cbn [trace add_trace]. rewrite (proj2 (proj2 (loaded_quiet _ _ _ _ Hl))).
      apply constructions_are_quiet, (forallb_prefix _ done rest).
      now rewrite <- Hes.
    + eexists _, _. split; [reflexivity|]. split.
      * cbn [trace add_trace with_handlers].
        now rewrite (proj2 (proj2 (loaded_quiet _ _ _ _ Hl))).
      * intros g' [= <-]. now split.
Qed.

Lemma optional_variable_defaults_witness :
  let inv := mkInvocation ["avro_consumer_app.py"] {[ ".env" := sample_env ]} in
  (exists g w2,
     Consumer.configuration inv unreachable_oracle (initial_world ∅) = (Ret g, w2) /\
     Consumer.CONSUMER_GROUP g = Some "demo-dr-consumer-group" /\
     last (trace w2) = Some group_warning) /\
  (exists g,
     Producer.configuration inv unreachable_oracle (initial_world ∅)
       = (Ret g, snd (Producer.load_environment_file inv unreachable_oracle
                        (initial_world ∅))) /\
     PyFloat.denotes (Producer.MESSAGE_INTERVAL g) 1).
Proof.
  intros inv.
  pose (w1 := snd (Producer.load_environment_file inv unreachable_oracle
                     (initial_world ∅))).
  assert (Hload : Producer.load_environment_file inv unreachable_oracle (initial_world ∅)
                  = (Ret tt, w1)) by (vm_compute; reflexivity).
  assert (Hall : forall v, v ∈ required_vars ->
                           exists s, environ w1 !! v = Some s /\ s <> "").
  { intros v. unfold required_vars. rewrite !elem_of_cons, elem_of_nil.
    intros [->|[->|[->|[->|[->|[->|[->|[]]]]]]]];
      (eexists; split; [vm_compute; reflexivity | discriminate]). }
  destruct (optional_variable_defaults inv ∅ unreachable_oracle w1 Hload) as [HC HP].
  split.
  - destruct HC as (g & Hrun & Hgroup & _).
    + exact Hall.
    + vm_compute. reflexivity.
    + exists g, (add_trace w1 [group_warning]). split; [exact Hrun|].
      split; [exact Hgroup|]. vm_compute. reflexivity.
  - destruct HP as (g & Hrun & _ & Hone & _).
    + intros v Hv. destruct (Hall v Hv) as (s & Hs & _). exists s. exact Hs.
    + vm_compute. reflexivity.
    + exists g. split; [exact Hrun | exact Hone].
Defined.

(** ** The two validations compared *)

(** C9: a required variable set to the empty string is present for the
    producer's test ([os.getenv(var) is None]) and missing for the
    consumer's ([not os.getenv(v)]).  The consumer therefore reports it
    and exits with status 1 before building a client.  The producer, when
    the other required variables are set too and [MESSAGE_INTERVAL] is
    unset or a float literal, passes its validation and reaches the first
    constructor: the script never exits through the validation, the
    registry client's constructor is called with the settings read, and
    either it raises, which ends the script, or the client is built. *)
Theorem empty_value_splits_the_validations
    (inv : invocation) (env : gmap string string) (o : oracle) (w1 : world)
    (v : string) :
  v ∈ required_vars ->
  Producer.load_environment_file inv o (initial_world env) = (Ret tt, w1) ->
  environ w1 !! v = Some "" ->
  (v ∉ Producer.missing_vars (environ w1)) /\
  (v ∈ Consumer.missing_vars (environ w1)) /\
  (exists w2, run_consumer inv env o = (Exit 1, w2) /\
              Consumer.configuration inv o (initial_world env) = (Exit 1, w2) /\
              no_client_constructed (trace w2) = true) /\
  ((forall x, x ∈ required_vars -> is_Some (environ w1 !! x)) ->
   is_Some (PyFloat.of_string (default "1.0" (environ w1 !! "MESSAGE_INTERVAL"))) ->
   exists g,
     Producer.configuration inv o (initial_world env) = (Ret g, w1) /\
     (forall c w, run_producer inv env o <> (Exit c, w)) /\
     (forall e,
        constructor_raises o (NewSchemaRegistryClient (Producer.schema_registry_conf g))
          = Some e ->
        run_producer inv env o = (Raise e, w1)) /\
     (constructor_raises o (NewSchemaRegistryClient (Producer.schema_registry_conf g))
        = None ->
      exists r w3 es,
        run_producer inv env o = (r, w3) /\
        trace w3 = trace w1
                   ++ NewSchemaRegistryClient (Producer.schema_registry_conf g) :: es /\
        no_client_constructed (trace w3) = false)).
Proof.
  intros Hv Hload Hempty. pose proof (load_returns _ _ _ _ Hload) as Hl.
  split; [|split; [|split]].
  - rewrite producer_missing_vars_spec. intros [_ H]. congruence.
  - apply consumer_missing_vars_spec. auto.
  - destruct (consumer_reports_missing inv env o w1 v Hv Hload (or_intror Hempty))
      as (w2 & Hrun & Htr & Hno).
    exists w2. split; [exact Hrun|]. split; [|exact Hno].
    unfold run_consumer in Hrun.
    rewrite (consumer_startup_after_load _ _ _ w1 Hload) in Hrun.
    rewrite (consumer_configuration_after_load _ _ _ w1 Hload).
    destruct (Consumer.settings o w1) as [[g|e|c] w2'] eqn:E; [|discriminate|exact Hrun].
    exfalso.
    destruct (clients_outcome_cases o (consumer_clients_built g) ConsumerShutdown w2')
      as [(x & done & rest & Hc & _)|[Hc _]]; rewrite Hc in Hrun; discriminate.
  - intros Hall [f Hf].
    assert (Hset : exists g, Producer.settings o w1 = (Ret g, w1)).
    { rewrite producer_settings_eq. cbv zeta. rewrite Hf, (producer_all_set _ Hall).
      eexists. reflexivity. }
    destruct Hset as (g & Hset). exists g.
    split; [now rewrite (producer_configuration_after_load _ _ _ w1 Hload)|].
    destruct (producer_run_cases inv env o w1 _ g Hload Hset)
      as [(x & done & rest & Hrun & Hes & Hdone & e0 & Hhead & Hraise)|[Hrun Hnone]].
    + split; [intros c w; rewrite Hrun; discriminate|].
      destruct done as [|d done].
      * cbn [app] in Hes. rewrite <- Hes in Hhead. injection Hhead as <-.
        split.
        -- intros e He. rewrite Hraise in He. injection He as <-.
           now rewrite Hrun, add_trace_nil.
        -- intros He. congruence.
      * injection Hes as <- Hes. split.
        -- intros e He. rewrite Hdone in He; [discriminate|].
           apply elem_of_cons. now left.
        -- intros _. eexists _, _, done. split; [exact Hrun|].
           split; [reflexivity|].
           cbn [trace add_trace]. unfold no_client_constructed.
           rewrite forallb_app. cbn. now rewrite andb_false_r.
    + split; [intros c w; rewrite Hrun; discriminate|]. split.
      * intros e He. rewrite Hnone in He; [discriminate|].
        apply elem_of_cons. now left.
      * intros _. eexists _, _, _. split; [exact Hrun|]. split; [reflexivity|].
        cbn [trace add_trace with_handlers]. unfold no_client_constructed.
        rewrite forallb_app. cbn. now rewrite andb_false_r.
Qed.

Lemma empty_value_witness :
  let inv := mkInvocation ["avro_producer_app.py"; "east"]
                          {[ "east.env" := env_with_empty_password ]} in
  (exists g w1,
     Producer.configuration inv unreachable_oracle (initial_world ∅) = (Ret g, w1) /\
     run_producer inv ∅ unreachable_oracle = (Raise registry_down, w1)) /\
  fst (run_consumer inv ∅ unreachable_oracle) = Exit 1.
Proof.
  intros inv.
  pose (w1 := snd (Producer.load_environment_file inv unreachable_oracle
                     (initial_world ∅))).
  assert (Hv : "SASL_PASSWORD" ∈ required_vars).
  { refine (bool_decide_eq_true_1 _ _). vm_compute. reflexivity. }
  assert (Hload : Producer.load_environment_file inv unreachable_oracle (initial_world ∅)
                  = (Ret tt, w1)) by (vm_compute; reflexivity).
  assert (Hempty : environ w1 !! "SASL_PASSWORD" = Some "") by (vm_compute; reflexivity).
  destruct (empty_value_splits_the_validations
              inv ∅ unreachable_oracle w1 "SASL_PASSWORD" Hv Hload Hempty)
    as (_ & _ & (w2 & Hcons & _) & HP).
  split.
  - destruct HP as (g & Hconf & _ & Hraise & _).
    + intros x. unfold required_vars. rewrite !elem_of_cons, elem_of_nil.
      intros [->|[->|[->|[->|[->|[->|[->|[]]]]]]]]; eexists; vm_compute; reflexivity.
    + eexists. vm_compute. reflexivity.
    + exists g, w1. split; [exact Hconf|]. apply Hraise. reflexivity.
  - now rewrite Hcons.
Defined.

(** ** The message interval *)

(** C10: the producer converts [MESSAGE_INTERVAL] with [float] before it
    checks the required variables.  Once the environment file is loaded,
    if [MESSAGE_INTERVAL] is set to ASCII text that [float] rejects, the
    script ends in an uncaught [ValueError] (status 1) with nothing done
    since the loader returned: no [ERROR] line, no report of missing
    variables, no client.  Nothing is assumed about the required
    variables. *)
Theorem unparsable_interval_raises
    (inv : invocation) (env : gmap string string) (o : oracle) (w1 : world)
    (text : string) :
  Producer.load_environment_file inv o (initial_world env) = (Ret tt, w1) ->
  environ w1 !! "MESSAGE_INTERVAL" = Some text ->
  PyStr.is_ascii text = true ->
  PyFloat.of_string text = None ->
  (exists e, run_producer inv env o = (Raise e, w1) /\ exn_class e = "ValueError") /\
  exit_status (fst (run_producer inv env o)) = 1 /\
  (exists f, trace w1 =
     [LoadDotenv f; Print [Lit "[INFO] Loaded environment from "; Fmt (VStr f)]]) /\
  existsb (is_print_at ERROR) (trace w1) = false /\
  no_client_constructed (trace w1) = true.
Proof.
  intros Hload Htext _ Hbad. pose proof (load_returns _ _ _ _ Hload) as Hl.
  assert (Hrun : run_producer inv env o =
            (Raise (Exc "ValueError"
                      ("could not convert string to float: " +:+ PyStr.repr text)), w1)).
  { unfold run_producer. rewrite (producer_startup_after_load _ _ _ _ Hload).
    rewrite producer_settings_eq. cbv zeta. rewrite Htext.
    change (default "1.0" (Some text)) with text. now rewrite Hbad. }
  split; [eexists; split; [exact Hrun | reflexivity]|].
  split; [now rewrite Hrun|].
  destruct (loaded_trace _ _ _ Hl) as [f Hf].
  split; [now exists f|]. rewrite Hf. split; reflexivity.
Qed.

Lemma unparsable_interval_witness :
  let inv := mkInvocation ["avro_producer_app.py"]
                          {[ ".env" := {[ "MESSAGE_INTERVAL" := "1,5" ]} ]} in
  Producer.missing_vars (environ (snd (run_producer inv ∅ idle_oracle))) = required_vars /\
  (exists e, fst (run_producer inv ∅ idle_oracle) = Raise e /\
             exn_class e = "ValueError") /\
  existsb (is_print_at ERROR) (trace (snd (run_producer inv ∅ idle_oracle))) = false.
Proof.
  intros inv.
  pose (w1 := snd (Producer.load_environment_file inv idle_oracle (initial_world ∅))).
  assert (Hload : Producer.load_environment_file inv idle_oracle (initial_world ∅)
                  = (Ret tt, w1)) by (vm_compute; reflexivity).
  assert (Htext : environ w1 !! "MESSAGE_INTERVAL" = Some "1,5")
    by (vm_compute; reflexivity).
  destruct (unparsable_interval_raises inv ∅ idle_oracle w1 "1,5" Hload Htext
              eq_refl eq_refl) as ((e & Hrun & Hcls) & _ & _ & Hquiet & _).
  split; [vm_compute; reflexivity|]. split.
  - exists e. now rewrite Hrun.
  - rewrite Hrun. exact Hquiet.
Defined.

(** ** Random transactions *)

Lemma random_is_unit_draw (o : oracle) (w : world) :
  random o w = (Ret (unit_draw o (rnd_pos w)), set_rnd w (S (rnd_pos w))).
Proof. reflexivity. Qed.

Lemma unit_draw_range (o : oracle) (i : nat) :
  (0 <= unit_draw o i)%Q /\ (unit_draw o i <= max_draw)%Q.
Proof.
  pose proof (Z.mod_pos_bound (Z.of_N (rnd o i)) (2 ^ 53) eq_refl) as [Hlo Hhi].
  unfold unit_draw, max_draw, Qle. cbn [Qnum Qden].
  change (Z.pos (2 ^ 53)) with (2 ^ 53). lia.
Qed.

(** The index [floor(random() * n)] stays below [n] when the largest
    draw does. *)
Lemma index_in_range (r : Q) (n : Z) :
  (0 <= r)%Q -> (r <= max_draw)%Q ->
  (0 <= Binary.b64 (inject_Z n))%Q ->
  (Binary.fmul max_draw (Binary.b64 (inject_Z n)) < inject_Z n)%Q ->
  0 <= Qfloor (Binary.fmul r (Binary.b64 (inject_Z n))) < n.
Proof.
  intros Hlo Hhi Hn Hmax. set (N := Binary.b64 (inject_Z n)) in *. split.
  - change 0 with (Qfloor 0). apply Qfloor_resp_le. apply b64_nonneg.
    now apply Qmult_le_0_compat.
  - rewrite Zlt_Qlt. eapply Qle_lt_trans; [apply Qfloor_le|].
    eapply Qle_lt_trans; [|exact Hmax]. apply b64_mono.
    now apply Qmult_le_compat_r.
Qed.

Lemma choices_closed (population : list ascii) (k : nat) (o : oracle) (w : world) :
  fair population ->
  exists cs,
    choices population k o w = (Ret cs, set_rnd w (k + rnd_pos w)) /\
    mapM (fun i => pick population (unit_draw o i)) (seq (rnd_pos w) k) = Some cs /\
    length cs = k /\
    forall cls, forallb cls population = true -> forallb cls cs = true.
Proof.
  intros [Hn Hmax]. revert w. induction k as [|k IH]; intros w.
  - exists []. split; [|repeat split].
    unfold choices, ret, set_rnd. cbn [Nat.add]. now rewrite world_eta.
  - cbn [choices]. unfold bind at 1. rewrite random_is_unit_draw.
    destruct (unit_draw_range o (rnd_pos w)) as [Hlo Hhi].
    pose proof (index_in_range _ _ Hlo Hhi Hn Hmax) as [Hi0 Hi1].
    destruct (lookup_lt_is_Some_2 population
                (Z.to_nat (Qfloor (Binary.fmul (unit_draw o (rnd_pos w))
                   (Binary.b64 (inject_Z (Z.of_nat (length population))))))))
      as [c Hc]; [lia|].
    rewrite Hc. unfold bind at 1.
    destruct (IH (set_rnd w (S (rnd_pos w)))) as (cs & -> & Hmap & Hlen & Hcls).
    exists (c :: cs). split; [|split; [|split]].
    + unfold ret, set_rnd. cbn. do 2 f_equal. lia.
    + assert (Hp : pick population (unit_draw o (rnd_pos w)) = Some c) by exact Hc.
      cbn [seq mapM]. rewrite Hp. cbn [mbind option_bind].
      cbn [rnd_pos set_rnd] in Hmap. rewrite Hmap. reflexivity.
    + cbn. now rewrite Hlen.
    + intros cls Hpop. cbn [forallb]. rewrite (Hcls cls Hpop), andb_true_r.
      rewrite forallb_forall in Hpop. apply Hpop.
      apply list_elem_of_In, list_elem_of_lookup. eauto.
Qed.

Lemma fair_upper_alnum : fair (PyStr.chars (PyStr.ascii_uppercase +:+ PyStr.digits)).
Proof. split; vm_compute; [discriminate | reflexivity]. Qed.

Lemma fair_lowercase : fair (PyStr.chars PyStr.ascii_lowercase).
Proof. split; vm_compute; [discriminate | reflexivity]. Qed.

(** The record [generate_random_transaction] returns, as a function of
    the fifteen draws and the clock reading it consumes. *)
Lemma generate_random_transaction_closed (o : oracle) (w : world) :
  exists tid cid,
    mapM (fun i => pick (PyStr.chars (PyStr.ascii_uppercase +:+ PyStr.digits))
                        (unit_draw o i)) (seq (rnd_pos w) 8) = Some tid /\
    mapM (fun i => pick (PyStr.chars PyStr.ascii_lowercase) (unit_draw o i))
         (seq (8 + rnd_pos w) 6) = Some cid /\
    (length tid = 8%nat /\ forallb PyStr.upper_alnum tid = true) /\
    (length cid = 6%nat /\ forallb PyStr.is_lower cid = true) /\
    Producer.generate_random_transaction o w =
      (Ret (mkTransaction (PyStr.of_chars tid) (PyStr.of_chars cid)
              (py_round (sample_of (unit_draw o (14 + rnd_pos w))) 2)
              (py_int (Binary.fmul (time_at o (clock_pos w)) 1000))),
       after_transaction w).
Proof.
  unfold Producer.generate_random_transaction.
  destruct (choices_closed (PyStr.chars (PyStr.ascii_uppercase +:+ PyStr.digits)) 8 o w
              fair_upper_alnum) as (tid & Htid & Hm8 & Hl8 & Hc8).
  destruct (choices_closed (PyStr.chars PyStr.ascii_lowercase) 6 o
              (set_rnd w (8 + rnd_pos w)) fair_lowercase)
    as (cid & Hcid & Hm6 & Hl6 & Hc6).
  exists tid, cid. split; [exact Hm8|]. split; [exact Hm6|].
  split; [split; [exact Hl8 | now apply Hc8]|].
  split; [split; [exact Hl6 | now apply Hc6]|].
  unfold bind at 1. rewrite Htid. unfold bind at 1. rewrite Hcid.
  unfold bind at 1, uniform, bind at 1. rewrite random_is_unit_draw.
  reflexivity.
Qed.

Lemma py_int_cases (x : Q) :
  py_int x = if 0 <=? Qnum x then Qfloor x else Qceiling x.
Proof.
  unfold py_int, Qceiling, Qfloor. destruct x as [n d]. cbn [Qnum Qden Qopp].
  destruct (Z.leb_spec 0 n).
  - now apply Z.quot_div_nonneg.
  - rewrite <- (Z.opp_involutive n) at 1.
    rewrite Z.quot_opp_l by discriminate. f_equal.
    apply Z.quot_div_nonneg; lia.
Qed.

Lemma py_int_mono (x y : Q) : (x <= y)%Q -> py_int x <= py_int y.
Proof.
  intros Hxy. rewrite !py_int_cases.
  destruct (Z.leb_spec 0 (Qnum x)) as [Hx|Hx], (Z.leb_spec 0 (Qnum y)) as [Hy|Hy].
  - now apply Qfloor_resp_le.
  - unfold Qle in Hxy. pose proof (Pos2Z.is_pos (Qden x)). pose proof (Pos2Z.is_pos (Qden y)).
    nia.
  - apply Z.le_trans with 0.
    + change 0 with (Qceiling 0). apply Qceiling_resp_le.
      unfold Qle. cbn. lia.
    + change 0 with (Qfloor 0). apply Qfloor_resp_le. unfold Qle. cbn. lia.
  - now apply Qceiling_resp_le.
Qed.

Lemma fullmatch_of_chars (cls : ascii -> bool) (n : nat) (cs : list ascii) :
  length cs = n -> forallb cls cs = true ->
  PyStr.fullmatch_class cls n (PyStr.of_chars cs) = true.
Proof.
  intros Hl Hf. unfold PyStr.fullmatch_class, PyStr.chars, PyStr.of_chars.
  rewrite list_ascii_of_string_of_list_ascii, Hf, Hl. cbn.
  apply Nat.eqb_refl.
Qed.

Lemma b64_0 : Binary.b64 0 = 0%Q.
Proof. vm_compute. reflexivity. Qed.

Lemma b64_1 : Binary.b64 1 = 1%Q.
Proof. vm_compute. reflexivity. Qed.

Lemma b64_999 : Binary.b64 999 = 999%Q.
Proof. vm_compute. reflexivity. Qed.

Lemma b64_1000 : Binary.b64 1000 = 1000%Q.
Proof. vm_compute. reflexivity. Qed.

Lemma fsub_1000_1 : Binary.fsub 1000 1 = 999%Q.
Proof. vm_compute. reflexivity. Qed.

(** [random.uniform(1.0, 1000.0)] lies in [[1, 1000]]. *)
Lemma sample_range (r : Q) :
  (0 <= r)%Q -> (r <= max_draw)%Q ->
  (1 <= sample_of r)%Q /\ (sample_of r <= 1000)%Q.
Proof.
  intros Hlo Hhi. unfold sample_of, Binary.fadd, Binary.fmul.
  rewrite fsub_1000_1.
  assert (Hmax : (max_draw <= 1)%Q) by (unfold max_draw, Qle; cbn; lia).
  assert (H : (0 <= Binary.b64 (999 * r))%Q /\ (Binary.b64 (999 * r) <= 999)%Q).
  { apply (b64_between 0 999); [exact b64_0 | exact b64_999 | lra | lra]. }
  apply (b64_between 1 1000); [exact b64_1 | exact b64_1000 | lra | lra].
Qed.

(** [round(u, 2)] of a sample is the double nearest to a whole number of
    hundredths between 1 and 1000, and lies between them itself. *)
Lemma rounded_amount_range (u : Q) :
  (1 <= u)%Q -> (u <= 1000)%Q ->
  (1 <= py_round u 2)%Q /\ (py_round u 2 <= 1000)%Q /\
  exists cents : Z, 100 <= cents <= 100000 /\ py_round u 2 = Binary.b64 (Qmake cents 100).
Proof.
  intros Hu1 Hu2. unfold py_round.
  change (Z.to_pos (10 ^ 2)) with 100%positive.
  change (inject_Z (10 ^ 2)) with (inject_Z 100).
  assert (H1 : 100 <= round_half_even (u * inject_Z 100)).
  { apply round_half_even_lower. change (inject_Z 100) with (1 * inject_Z 100)%Q at 1.
    apply Qmult_le_compat_r; [exact Hu1 | discriminate]. }
  assert (H2 : round_half_even (u * inject_Z 100) <= 100000).
  { apply round_half_even_upper. change (inject_Z 100000) with (1000 * inject_Z 100)%Q.
    apply Qmult_le_compat_r; [exact Hu2 | discriminate]. }
  set (cents := round_half_even (u * inject_Z 100)) in *.
  assert (Hc : (1 <= cents # 100)%Q /\ (cents # 100 <= 1000)%Q).
  { unfold Qle. cbn [Qnum Qden]. lia. }
  destruct (b64_between 1 1000 (cents # 100) b64_1 b64_1000 (proj1 Hc) (proj2 Hc))
    as [Ha1 Ha2].
  split; [exact Ha1|]. split; [exact Ha2|]. now exists cents.
Qed.

Lemma generate_random_transaction_eq (o : oracle) (w : world) :
  exists t,
    Producer.generate_random_transaction o w = (Ret t, after_transaction w) /\
    well_formed t /\
    timestamp_ms t = py_int (Binary.fmul (time_at o (clock_pos w)) 1000).
Proof.
  destruct (generate_random_transaction_closed o w)
    as (tid & cid & _ & _ & [Hl8 Hc8] & [Hl6 Hc6] & ->).
  eexists. split; [reflexivity|]. split; [|reflexivity].
  destruct (unit_draw_range o (14 + rnd_pos w)) as [Hlo Hhi].
  destruct (sample_range _ Hlo Hhi) as [Hu1 Hu2].
  destruct (rounded_amount_range _ Hu1 Hu2) as (Ha1 & Ha2 & Hcents).
  repeat split; cbn [transaction_id customer_id amount].
  - now apply fullmatch_of_chars.
  - now apply fullmatch_of_chars.
  - exact Ha1.
  - exact Ha2.
  - exact Hcents.
Qed.

Lemma successive_transactions_eq (o : oracle) (n : nat) (w : world) :
  exists ts w',
    successive_transactions n o w = (Ret ts, w') /\
    length ts = n /\
    Forall well_formed ts /\
    map timestamp_ms ts =
      map (fun i => py_int (Binary.fmul (time_at o (clock_pos w + i)) 1000)) (seq 0 n).
Proof.
  revert w. induction n as [|n IH]; intros w.
  - exists [], w. repeat split. constructor.
  - cbn [successive_transactions]. unfold bind at 1.
    destruct (generate_random_transaction_eq o w) as (t & -> & Hwf & Hts).
    unfold bind at 1.
    destruct (IH (after_transaction w)) as (ts & w' & -> & Hlen & Hall & Hmap).
    exists (t :: ts), w'. split; [reflexivity|]. split; [cbn; now rewrite Hlen|].
    split; [now constructor|].
    cbn [map seq]. rewrite Hts, Nat.add_0_r. f_equal.
    rewrite Hmap, <- seq_shift, map_map. apply map_ext. intros i.
    cbn [after_transaction clock_pos]. rewrite Nat.add_succ_r. reflexivity.
Qed.

Lemma time_monotone (o : oracle) :
  (forall i, (time_at o i <= time_at o (S i))%Q) ->
  forall i j, (i <= j)%nat -> (time_at o i <= time_at o j)%Q.
Proof.
  intros Hstep i j Hij. induction Hij as [|j _ IH]; [apply Qle_refl|].
  eapply Qle_trans; [exact IH | apply Hstep].
Qed.

Lemma sorted_map_seq (f : nat -> Z) :
  (forall i j, (i <= j)%nat -> f i <= f j) ->
  forall n a, StronglySorted Z.le (map f (seq a n)).
Proof.
  intros Hf n. induction n as [|n IH]; intros a; cbn [seq map]; constructor.
  - apply IH.
  - apply Forall_forall. intros x Hx. apply list_elem_of_In, in_map_iff in Hx.
    destruct Hx as (i & <- & Hi). apply in_seq in Hi. apply Hf. lia.
Qed.

(** C4, as stated, fails on its last part: [timestamp_ms] is read from the
    wall clock, and when the clock is set back from 2 s to 1 s between two
    calls they return the timestamps 2000 and 1000. *)
Lemma timestamps_follow_the_wall_clock :
  map timestamp_ms
      <$> value (fst (successive_transactions 2 stepping_back_oracle (initial_world ∅)))
  = Some [2000; 1000] /\
  ~ StronglySorted Z.le [2000; 1000].
Proof.
  split; [vm_compute; reflexivity|].
  intros H. inversion H as [|? ? _ Hall]. inversion Hall as [|? ? Hle _]. lia.
Qed.

(** C4, amended: every call of [generate_random_transaction] returns a
    record whose [transaction_id] matches [[A-Z0-9]{8}], whose
    [customer_id] matches [[a-z]{6}] and whose [amount] lies in
    [[1.0, 1000.0]] and is the double nearest to a whole number of
    hundredths; its [timestamp_ms] is the reading of [time.time()] times
    1000, truncated.  Across any number of successive calls the
    timestamps are non-decreasing provided the readings of [time.time()]
    are. *)
Theorem random_transactions_are_well_formed (o : oracle) (n : nat) (w : world) :
  (exists t w',
     Producer.generate_random_transaction o w = (Ret t, w') /\
     well_formed t /\
     timestamp_ms t = py_int (Binary.fmul (time_at o (clock_pos w)) 1000)) /\
  (exists ts w',
     successive_transactions n o w = (Ret ts, w') /\
     length ts = n /\
     Forall well_formed ts /\
     ((forall i, (time_at o i <= time_at o (S i))%Q) ->
      StronglySorted Z.le (map timestamp_ms ts))).
Proof.
  split.
  - destruct (generate_random_transaction_eq o w) as (t & Hrun & Hwf & Hts).
    now exists t, (after_transaction w).
  - destruct (successive_transactions_eq o n w) as (ts & w' & Hrun & Hlen & Hall & Hmap).
    exists ts, w'. repeat split; try assumption.
    intros Hclock. rewrite Hmap. apply sorted_map_seq.
    intros i j Hij. apply py_int_mono, b64_mono.
    apply Qmult_le_compat_r; [|discriminate].
    apply time_monotone; [exact Hclock | lia].
Qed.

Lemma ticking_clock_advances (i : nat) :
  (time_at ticking_oracle i <= time_at ticking_oracle (S i))%Q.
Proof.
  do 8 (destruct i as [|i]; [vm_compute; discriminate|]).
  unfold time_at. cbn [clock ticking_oracle Nat.min]. rewrite Nat.min_0_r.
  apply Qle_refl.
Qed.

Lemma random_transactions_witness :
  exists ts,
    value (fst (successive_transactions 3 ticking_oracle (initial_world ∅))) = Some ts /\
    StronglySorted Z.le (map timestamp_ms ts).
Proof.
  destruct (random_transactions_are_well_formed ticking_oracle 3 (initial_world ∅))
    as [_ (ts & w' & Hrun & _ & _ & Hsorted)].
  exists ts. split; [now rewrite Hrun|]. apply Hsorted.
  exact ticking_clock_advances.
Defined.

(** ** The generated record, in closed form *)

Lemma mapM_seq_ext {B} (f f' : nat -> option B) (k a a' : nat) :
  (forall i, (i < k)%nat -> f (a + i)%nat = f' (a' + i)%nat) ->
  mapM f (seq a k) = mapM f' (seq a' k).
Proof.
  revert a a'. induction k as [|k IH]; intros a a' H; [reflexivity|].
  cbn [seq mapM]. pose proof (H 0%nat ltac:(lia)) as H0.
  rewrite !Nat.add_0_r in H0. rewrite H0.
  rewrite (IH (S a) (S a')); [reflexivity|].
  intros i Hi. specialize (H (S i) ltac:(lia)).
  now rewrite !Nat.add_succ_r in H.
Qed.

(** X11: a call of [generate_random_transaction] reads fifteen random
    draws and one clock reading and touches nothing else: the process is
    left as it was but for the two cursors, and two calls that see the
    same fifteen draws and the same clock reading return the same record,
    whatever else differs around them. *)
Theorem generated_record_depends_on_15_draws_and_the_clock
    (o o' : oracle) (w w' : world) :
  (forall i, (i < 15)%nat ->
             rnd o (rnd_pos w + i)%nat = rnd o' (rnd_pos w' + i)%nat) ->
  clock o (clock_pos w) = clock o' (clock_pos w') ->
  fst (Producer.generate_random_transaction o w)
    = fst (Producer.generate_random_transaction o' w') /\
  snd (Producer.generate_random_transaction o w) = after_transaction w.
Proof.
  intros Hrnd Hclock.
  assert (Hdraw : forall i, (i < 15)%nat ->
            unit_draw o (rnd_pos w + i)%nat = unit_draw o' (rnd_pos w' + i)%nat).
  { intros i Hi. unfold unit_draw. now rewrite (Hrnd i Hi). }
  destruct (generate_random_transaction_closed o w)
    as (tid & cid & H8 & H6 & _ & _ & ->).
  destruct (generate_random_transaction_closed o' w')
    as (tid' & cid' & H8' & H6' & _ & _ & ->).
  split; [|reflexivity]. cbn [fst].
  rewrite (mapM_seq_ext _
             (fun i => pick (PyStr.chars (PyStr.ascii_uppercase +:+ PyStr.digits))
                            (unit_draw o' i)) 8 (rnd_pos w) (rnd_pos w')) in H8.
  2: { intros i Hi. rewrite Hdraw by lia. reflexivity. }
  rewrite (mapM_seq_ext _
             (fun i => pick (PyStr.chars PyStr.ascii_lowercase) (unit_draw o' i))
             6 (8 + rnd_pos w) (8 + rnd_pos w')) in H6.
  2: { intros i Hi. specialize (Hdraw (8 + i)%nat ltac:(lia)).
       replace (8 + rnd_pos w + i)%nat with (rnd_pos w + (8 + i))%nat by lia.
       replace (8 + rnd_pos w' + i)%nat with (rnd_pos w' + (8 + i))%nat by lia.
       now rewrite Hdraw. }
  assert (tid = tid') by congruence. assert (cid = cid') by congruence. subst.
  specialize (Hdraw 14%nat ltac:(lia)).
  replace (14 + rnd_pos w)%nat with (rnd_pos w + 14)%nat by lia.
  replace (14 + rnd_pos w')%nat with (rnd_pos w' + 14)%nat by lia.
  unfold time_at. rewrite Hdraw, Hclock. reflexivity.
Qed.

Lemma generated_record_witness :
  fst (Producer.generate_random_transaction idle_oracle (initial_world ∅))
    = fst (Producer.generate_random_transaction late_oracle (initial_world sample_env)).
Proof.
  apply (generated_record_depends_on_15_draws_and_the_clock
           idle_oracle late_oracle (initial_world ∅) (initial_world sample_env)).
  - intros i Hi. cbn [rnd idle_oracle late_oracle rnd_pos initial_world Nat.add].
    apply Nat.ltb_lt in Hi. now rewrite Hi.
  - reflexivity.
Defined.

(** ** The consumer's poll loop *)

Lemma consumer_loop_body_eq (o : oracle) (w : world) :
  Consumer.loop_body o w =
  match poll_outcome o (polls_pos w) with
  | inl e => (Raise e, set_polls w (S (polls_pos w)) (trace w ++ [ConsumerPoll 1]))
  | inr out => (Ret tt, set_polls w (S (polls_pos w)) (trace w ++ ConsumerPoll 1 :: out))
  end.
Proof.
  unfold Consumer.loop_body, Consumer.consumer_poll, poll_outcome, set_polls. run.
  destruct (polls o (polls_pos w)) as [msg|]; [|reflexivity].
  destruct (msg_error msg) as [err|] eqn:E; [reflexivity|].
  destruct (decode_raises o (polls_pos w)) as [e|]; [reflexivity|].
  run. rewrite E. run. now rewrite <- app_assoc.
Qed.

Lemma consumer_loop_eq (o : oracle) (n : nat) (w : world) :
  while_true n Consumer.loop_body o w =
  (ended_by (rounds_failure o (polls_pos w) n),
   set_polls w (rounds_end o (polls_pos w) n)
             (trace w ++ rounds_events o (polls_pos w) n)).
Proof.
  unfold rounds_failure, rounds_end, rounds_events.
  revert w. induction n as [|n IH]; intros w.
  - unfold while_true, ret, set_polls. cbn. now rewrite app_nil_r, world_eta.
  - cbn [while_true consumer_rounds]. unfold bind. rewrite consumer_loop_body_eq.
    destruct (poll_outcome o (polls_pos w)) as [e|out]; [reflexivity|].
    rewrite IH. cbn [polls_pos set_polls trace environ handlers rnd_pos clock_pos
                     produce_pos reports_pos].
    destruct (consumer_rounds o (S (polls_pos w)) n) as [[es b] failure].
    cbn [fst snd]. unfold set_polls. cbn. now rewrite <- app_assoc.
Qed.

Lemma emit_then {A} (e : event) (k : M A) (o : oracle) (w : world) :
  (emit e;; k) o w = k o (add_trace w [e]).
Proof. reflexivity. Qed.

Lemma add_trace_add_trace (w : world) (es es' : list event) :
  add_trace (add_trace w es) es' = add_trace w (es ++ es').
Proof. unfold add_trace. cbn. now rewrite <- app_assoc. Qed.

Lemma consumer_main_eq (g : Consumer.globals) (n : nat) (o : oracle) (w : world) :
  Consumer.main g n o w =
  (ended_by (rounds_failure o (polls_pos w) n),
   set_polls w (rounds_end o (polls_pos w) n)
             (trace w ++ consumer_preamble g ++ rounds_events o (polls_pos w) n)).
Proof.
  unfold Consumer.main, print. rewrite !emit_then, !add_trace_add_trace.
  cbn [app]. rewrite consumer_loop_eq. unfold set_polls, add_trace.
  cbn [environ trace handlers rnd_pos clock_pos polls_pos produce_pos reports_pos].
  unfold consumer_preamble. now rewrite <- app_assoc.
Qed.

Lemma poll_error_outcome (o : oracle) (i : nat) (msg : message) (err : KafkaError) :
  polls o i = Some msg -> msg_error msg = Some err ->
  poll_outcome o i = inl (Consumer.ConsumeError err).
Proof. intros Hp He. unfold poll_outcome. now rewrite Hp, He. Qed.

(** C6: what the consumer does with a poll result that carries an error.
    [DeserializingConsumer.poll] raises [ConsumeError] for it, so the
    result never reaches the test of [msg.error()] in the loop: whether
    the error is end of partition or any other, the round ends in the
    exception after the poll, no line is printed, and as [main()] has no
    handler the loop and [main()] end with it (status 1). *)
Theorem a_poll_error_ends_the_consumer
    (g : Consumer.globals) (o : oracle) (n : nat) (w : world)
    (msg : message) (err : KafkaError) :
  polls o (polls_pos w) = Some msg ->
  msg_error msg = Some err ->
  Consumer.loop_body o w =
    (Raise (Consumer.ConsumeError err),
     set_polls w (S (polls_pos w)) (trace w ++ [ConsumerPoll 1])) /\
  while_true (S n) Consumer.loop_body o w =
    (Raise (Consumer.ConsumeError err),
     set_polls w (S (polls_pos w)) (trace w ++ [ConsumerPoll 1])) /\
  Consumer.main g (S n) o w =
    (Raise (Consumer.ConsumeError err),
     set_polls w (S (polls_pos w)) (trace w ++ consumer_preamble g ++ [ConsumerPoll 1])) /\
  existsb (is_print_at ERROR) (consumer_preamble g ++ [ConsumerPoll 1]) = false /\
  exit_status (fst (Consumer.main g (S n) o w)) = 1 /\
  (code err <> _PARTITION_EOF ->
   spec_poll_output (spec_classify (polls o (polls_pos w)))
     = [Print [Lit "[ERROR] "; Fmt (VKafkaError err)]]).
Proof.
  intros Hp He. pose proof (poll_error_outcome o _ msg err Hp He) as Hout.
  assert (Hbody : Consumer.loop_body o w =
            (Raise (Consumer.ConsumeError err),
             set_polls w (S (polls_pos w)) (trace w ++ [ConsumerPoll 1])))
    by now rewrite consumer_loop_body_eq, Hout.
  assert (Hmain : Consumer.main g (S n) o w =
            (Raise (Consumer.ConsumeError err),
             set_polls w (S (polls_pos w))
                       (trace w ++ consumer_preamble g ++ [ConsumerPoll 1]))).
  { rewrite consumer_main_eq. unfold rounds_failure, rounds_end, rounds_events.
    cbn [consumer_rounds]. now rewrite Hout. }
  split; [exact Hbody|]. split; [|split; [exact Hmain|]].
  - cbn [while_true]. unfold bind. now rewrite Hbody.
  - split; [reflexivity|]. split; [now rewrite Hmain|].
    intros Hcode. unfold spec_classify. rewrite Hp, He.
    apply Z.eqb_neq in Hcode. now rewrite Hcode.
Qed.

Lemma a_poll_error_witness :
  fst (Consumer.main sample_consumer_globals 3 unknown_topic_oracle (initial_world ∅))
    = Raise (Consumer.ConsumeError unknown_topic) /\
  existsb (is_print_at ERROR)
    (trace (snd (Consumer.main sample_consumer_globals 3 unknown_topic_oracle
                   (initial_world ∅)))) = false /\
  spec_poll_output (spec_classify (polls unknown_topic_oracle 0))
    = [Print [Lit "[ERROR] "; Fmt (VKafkaError unknown_topic)]].
Proof.
  destruct (a_poll_error_ends_the_consumer sample_consumer_globals unknown_topic_oracle 2
              (initial_world ∅)
              (mkMessage (Some unknown_topic) "transactions" 0 (-1001) DNone)
              unknown_topic eq_refl eq_refl)
    as (_ & _ & Hmain & Hquiet & _ & Hspec).
  split; [now rewrite Hmain|]. split; [rewrite Hmain; exact Hquiet|].
  apply Hspec. discriminate.
Defined.

(** ** The producer's loop *)

Lemma delivery_callback_eq (err : option KafkaError) (msg : message)
    (o : oracle) (w : world) :
  Producer.delivery_callback err msg o w = (Ret tt, add_trace w [callback_line (err, msg)]).
Proof. destruct err; reflexivity. Qed.

Lemma serve_reports_eq (served : list (option KafkaError * message))
    (o : oracle) (w : world) :
  for_each served (fun r => Producer.delivery_callback (fst r) (snd r)) o w =
  (Ret tt, add_trace w (map callback_line served)).
Proof.
  revert w. induction served as [|[err msg] l IH]; intros w.
  - unfold for_each, ret, add_trace. cbn. now rewrite app_nil_r, world_eta.
  - cbn [for_each]. unfold bind. rewrite delivery_callback_eq, IH.
    unfold add_trace. cbn. now rewrite <- app_assoc.
Qed.

Lemma producer_poll_eq (timeout : Z) (o : oracle) (w : world) :
  Producer.producer_poll timeout o w =
  (match snd (reports o (reports_pos w)) with
   | Some e => Raise e
   | None => Ret tt
   end,
   add_trace (take_reports w)
     (ProducerPoll timeout :: map callback_line (fst (reports o (reports_pos w))))).
Proof.
  unfold Producer.producer_poll.
  destruct (reports o (reports_pos w)) as [served failure].
  unfold bind at 1. unfold emit at 1. unfold bind at 1. rewrite serve_reports_eq.
  destruct failure; unfold raise, ret, add_trace, take_reports; cbn;
    now rewrite <- app_assoc.
Qed.

Lemma time_sleep_eq (secs : PyFloat.t) (o : oracle) (w : world) :
  time_sleep secs o w =
  match sleep_failure o secs with
  | Some e => (Raise e, w)
  | None => (Ret tt, add_trace w [Sleep secs])
  end.
Proof.
  unfold sleep_failure, time_sleep. destruct secs as [q| |]; try reflexivity.
  cbv zeta. destruct (_ || _); [reflexivity|].
  destruct (_ <? 0); [reflexivity|].
  now destruct (sleep_raises o (PyFloat.Finite q)).
Qed.

Lemma time_sleep_outcome (secs : PyFloat.t) (o : oracle) (w : world) :
  (time_sleep secs o w = (Ret tt, add_trace w [Sleep secs])) \/
  (exists e, time_sleep secs o w = (Raise e, w)).
Proof.
  rewrite time_sleep_eq. destruct (sleep_failure o secs); eauto.
Qed.

Lemma attempt_outcome (g : Producer.globals) (o : oracle) (w : world) :
  exists r w', Producer.attempt g o w = (r, w') /\
               (forall c, r <> Exit c) /\ round_invariant w w'.
Proof.
  unfold Producer.attempt. unfold bind at 1.
  destruct (generate_random_transaction_eq o w) as (t & -> & _ & _).
  unfold bind at 1. unfold Producer.produce.
  destruct (produce_raises o _) as [e|].
  { eexists _, _. split; [reflexivity|]. split; [discriminate|].
    repeat split. exists []. cbn. now rewrite app_nil_r. }
  unfold emit at 1. unfold bind at 1. rewrite producer_poll_eq.
  destruct (snd (reports o _)) as [e|].
  { eexists _, _. split; [reflexivity|]. split; [discriminate|].
    repeat split. cbn. rewrite <- app_assoc. eauto. }
  unfold bind at 1, print at 1, emit at 1.
  match goal with |- context [time_sleep ?s o ?w0] =>
    destruct (time_sleep_outcome s o w0) as [Hs|[e Hs]]; rewrite Hs end.
  - eexists _, _. split; [reflexivity|]. split; [discriminate|].
    repeat split. cbn. rewrite <- !app_assoc. eauto.
  - eexists _, _. split; [reflexivity|]. split; [discriminate|].
    repeat split. cbn. rewrite <- !app_assoc. eauto.
Qed.

Lemma producer_loop_body_outcome (g : Producer.globals) (o : oracle) (w : world) :
  exists w', Producer.loop_body g o w = (Ret tt, w') /\ round_invariant w w'.
Proof.
  unfold Producer.loop_body, try_except.
  destruct (attempt_outcome g o w) as (r & w1 & -> & Hr & He & Hh & Hp & es & Ht).
  destruct r as [[]|e|c]; [| |now destruct (Hr c)].
  - exists w1. split; [reflexivity|]. repeat split; eauto.
  - eexists. split; [reflexivity|]. repeat split; try assumption.
    cbn. rewrite Ht, <- app_assoc. eauto.
Qed.

Lemma producer_loop_outcome (g : Producer.globals) (o : oracle) (n : nat) (w : world) :
  exists w', while_true n (Producer.loop_body g) o w = (Ret tt, w') /\
             environ w' = environ w /\ handlers w' = handlers w /\
             rnd_pos w' = (15 * n + rnd_pos w)%nat /\
             exists es : list event, trace w' = (trace w ++ es)%list.
Proof.
  revert w. induction n as [|n IH]; intros w.
  - exists w. repeat split. exists []. now rewrite app_nil_r.
  - cbn [while_true]. unfold bind.
    destruct (producer_loop_body_outcome g o w) as (w1 & -> & He & Hh & Hp & es & Ht).
    destruct (IH w1) as (w2 & -> & He2 & Hh2 & Hp2 & es2 & Ht2).
    exists w2. split; [reflexivity|]. repeat split; try congruence.
    + rewrite Hp2, Hp. lia.
    + exists (es ++ es2). now rewrite Ht2, Ht, app_assoc.
Qed.

(** C8: per-message errors do not stop the producer.
    - [delivery_callback], given an error, prints one [ERROR] line and
      returns; [producer.poll(0)] serves every ready report through it.
    - Whatever exception leaves the [try] block of a round (raised by
      [produce], by [poll] or by [sleep]), the round prints one [ERROR]
      line carrying it and returns to the loop; in particular an exception
      raised by [produce] is logged right away.
    - Every round returns to the loop, and [n] rounds of the loop generate
      [n] transactions (15 random draws each) and leave the loop running. *)
Theorem producer_errors_are_not_fatal
    (g : Producer.globals) (o : oracle) (n : nat) (w : world) :
  (forall err msg,
     Producer.delivery_callback (Some err) msg o w =
       (Ret tt, add_trace w
          [Print [Lit "[ERROR] Message failed delivery: "; Fmt (VKafkaError err)]])) /\
  (exists r, Producer.producer_poll 0 o w =
     (r, add_trace (take_reports w)
           (ProducerPoll 0 :: map callback_line (fst (reports o (reports_pos w)))))) /\
  (forall e w1,
     Producer.attempt g o w = (Raise e, w1) ->
     Producer.loop_body g o w = (Ret tt, add_trace w1 [caught_line e]) /\
     is_print_at ERROR (caught_line e) = true) /\
  (forall e,
     produce_raises o (produce_pos w) = Some e ->
     exists w', Producer.loop_body g o w = (Ret tt, w') /\
                trace w' = trace w ++ [caught_line e]) /\
  (exists w', Producer.loop_body g o w = (Ret tt, w')) /\
  (exists w', while_true n (Producer.loop_body g) o w = (Ret tt, w') /\
              rnd_pos w' = (15 * n + rnd_pos w)%nat).
Proof.
  split; [|split; [|split; [|split; [|split]]]].
  - intros err msg. apply delivery_callback_eq.
  - eexists. apply producer_poll_eq.
  - intros e w1 Hraise. unfold Producer.loop_body, try_except. rewrite Hraise.
    split; reflexivity.
  - intros e He. unfold Producer.loop_body, try_except, Producer.attempt.
    unfold bind at 1.
    destruct (generate_random_transaction_eq o w) as (t & -> & _ & _).
    unfold bind at 1, Producer.produce.
    cbn [produce_pos after_transaction]. rewrite He.
    eexists. split; reflexivity.
  - destruct (producer_loop_body_outcome g o w) as (w' & Hrun & _). eauto.
  - destruct (producer_loop_outcome g o n w) as (w' & Hrun & _ & _ & Hp & _). eauto.
Qed.

Lemma producer_errors_witness :
  exists w',
    Producer.loop_body sample_globals failing_oracle (initial_world ∅) = (Ret tt, w') /\
    trace w' = [caught_line queue_full].
Proof.
  destruct (producer_errors_are_not_fatal sample_globals failing_oracle 1 (initial_world ∅))
    as (_ & _ & _ & Hproduce & _).
  destruct (Hproduce queue_full) as (w' & Hrun & Htrace); [reflexivity|].
  exists w'. split; [exact Hrun|]. exact Htrace.
Defined.

(** ** Shutdown *)

Lemma producer_settings_handlers (o : oracle) (w w' : world) (r : result Producer.globals) :
  Producer.settings o w = (r, w') -> handlers w' = handlers w.
Proof.
  rewrite producer_settings_eq. cbv zeta.
  destruct (PyFloat.of_string _); [|now intros [= _ <-]].
  destruct (Producer.missing_vars _); now intros [= _ <-].
Qed.

Lemma consumer_settings_handlers (o : oracle) (w w' : world) (r : result Consumer.globals) :
  Consumer.settings o w = (r, w') -> handlers w' = handlers w.
Proof.
  rewrite consumer_settings_eq.
  destruct (Consumer.missing_vars _); [|now intros [= _ <-]].
  cbv zeta. destruct (PyStr.truthy _); now intros [= _ <-].
Qed.

Lemma startup_needs_the_file {A} (inv : invocation) (o : oracle) (w w1 : world)
    (r : result unit) (k : M A) (a : A) (w2 : world) :
  Producer.load_environment_file inv o w = (r, w1) ->
  (Producer.load_environment_file inv;; k) o w = (Ret a, w2) ->
  r = Ret tt.
Proof.
  intros Hload. unfold bind. rewrite Hload. destruct r as [[]|e|c]; [reflexivity|..];
    discriminate.
Qed.

Lemma producer_startup_handlers (inv : invocation) (env : gmap string string)
    (o : oracle) (g : Producer.globals) (w0 : world) :
  run_producer inv env o = (Ret g, w0) ->
  handlers w0 = [(SIGTERM, ProducerShutdown); (SIGINT, ProducerShutdown)].
Proof.
  unfold run_producer.
  destruct (Producer.load_environment_file inv o (initial_world env))
    as [[[]|e|c] w1] eqn:Hload.
  - rewrite (producer_startup_after_load _ _ _ _ Hload).
    apply load_returns in Hload as (f & parsed & _ & ->).
    destruct (Producer.settings o _) as [[g'|e|c] w2] eqn:Hset; try discriminate.
    apply producer_settings_handlers in Hset.
    destruct (clients_outcome_cases o (producer_clients_built g') ProducerShutdown w2)
      as [(x & done & rest & -> & _)|[-> _]]; [discriminate|].
    intros [= _ <-]. cbn [handlers with_handlers add_trace]. now rewrite Hset.
  - unfold Producer.startup, Producer.configuration. unfold bind at 1 2 3.
    rewrite Hload. discriminate.
  - unfold Producer.startup, Producer.configuration. unfold bind at 1 2 3.
    rewrite Hload. discriminate.
Qed.

Lemma consumer_startup_handlers (inv : invocation) (env : gmap string string)
    (o : oracle) (g : Consumer.globals) (w0 : world) :
  run_consumer inv env o = (Ret g, w0) ->
  handlers w0 = [(SIGTERM, ConsumerShutdown); (SIGINT, ConsumerShutdown)].
Proof.
  unfold run_consumer.
  destruct (Consumer.load_environment_file inv o (initial_world env))
    as [[[]|e|c] w1] eqn:Hload.
  - rewrite (consumer_startup_after_load _ _ _ _ Hload).
    apply load_returns in Hload as (f & parsed & _ & ->).
    destruct (Consumer.settings o _) as [[g'|e|c] w2] eqn:Hset; try discriminate.
    apply consumer_settings_handlers in Hset.
    destruct (clients_outcome_cases o (consumer_clients_built g') ConsumerShutdown w2)
      as [(x & done & rest & -> & _)|[-> _]]; [discriminate|].
    intros [= _ <-]. cbn [handlers with_handlers add_trace]. now rewrite Hset.
  - unfold Consumer.startup, Consumer.configuration. unfold bind at 1 2 3.
    rewrite Hload. discriminate.
  - unfold Consumer.startup, Consumer.configuration. unfold bind at 1 2 3.
    rewrite Hload. discriminate.
Qed.

Lemma producer_main_handlers (g : Producer.globals) (n : nat) (o : oracle)
    (w w1 : world) (r : result unit) :
  Producer.main g n o w = (r, w1) -> r = Ret tt /\ handlers w1 = handlers w.
Proof.
  unfold Producer.main, print. rewrite !emit_then, !add_trace_add_trace.
  match goal with |- context [while_true n _ o ?w0] =>
    destruct (producer_loop_outcome g o n w0) as (w' & -> & _ & Hh & _) end.
  intros [= <- <-]. split; [reflexivity | exact Hh].
Qed.

Lemma consumer_main_handlers (g : Consumer.globals) (n : nat) (o : oracle)
    (w w1 : world) (r : result unit) :
  Consumer.main g n o w = (r, w1) -> handlers w1 = handlers w.
Proof. rewrite consumer_main_eq. now intros [= _ <-]. Qed.

Lemma producer_handle_shutdown_eq (sig : signal) (o : oracle) (w : world) :
  Producer.handle_shutdown sig o w = (Exit 0, add_trace w (producer_shutdown_events o)).
Proof.
  unfold Producer.handle_shutdown, Producer.producer_flush, print.
  rewrite emit_then. unfold bind at 1. rewrite emit_then, serve_reports_eq.
  unfold sys_exit. now rewrite !add_trace_add_trace.
Qed.

Lemma consumer_handle_shutdown_eq (sig : signal) (o : oracle) (w : world) :
  Consumer.handle_shutdown sig o w = (Exit 0, add_trace w [consumer_notice; Close]).
Proof.
  unfold Consumer.handle_shutdown, print. rewrite !emit_then.
  unfold sys_exit. now rewrite !add_trace_add_trace.
Qed.

Lemma getsignal_registered (sig : signal) (h : handler) :
  getsignal sig [(SIGTERM, h); (SIGINT, h)] = Some h.
Proof. now destruct sig. Qed.

(** C7: the producer's handler prints its notice, calls
    [producer.flush(timeout=10)], which serves the delivery reports still
    pending through the delivery callback, and then exits with status 0;
    the consumer's prints its notice, calls [consumer.close()] and then
    exits with status 0.  Once the module-level code of a script has run,
    [signal.signal] has made that function the handler of both [SIGINT]
    and [SIGTERM], and it still is after any number of rounds of the main
    loop, so a signal received there runs it and ends the process this
    way.  Before the registration no function of the script runs on a
    signal.  The exit of the handler is not an [Exception]: the
    [except Exception] clause of the producer's loop does not catch it. *)
Theorem shutdown_flushes_or_closes_then_exits_0
    (inv : invocation) (env : gmap string string) (o : oracle) (n : nat)
    (sig : signal) :
  (forall w, Producer.handle_shutdown sig o w =
               (Exit 0, add_trace w ([producer_notice; Flush 10]
                                     ++ map callback_line (flushed o)))) /\
  (forall w, Consumer.handle_shutdown sig o w =
               (Exit 0, add_trace w [consumer_notice; Close])) /\
  (forall g w0 r w1,
     run_producer inv env o = (Ret g, w0) ->
     Producer.main g n o w0 = (r, w1) ->
     getsignal sig (handlers w1) = Some ProducerShutdown /\
     receive sig o w1 =
       Some (Exit 0, add_trace w1 ([producer_notice; Flush 10]
                                   ++ map callback_line (flushed o)))) /\
  (forall g w0 w1,
     run_consumer inv env o = (Ret g, w0) ->
     Consumer.main g n o w0 = (Ret tt, w1) ->
     getsignal sig (handlers w1) = Some ConsumerShutdown /\
     receive sig o w1 = Some (Exit 0, add_trace w1 [consumer_notice; Close])) /\
  receive sig o (initial_world env) = None /\
  (forall (h : exn -> M unit) w,
     try_except (Producer.handle_shutdown sig) h o w
       = Producer.handle_shutdown sig o w) /\
  exit_status (Exit 0 : result unit) = 0.
Proof.
  split; [intros w; apply producer_handle_shutdown_eq|].
  split; [intros w; apply consumer_handle_shutdown_eq|].
  split; [|split; [|split; [reflexivity|split; [|reflexivity]]]].
  3: { intros h w. unfold try_except. now rewrite producer_handle_shutdown_eq. }
  - intros g w0 r w1 Hstart Hmain.
    apply producer_startup_handlers in Hstart.
    apply producer_main_handlers in Hmain as [_ Hh].
    assert (Hget : getsignal sig (handlers w1) = Some ProducerShutdown)
      by (rewrite Hh, Hstart; apply getsignal_registered).
    split; [exact Hget|]. unfold receive. rewrite Hget. cbn [run_handler].
    now rewrite producer_handle_shutdown_eq.
  - intros g w0 w1 Hstart Hmain.
    apply consumer_startup_handlers in Hstart.
    apply consumer_main_handlers in Hmain.
    assert (Hget : getsignal sig (handlers w1) = Some ConsumerShutdown)
      by (rewrite Hmain, Hstart; apply getsignal_registered).
    split; [exact Hget|]. unfold receive. rewrite Hget. cbn [run_handler].
    now rewrite consumer_handle_shutdown_eq.
Qed.

Lemma shutdown_witness :
  let inv := mkInvocation ["avro_producer_app.py"; "west"] {[ "west.env" := sample_env ]} in
  let started := run_producer inv ∅ pending_oracle in
  let running := Producer.main sample_globals 2 pending_oracle (snd started) in
  exists w2,
    receive SIGTERM pending_oracle (snd running) = Some (Exit 0, w2) /\
    trace w2 = trace (snd running)
               ++ [producer_notice; Flush 10;
                   callback_line (None, mkMessage None "transactions" 3 99 DNone)].
Proof.
  intros inv started running.
  destruct (shutdown_flushes_or_closes_then_exits_0 inv ∅ pending_oracle 2 SIGTERM)
    as (_ & _ & HP & _).
  destruct (HP sample_globals (snd started) (fst running) (snd running)) as [_ Hr].
  - vm_compute. reflexivity.
  - apply surjective_pairing.
  - eexists. split; [exact Hr|]. reflexivity.
Defined.

(** ** The Avro value *)

Lemma below_128 (P : Z -> bool) :
  forallb P (map Z.of_nat (seq 0 128)) = true ->
  forall x, 0 <= x < 128 -> P x = true.
Proof.
  intros H x Hx. rewrite forallb_forall in H. apply H.
  apply in_map_iff. exists (Z.to_nat x). split; [lia|]. apply in_seq. lia.
Qed.

Lemma low_bits (d : Z) : 0 <= d -> Z.land d 127 = d mod 128.
Proof. intros _. change 127 with (Z.ones 7). now rewrite Z.land_ones by lia. Qed.

Lemma high_bits (d : Z) : 0 <= d -> (Z.land d (Z.lnot 127) =? 0) = (d <? 128).
Proof.
  intros Hd. change 127 with (Z.ones 7).
  rewrite <- Z.ldiff_land, Z.ldiff_ones_r by lia.
  rewrite Z.shiftr_div_pow2, Z.shiftl_mul_pow2 by lia. change (2 ^ 7) with 128.
  destruct (Z.ltb_spec d 128) as [H|H].
  - rewrite Z.div_small by lia. reflexivity.
  - apply Z.eqb_neq. assert (1 <= d / 128) by (apply Z.div_le_lower_bound; lia). lia.
Qed.

Lemma continuation_byte (x : Z) :
  0 <= x < 128 ->
  Z.lor x 128 = x + 128 /\ Z.land (x + 128) 127 = x /\ Z.land (x + 128) 128 <> 0 /\
  Z.land x 128 = 0 /\ Z.land x 127 = x.
Proof.
  intros Hx.
  pose proof (below_128
    (fun x => (Z.lor x 128 =? x + 128) && (Z.land (x + 128) 127 =? x)
              && negb (Z.land (x + 128) 128 =? 0) && (Z.land x 128 =? 0)
              && (Z.land x 127 =? x)) ltac:(vm_compute; reflexivity) x Hx) as H.
  cbv beta in H. rewrite !andb_true_iff, negb_true_iff, !Z.eqb_eq, Z.eqb_neq in H.
  tauto.
Qed.

(** Bits put above those of [n] add to it. *)
Lemma lor_shifted (n x shift : Z) :
  0 <= shift -> 0 <= n < 2 ^ shift -> 0 <= x ->
  Z.lor n (Z.shiftl x shift) = n + x * 2 ^ shift.
Proof.
  intros Hs Hn Hx. rewrite Z.shiftl_mul_pow2 by lia.
  assert (Hland : Z.land n (x * 2 ^ shift) = 0).
  { apply Z.bits_inj'. intros i Hi. rewrite Z.land_spec, Z.bits_0.
    destruct (Z.lt_ge_cases i shift) as [Hlt|Hge].
    - rewrite Z.mul_pow2_bits_low by lia. apply andb_false_r.
    - destruct (Z.eq_dec n 0) as [->|Hn0]; [now rewrite Z.bits_0|].
      rewrite (Z.bits_above_log2 n i); [reflexivity | lia |].
      apply Z.lt_le_trans with shift; [apply Z.log2_lt_pow2; lia | lia]. }
  rewrite <- Z.lxor_lor by exact Hland.
  now rewrite <- Z.add_nocarry_lxor by exact Hland.
Qed.

Lemma varint_round_trip (fuel : nat) :
  forall d n shift rest,
    0 <= d < 2 ^ (7 * (Z.of_nat fuel + 1)) -> 0 <= shift -> 0 <= n < 2 ^ shift ->
    Avro.read_varint (Avro.write_varint fuel d ++ rest) n shift
    = Some (n + d * 2 ^ shift, rest).
Proof.
  assert (Hlast : forall d n shift rest,
            0 <= d < 128 -> 0 <= shift -> 0 <= n < 2 ^ shift ->
            Avro.read_varint ([d] ++ rest) n shift = Some (n + d * 2 ^ shift, rest)).
  { intros d n shift rest Hd Hs Hn. cbn [app Avro.read_varint].
    destruct (continuation_byte d Hd) as (_ & _ & _ & H128 & H127).
    rewrite H128, H127, lor_shifted by lia. reflexivity. }
  induction fuel as [|fuel IH]; intros d n shift rest Hd Hs Hn.
  - cbn [Avro.write_varint]. apply Hlast; [|lia|lia].
    change (2 ^ (7 * (Z.of_nat 0 + 1))) with 128 in Hd. lia.
  - cbn [Avro.write_varint]. rewrite high_bits by lia.
    destruct (Z.ltb_spec d 128) as [Hsmall|Hbig]; [apply Hlast; lia|].
    rewrite low_bits by lia.
    pose proof (Z.mod_pos_bound d 128 eq_refl) as Hm.
    destruct (continuation_byte (d mod 128) Hm) as (Hor & H127 & H128 & _ & _).
    rewrite Hor. cbn [app Avro.read_varint]. rewrite H127.
    apply Z.eqb_neq in H128. rewrite H128.
    rewrite lor_shifted by lia.
    rewrite Z.shiftr_div_pow2 by lia. change (2 ^ 7) with 128.
    rewrite IH.
    + f_equal. f_equal. rewrite Z.pow_add_r by lia. change (2 ^ 7) with 128.
      pose proof (Z.div_mod d 128 ltac:(lia)). nia.
    + split; [apply Z.div_pos; lia|].
      apply Z.div_lt_upper_bound; [lia|].
      replace (7 * (Z.of_nat (S fuel) + 1)) with (7 + 7 * (Z.of_nat fuel + 1)) in Hd by lia.
      rewrite Z.pow_add_r in Hd by lia. change (2 ^ 7) with 128 in Hd. lia.
    + lia.
    + rewrite Z.pow_add_r by lia. change (2 ^ 7) with 128.
      assert (0 < 2 ^ shift) by (apply Z.pow_pos_nonneg; lia). nia.
Qed.

Lemma zigzag_eq (n : Z) :
  - 2 ^ 63 <= n < 2 ^ 63 ->
  Avro.zigzag n = if 0 <=? n then 2 * n else - 2 * n - 1.
Proof.
  intros Hn. unfold Avro.zigzag.
  rewrite Z.shiftl_mul_pow2, Z.shiftr_div_pow2 by lia. change (2 ^ 1) with 2.
  destruct (Z.leb_spec 0 n) as [H|H].
  - rewrite Z.div_small by lia. rewrite Z.lxor_0_r. lia.
  - replace (n / 2 ^ 63) with (-1).
    + rewrite Z.lxor_m1_r. unfold Z.lnot. lia.
    + apply Z.div_unique with (n + 2 ^ 63); lia.
Qed.

Lemma unzigzag_even (n : Z) : Avro.unzigzag (2 * n) = n.
Proof.
  unfold Avro.unzigzag. rewrite Z.shiftr_div_pow2 by lia. change (2 ^ 1) with 2.
  change (Z.land (2 * n) 1) with (Z.land (2 * n) (Z.ones 1)).
  rewrite Z.land_ones by lia. change (2 ^ 1) with 2.
  replace (2 * n / 2) with n by (apply Z.div_unique with 0; lia).
  replace ((2 * n) mod 2) with 0 by (apply Z.mod_unique with n; lia).
  apply Z.lxor_0_r.
Qed.

Lemma unzigzag_odd (n : Z) : Avro.unzigzag (2 * n + 1) = - n - 1.
Proof.
  unfold Avro.unzigzag. rewrite Z.shiftr_div_pow2 by lia. change (2 ^ 1) with 2.
  change (Z.land (2 * n + 1) 1) with (Z.land (2 * n + 1) (Z.ones 1)).
  rewrite Z.land_ones by lia. change (2 ^ 1) with 2.
  replace ((2 * n + 1) / 2) with n by (apply Z.div_unique with 1; lia).
  replace ((2 * n + 1) mod 2) with 1 by (apply Z.mod_unique with n; lia).
  change (- (1)) with (-1). rewrite Z.lxor_m1_r. unfold Z.lnot. lia.
Qed.

Lemma unzigzag_zigzag (n : Z) :
  - 2 ^ 63 <= n < 2 ^ 63 -> Avro.unzigzag (Avro.zigzag n) = n.
Proof.
  intros Hn. rewrite zigzag_eq by exact Hn.
  destruct (Z.leb_spec 0 n) as [H|H].
  - apply unzigzag_even.
  - replace (- 2 * n - 1) with (2 * (- n - 1) + 1) by lia.
    rewrite unzigzag_odd. lia.
Qed.

Lemma zigzag_range (n : Z) : - 2 ^ 63 <= n < 2 ^ 63 -> 0 <= Avro.zigzag n < 2 ^ 64.
Proof. intros Hn. rewrite zigzag_eq by exact Hn. destruct (0 <=? n) eqn:E; lia. Qed.

(** A long within 64 bits is read back as written. *)
Lemma long_round_trip (n : Z) (rest : list Z) :
  - 2 ^ 63 <= n < 2 ^ 63 ->
  Avro.read_long (Avro.write_long n ++ rest) = Some (n, rest).
Proof.
  intros Hn. unfold Avro.read_long, Avro.write_long.
  pose proof (zigzag_range n Hn) as Hz. set (d := Avro.zigzag n) in *.
  rewrite varint_round_trip; [| |lia|cbn; lia].
  - replace (0 + d * 2 ^ 0) with d by (change (2 ^ 0) with 1; lia).
    unfold d. now rewrite unzigzag_zigzag.
  - clearbody d. split; [lia|].
    rewrite Z2Nat.id by (apply Z.div_pos; [apply Z.log2_nonneg | lia]).
    destruct (Z.eq_dec d 0) as [->|Hd0]; [vm_compute; reflexivity|].
    apply Z.lt_le_trans with (2 ^ (Z.log2 d + 1)).
    + apply Z.log2_spec. lia.
    + apply Z.pow_le_mono_r; [lia|].
      pose proof (Z.div_mod (Z.log2 d) 7 ltac:(lia)).
      pose proof (Z.mod_pos_bound (Z.log2 d) 7 eq_refl). lia.
Qed.

Lemma utf8_of_ascii (cs : list ascii) :
  forallb (fun c => (N_of_ascii c <? 128)%N) cs = true ->
  Avro.utf8_decode (flat_map Avro.utf8 cs) = Some cs /\
  length (flat_map Avro.utf8 cs) = length cs.
Proof.
  induction cs as [|c cs IH]; [now split|]. cbn [forallb flat_map].
  intros H. apply andb_true_iff in H as [Hc Hcs]. destruct (IH Hcs) as [Hd Hl].
  apply N.ltb_lt in Hc.
  assert (Hn : 0 <= Z.of_N (N_of_ascii c) < 128) by lia.
  assert (Hu : Avro.utf8 c = [Z.of_N (N_of_ascii c)]).
  { unfold Avro.utf8. cbv zeta.
    now destruct (Z.ltb_spec (Z.of_N (N_of_ascii c)) 128) as [_|]; [|lia]. }
  rewrite Hu. cbn [app Avro.utf8_decode length]. split; [|now rewrite Hl].
  destruct (Z.leb_spec 0 (Z.of_N (N_of_ascii c))) as [_|]; [|lia].
  destruct (Z.ltb_spec (Z.of_N (N_of_ascii c)) 128) as [_|]; [|lia].
  cbn [andb]. now rewrite Hd, N2Z.id, ascii_N_embedding.
Qed.

(** ASCII text of fewer than [2^63] characters is read back as written. *)
Lemma string_round_trip (s : string) (rest : list Z) :
  PyStr.is_ascii s = true ->
  Z.of_nat (String.length s) < 2 ^ 63 ->
  Avro.read_string (Avro.write_string s ++ rest) = Some (s, rest).
Proof.
  intros Hascii Hlen. unfold PyStr.is_ascii in Hascii.
  destruct (utf8_of_ascii _ Hascii) as [Hd Hl].
  unfold Avro.read_string, Avro.write_string, Avro.bytes_of.
  set (bs := flat_map Avro.utf8 (PyStr.chars s)) in *.
  assert (Hcs : length (PyStr.chars s) = String.length s).
  { unfold PyStr.chars. clear. induction s as [|c s IH]; [reflexivity|].
    cbn. now rewrite IH. }
  rewrite <- app_assoc, long_round_trip by lia.
  rewrite length_app.
  destruct (Z.ltb_spec (Z.of_nat (length bs)) 0) as [|_]; [lia|].
  destruct (Z.ltb_spec (Z.of_nat (length bs + length rest)) (Z.of_nat (length bs)))
    as [|_]; [lia|].
  cbn [orb]. rewrite Nat2Z.id.
  rewrite take_app_length, drop_app_length. unfold Avro.string_of. rewrite Hd.
  cbn [fmap option_fmap option_map]. unfold PyStr.of_chars, PyStr.chars.
  now rewrite string_of_list_ascii_of_string.
Qed.

Lemma fullmatch_is_ascii (cls : ascii -> bool) (n : nat) (s : string) :
  (forall c, cls c = true -> (N_of_ascii c < 128)%N) ->
  PyStr.fullmatch_class cls n s = true ->
  PyStr.is_ascii s = true /\ String.length s = n.
Proof.
  intros Hcls. unfold PyStr.fullmatch_class, PyStr.is_ascii.
  intros H. apply andb_true_iff in H as [Hall Hl]. split.
  - rewrite forallb_forall in *. intros c Hc. apply N.ltb_lt, Hcls, Hall, Hc.
  - apply Nat.eqb_eq in Hl. rewrite <- Hl. unfold PyStr.chars. clear.
    induction s as [|c s IH]; [reflexivity|]. cbn. now rewrite IH.
Qed.

Lemma upper_alnum_is_ascii (c : ascii) :
  PyStr.upper_alnum c = true -> (N_of_ascii c < 128)%N.
Proof.
  unfold PyStr.upper_alnum, PyStr.is_upper, PyStr.is_digit. cbv zeta.
  rewrite orb_true_iff, !andb_true_iff, !N.leb_le. lia.
Qed.

Lemma is_lower_is_ascii (c : ascii) :
  PyStr.is_lower c = true -> (N_of_ascii c < 128)%N.
Proof.
  unfold PyStr.is_lower. cbv zeta. rewrite !andb_true_iff, !N.leb_le. lia.
Qed.

Lemma ilog2_1 : Binary.ilog2 1 = 0.
Proof. vm_compute. reflexivity. Qed.

Lemma ilog2_1000 : Binary.ilog2 1000 = 9.
Proof. vm_compute. reflexivity. Qed.

(** Narrowing a double between 1 and 1000 to binary32 gives a normal
    number within [2^-15] of it. *)
Lemma single_form (x : Q) :
  (1 <= x)%Q -> (x <= 1000)%Q ->
  exists r m e,
    Binary.to_single x = Some r /\ normal_single r m e /\
    (Qabs (r - x) <= 1 # 32768)%Q.
Proof.
  intros H1 H2. assert (Hx : (0 < x)%Q) by lra.
  pose proof (ilog2_mono 1 x ltac:(lra) H1) as He1. rewrite ilog2_1 in He1.
  pose proof (ilog2_mono x 1000 Hx H2) as He2. rewrite ilog2_1000 in He2.
  set (e0 := Binary.ilog2 x) in *.
  destruct (scaled_range 24 x ltac:(lia) Hx) as [Hs1 Hs2]. fold e0 in Hs1, Hs2.
  destruct (round_pos_range 24 x ltac:(lia) Hx) as [_ Hr2]. fold e0 in Hr2.
  pose proof (round_pos_eq 24 x) as Hrp. fold e0 in Hrp.
  destruct (round_half_even_error (x * Binary.pow2 (- (e0 - (24 - 1))))) as [Herr1 Herr2].
  set (M := round_half_even (x * Binary.pow2 (- (e0 - (24 - 1))))) in *.
  pose proof (round_half_even_lower _ _ Hs1) as HM1. fold M in HM1.
  pose proof (round_half_even_upper _ _ (Qlt_le_weak _ _ Hs2)) as HM2. fold M in HM2.
  set (rp := Binary.round_pos 24 None x) in *.
  assert (Hto : Binary.to_single x = Some (Qred rp)).
  { unfold Binary.to_single.
    destruct (round_cases 24 (Some (-149)) x) as [[H _]|[[_ ->]|[H _]]]; try lra.
    rewrite round_pos_normal by (fold e0; lia). fold rp.
    destruct (Qle_bool _ _) eqn:E; [|reflexivity]. exfalso.
    apply Qle_bool_iff in E. rewrite Qred_correct in E.
    assert (Hrp0 : (0 <= rp)%Q).
    { apply Qlt_le_weak. unfold rp. apply round_pos_pos; [lia | exact Hx]. }
    rewrite (Qabs_pos _ Hrp0) in E.
    assert (Hlt : (Binary.pow2 (e0 + 1) < Binary.pow2 128)%Q).
    { apply Qpower_lt_compat_l; [lia | reflexivity]. }
    lra. }
  assert (Hq : (Binary.pow2 (e0 - 23) <= 1 # 16384)%Q).
  { change (1 # 16384)%Q with (Binary.pow2 (-14)). apply pow2_le. lia. }
  pose proof (pow2_pos (e0 - 23)) as Hq0.
  assert (Hval : (rp == inject_Z M * Binary.pow2 (e0 - 23))%Q).
  { rewrite Hrp. replace (e0 - (24 - 1)) with (e0 - 23) by lia. reflexivity. }
  assert (Hx' : (x == x * Binary.pow2 (- (e0 - (24 - 1))) * Binary.pow2 (e0 - 23))%Q).
  { rewrite <- Qmult_assoc. replace (e0 - (24 - 1)) with (e0 - 23) by lia.
    rewrite pow2_cancel. now rewrite Qmult_1_r. }
  assert (Herr : (Qabs (Qred rp - x) <= 1 # 32768)%Q).
  { rewrite Qred_correct. apply Qabs_Qle_condition.
    set (z := (x * Binary.pow2 (- (e0 - (24 - 1))))%Q) in *.
    set (p := Binary.pow2 (e0 - 23)) in *.
    assert (Ha : ((inject_Z M - z) * p <= (1 # 2) * p)%Q)
      by (apply Qmult_le_compat_r; lra).
    assert (Hb : ((z - inject_Z M) * p <= (1 # 2) * p)%Q)
      by (apply Qmult_le_compat_r; lra).
    split; lra. }
  destruct (Z.eq_dec M (2 ^ 24)) as [EM|NM].
  - exists (Qred rp), (2 ^ 23), (e0 + 1). split; [exact Hto|]. split; [|exact Herr].
    split; [apply Qred_idem|]. split; [|lia].
    rewrite Qred_correct, Hval, EM.
    replace (e0 + 1 - 23) with (1 + (e0 - 23)) by lia.
    rewrite (pow2_add 1 (e0 - 23)), Qmult_assoc.
    apply Qmult_comp; [reflexivity | reflexivity].
  - exists (Qred rp), M, e0. split; [exact Hto|]. split; [|exact Herr].
    split; [apply Qred_idem|]. split; [|lia].
    now rewrite Qred_correct.
Qed.

Lemma single_bits_round_trip (r : Q) (m e : Z) :
  normal_single r m e ->
  Avro.float_of_bits (Avro.single_bits r) = PyFloat.Finite r /\
  0 <= Avro.single_bits r < 2 ^ 32.
Proof.
  intros (Hred & Hval & Hm & He).
  pose proof (pow2_pos (e - 23)) as Hp.
  assert (Hr : (0 < r)%Q).
  { rewrite Hval. apply Qmult_lt_0_compat; [|exact Hp].
    change 0%Q with (inject_Z 0). rewrite <- Zlt_Qlt. lia. }
  assert (Habs : (Qabs r == r)%Q) by (apply Qabs_pos; lra).
  assert (Hlog : Binary.ilog2 (Qabs r) = e).
  { apply ilog2_unique; rewrite Habs, Hval.
    - replace e with (23 + (e - 23)) at 1 by lia. rewrite (pow2_add 23 (e - 23)).
      apply Qmult_le_compat_r; [|lra]. rewrite pow2_Z by lia. rewrite <- Zle_Qle. lia.
    - replace (e + 1) with (24 + (e - 23)) by lia. rewrite (pow2_add 24 (e - 23)).
      apply Qmult_lt_compat_r; [exact Hp|]. rewrite pow2_Z by lia.
      rewrite <- Zlt_Qlt. lia. }
  assert (Hfloor : Qfloor (Qabs r * Binary.pow2 (23 - e)) = m).
  { rewrite <- (Qfloor_Z m). apply Qfloor_comp. rewrite Habs, Hval.
    rewrite <- Qmult_assoc. replace (23 - e) with (- (e - 23)) by lia.
    rewrite (Qmult_comm (Binary.pow2 (e - 23))), pow2_cancel. apply Qmult_1_r. }
  assert (Hbits : Avro.single_bits r = (e + 127) * 2 ^ 23 + (m - 2 ^ 23)).
  { unfold Avro.single_bits. apply Qgt_alt in Hr. rewrite Hr. cbv zeta.
    rewrite Hlog, Hfloor. destruct (Z.ltb_spec e (-126)); [lia|]. lia. }
  rewrite Hbits. split; [|lia].
  unfold Avro.float_of_bits. cbv zeta.
  set (b := (e + 127) * 2 ^ 23 + (m - 2 ^ 23)).
  assert (Hdiv : b / 2 ^ 23 = e + 127)
    by (symmetry; apply Z.div_unique with (m - 2 ^ 23); unfold b; lia).
  assert (Hmod : b mod 2 ^ 23 = m - 2 ^ 23)
    by (symmetry; apply Z.mod_unique with (e + 127); unfold b; lia).
  rewrite Hdiv, Hmod. rewrite (Z.mod_small (e + 127) 256) by lia.
  destruct (Z.leb_spec (2 ^ 31) b) as [Hb|_]; [unfold b in Hb; lia|].
  destruct (Z.eqb_spec (e + 127) 255) as [|_]; [lia|].
  destruct (Z.eqb_spec (e + 127) 0) as [|_]; [lia|].
  f_equal. rewrite <- Hred. apply Qred_complete. rewrite Hval.
  replace (2 ^ 23 + (m - 2 ^ 23)) with m by lia.
  replace (e + 127 - 150) with (e - 23) by lia. reflexivity.
Qed.

Lemma le32_round_trip (b : Z) :
  0 <= b < 2 ^ 32 ->
  Avro.of_le32 (b mod 256) ((b / 256) mod 256) ((b / 65536) mod 256)
               ((b / 16777216) mod 256) = b.
Proof.
  intros Hb. unfold Avro.of_le32. change (2 ^ 32) with 4294967296 in Hb.
  Z.div_mod_to_equations. lia.
Qed.

(** A double between 1 and 1000 is read back as the binary32 number
    nearest to it. *)
Lemma float_round_trip (x : Q) (rest : list Z) :
  (1 <= x)%Q -> (x <= 1000)%Q ->
  exists r bs,
    Binary.to_single x = Some r /\
    Avro.write_float (PyFloat.Finite x) = Some bs /\
    Avro.read_float (bs ++ rest) = Some (PyFloat.Finite r, rest) /\
    (Qabs (r - x) <= 1 # 32768)%Q.
Proof.
  intros H1 H2. destruct (single_form x H1 H2) as (r & m & e & Hto & Hn & Herr).
  destruct (single_bits_round_trip r m e Hn) as [Hrt Hrange].
  exists r, (Avro.le32 (Avro.single_bits r)). split; [exact Hto|].
  split; [unfold Avro.write_float, Avro.float_bits; now rewrite Hto|].
  split; [|exact Herr].
  unfold Avro.le32. cbn [app Avro.read_float].
  now rewrite le32_round_trip, Hrt.
Qed.

Lemma wrap_int64_range (z : Z) : - 2 ^ 63 <= wrap_int64 z < 2 ^ 63.
Proof.
  unfold wrap_int64. pose proof (Z.mod_pos_bound (z + 2 ^ 63) (2 ^ 64) eq_refl). lia.
Qed.

Lemma b64_between_sym (hi x : Q) :
  Binary.b64 (- hi) = (- hi)%Q -> Binary.b64 hi = hi ->
  (- hi <= x)%Q -> (x <= hi)%Q -> (- hi <= Binary.b64 x)%Q /\ (Binary.b64 x <= hi)%Q.
Proof. apply b64_between. Qed.

(** [time.time()] stays within [2^34] seconds of the epoch. *)
Lemma time_at_range (o : oracle) (i : nat) :
  (- (17179869184) <= time_at o i)%Q /\ (time_at o i <= 17179869184)%Q.
Proof.
  unfold time_at. pose proof (wrap_int64_range (clock o i)) as Ht.
  set (t := wrap_int64 (clock o i)) in *. clearbody t.
  unfold seconds_as_double. destruct (Z.rem t SEC_TO_NS =? 0).
  - apply (b64_between_sym 17179869184);
      [vm_compute; reflexivity | vm_compute; reflexivity | |].
    + change (- (17179869184))%Q with (inject_Z (- 17179869184)).
      rewrite <- Zle_Qle. unfold SEC_TO_NS. Z.quot_rem_to_equations. lia.
    + change 17179869184%Q with (inject_Z 17179869184).
      rewrite <- Zle_Qle. unfold SEC_TO_NS. Z.quot_rem_to_equations. lia.
  - unfold Binary.fdiv.
    assert (H : (- (9223372036854775808) <= Binary.b64 (inject_Z t))%Q /\
                (Binary.b64 (inject_Z t) <= 9223372036854775808)%Q).
    { apply (b64_between_sym 9223372036854775808);
        [vm_compute; reflexivity | vm_compute; reflexivity | |].
      - change (- (9223372036854775808))%Q with (inject_Z (- 9223372036854775808)).
        rewrite <- Zle_Qle. lia.
      - change 9223372036854775808%Q with (inject_Z 9223372036854775808).
        rewrite <- Zle_Qle. lia. }
    set (y := Binary.b64 (inject_Z t)) in *.
    apply (b64_between_sym 17179869184);
      [vm_compute; reflexivity | vm_compute; reflexivity | |];
      unfold Qdiv; change (/ inject_Z SEC_TO_NS)%Q with (1 # 1000000000)%Q; lra.
Qed.

(** The timestamp of a generated record fits a 64-bit long. *)
Lemma timestamp_range (o : oracle) (i : nat) :
  - 2 ^ 63 <= py_int (Binary.fmul (time_at o i) 1000) < 2 ^ 63.
Proof.
  destruct (time_at_range o i) as [H1 H2]. unfold Binary.fmul.
  destruct (b64_between_sym 17592186044416 (time_at o i * 1000))
    as [Hb1 Hb2]; [vm_compute; reflexivity | vm_compute; reflexivity | lra | lra |].
  apply py_int_mono in Hb1, Hb2.
  change (py_int (- (17592186044416))) with (- 17592186044416) in Hb1.
  change (py_int 17592186044416) with 17592186044416 in Hb2. lia.
Qed.

Lemma frame_round_trip (schema_id : Z) (payload : list Z) :
  0 <= schema_id < 2 ^ 32 ->
  Avro.unframe (Avro.frame schema_id payload) = Some (schema_id, payload).
Proof.
  intros H. unfold Avro.frame, Avro.unframe. cbn [Z.eqb].
  now rewrite le32_round_trip.
Qed.

Lemma to_dict_fields (t : transaction) :
  Producer.to_dict t "transaction_id" = Some (SString (transaction_id t)) /\
  Producer.to_dict t "customer_id" = Some (SString (customer_id t)) /\
  Producer.to_dict t "amount" = Some (SFloat (PyFloat.Finite (amount t))) /\
  Producer.to_dict t "timestamp_ms" = Some (SLong (timestamp_ms t)).
Proof. repeat split. Qed.

(** What the serializer writes for a record. *)
Lemma avro_serializer_eq (schema_id : Z) (t : transaction) :
  Producer.avro_serializer schema_id t =
  match Avro.write_float (PyFloat.Finite (amount t)) with
  | Some fb =>
      Some (Avro.frame schema_id
              (Avro.write_string (transaction_id t)
               ++ Avro.write_string (customer_id t)
               ++ fb ++ Avro.write_long (timestamp_ms t) ++ []))
  | None => None
  end.
Proof.
  unfold Producer.avro_serializer.
  cbn [schema_fields Producer.TRANSACTION_SCHEMA Avro.write_record].
  destruct (to_dict_fields (Producer.transaction_to_avro t)) as (-> & -> & -> & ->).
  cbn [Avro.write_datum Producer.transaction_to_avro transaction_id customer_id amount
       timestamp_ms].
  now destruct (Avro.write_float _).
Qed.

(** A record whose identifiers are short ASCII text, whose amount lies
    between 1 and 1000 and whose timestamp fits 64 bits is read back
    with its amount narrowed to binary32 and its other fields as written. *)
Lemma avro_round_trip (schema_id : Z) (registry : gmap Z avro_record_schema)
    (t : transaction) :
  0 <= schema_id < 2 ^ 32 ->
  registry !! schema_id = Some Producer.TRANSACTION_SCHEMA ->
  PyStr.is_ascii (transaction_id t) = true ->
  Z.of_nat (String.length (transaction_id t)) < 2 ^ 63 ->
  PyStr.is_ascii (customer_id t) = true ->
  Z.of_nat (String.length (customer_id t)) < 2 ^ 63 ->
  (1 <= amount t)%Q -> (amount t <= 1000)%Q ->
  - 2 ^ 63 <= timestamp_ms t < 2 ^ 63 ->
  exists bytes a',
    Producer.avro_serializer schema_id t = Some bytes /\
    Binary.to_single (amount t) = Some a' /\
    Consumer.avro_deserializer registry bytes = Some (decoded_as t a') /\
    (Qabs (a' - amount t) <= 1 # 32768)%Q.
Proof.
  intros Hid Hreg Ha1 Hl1 Ha2 Hl2 Hlo Hhi Hts.
  destruct (float_round_trip (amount t) (Avro.write_long (timestamp_ms t) ++ []) Hlo Hhi)
    as (a' & fb & Hto & Hw & Hr & Herr).
  eexists _, a'. rewrite avro_serializer_eq, Hw.
  split; [reflexivity|]. split; [exact Hto|]. split; [|exact Herr].
  unfold Consumer.avro_deserializer. rewrite frame_round_trip, Hreg by exact Hid.
  cbn [schema_fields Producer.TRANSACTION_SCHEMA Avro.read_record Avro.read_datum].
  rewrite string_round_trip by assumption.
  rewrite string_round_trip by assumption.
  rewrite Hr. rewrite long_round_trip by exact Hts. reflexivity.
Qed.

(** C5, as stated, fails on the amount: the schema declares it a 32-bit
    float.  The record generated from a draw that makes the amount 192.7
    is read back with the amount 192.6999969482421875, the binary32
    number nearest to it. *)
Lemma amount_is_narrowed_to_binary32 :
  exists t bytes,
    fst (Producer.generate_random_transaction draw_192_7 (initial_world ∅)) = Ret t /\
    amount t = Binary.b64 (1927 # 10) /\
    Producer.avro_serializer 1 t = Some bytes /\
    Consumer.avro_deserializer {[ 1 := Producer.TRANSACTION_SCHEMA ]} bytes
      = Some (decoded_as t (12628787 # 65536)) /\
    ~ (12628787 # 65536 == amount t)%Q.
Proof.
  eexists _, _. split; [vm_compute; reflexivity|].
  split; [vm_compute; reflexivity|].
  split; [vm_compute; reflexivity|].
  split; [vm_compute; reflexivity|].
  vm_compute. discriminate.
Qed.

(** C5, amended: a record returned by [generate_random_transaction],
    written by the producer's serializer under the four-field schema and
    read by the consumer's deserializer through the schema the registry
    holds for the id in the frame, comes back with [transaction_id],
    [customer_id] and [timestamp_ms] equal to the original's and with
    [amount] narrowed to the nearest 32-bit float, which is within
    [2^-15] of the original amount. *)
Theorem generated_record_round_trips_up_to_binary32
    (o : oracle) (w w' : world) (t : transaction) (schema_id : Z)
    (registry : gmap Z avro_record_schema) :
  Producer.generate_random_transaction o w = (Ret t, w') ->
  0 <= schema_id < 2 ^ 32 ->
  registry !! schema_id = Some Producer.TRANSACTION_SCHEMA ->
  exists bytes a',
    Producer.avro_serializer schema_id t = Some bytes /\
    Binary.to_single (amount t) = Some a' /\
    Consumer.avro_deserializer registry bytes = Some (decoded_as t a') /\
    (Qabs (a' - amount t) <= 1 # 32768)%Q.
Proof.
  intros Hgen Hid Hreg.
  destruct (generate_random_transaction_eq o w) as (t' & Hgen' & Hwf & Hts).
  rewrite Hgen in Hgen'. injection Hgen' as <- _.
  destruct Hwf as (Htid & Hcid & Hlo & Hhi & _).
  destruct (fullmatch_is_ascii _ _ _ upper_alnum_is_ascii Htid) as [Ha1 Hl1].
  destruct (fullmatch_is_ascii _ _ _ is_lower_is_ascii Hcid) as [Ha2 Hl2].
  apply avro_round_trip; try assumption.
  - rewrite Hl1. reflexivity.
  - rewrite Hl2. reflexivity.
  - rewrite Hts. apply timestamp_range.
Qed.

Lemma generated_record_round_trip_witness :
  exists t bytes a',
    fst (Producer.generate_random_transaction ticking_oracle (initial_world ∅)) = Ret t /\
    Producer.avro_serializer 7 t = Some bytes /\
    Consumer.avro_deserializer {[ 7 := Producer.TRANSACTION_SCHEMA ]} bytes
      = Some (decoded_as t a').
Proof.
  destruct (generate_random_transaction_eq ticking_oracle (initial_world ∅))
    as (t & Hgen & _).
  destruct (generated_record_round_trips_up_to_binary32
              ticking_oracle (initial_world ∅) _ t 7
              {[ 7 := Producer.TRANSACTION_SCHEMA ]} Hgen)
    as (bytes & a' & Hser & _ & Hde & _).
  - lia.
  - vm_compute. reflexivity.
  - exists t, bytes, a'. split; [now rewrite Hgen|]. now split.
Defined.

(** ** The record handed to the serializer *)

(** [transaction_to_avro] hands the serializer the four fields unchanged. *)
Lemma transaction_to_avro_id (t : transaction) : Producer.transaction_to_avro t = t.
Proof. now destruct t. Qed.

(** The schema declares the four fields, [amount] as a 32-bit [float]. *)
Lemma schema_fields_declared :
  schema_fields Producer.TRANSACTION_SCHEMA =
    [ ("transaction_id", AvroString); ("customer_id", AvroString);
      ("amount", AvroFloat); ("timestamp_ms", AvroLong) ].
Proof. reflexivity. Qed.

(** * Further properties of the two scripts *)

(** ** The loader, case by case *)

Lemma lower_ascii_idempotent (c : ascii) :
  PyStr.lower_ascii (PyStr.lower_ascii c) = PyStr.lower_ascii c.
Proof.
  unfold PyStr.lower_ascii. destruct (PyStr.is_upper c) eqn:E; [|now rewrite E].
  unfold PyStr.is_upper in *. rewrite N_ascii_embedding.
  - apply andb_true_iff in E as [E1 E2].
    apply N.leb_le in E1, E2.
    replace ((N_of_ascii c + 32 <=? 90)%N) with false; [now rewrite andb_false_r|].
    symmetry. apply N.leb_gt. lia.
  - apply andb_true_iff in E as [_ E2]. apply N.leb_le in E2. lia.
Qed.

Lemma lower_idempotent (s : string) : PyStr.lower (PyStr.lower s) = PyStr.lower s.
Proof.
  induction s as [|c s IH]; [reflexivity|].
  cbn [PyStr.lower]. now rewrite lower_ascii_idempotent, IH.
Qed.

Lemma load_environment_file_eq (inv : invocation) (o : oracle) (w : world) :
  Producer.load_environment_file inv o w =
  match env_file_for (argv inv) with
  | Some f =>
      match files inv !! f with
      | Some parsed =>
          (Ret tt, with_environ (add_trace w [LoadDotenv f; loaded_line f])
                     (environ w ∪ parsed))
      | None => (Exit 1, add_trace w [missing_file_diagnostic f])
      end
  | None =>
      (Exit 1,
       add_trace w (selector_diagnostic (PyStr.lower (default "" (argv inv !! 1%nat)))))
  end.
Proof.
  unfold Producer.load_environment_file, env_file_for, bind at 1.
  destruct (argv inv) as [|prog [|arg1 rest]].
  1,2: unfold ret at 1; rewrite load_from_file;
    destruct (files inv !! ".env"); reflexivity.
  cbv zeta. case_bool_decide.
  - unfold ret at 1. rewrite load_from_file.
    destruct (files inv !! _); reflexivity.
  - run. unfold add_trace, selector_diagnostic. cbn. now rewrite <- app_assoc.
Qed.

(** X1: when the file the loader settles on ([.env] without an argument,
    [east.env] or [west.env] with a selector) does not exist, either
    script prints one [ERROR] line naming the file and exits with status
    1; nothing else has happened: no client, no handler, the environment
    as inherited. *)
Theorem missing_file_exits_before_clients
    (inv : invocation) (env : gmap string string) (o : oracle) (f : string) :
  env_file_for (argv inv) = Some f ->
  files inv !! f = None ->
  run_producer inv env o =
    (Exit 1, add_trace (initial_world env) [missing_file_diagnostic f]) /\
  run_consumer inv env o =
    (Exit 1, add_trace (initial_world env) [missing_file_diagnostic f]) /\
  is_print_at ERROR (missing_file_diagnostic f) = true.
Proof.
  intros Hsel Hfile.
  assert (Hload : Producer.load_environment_file inv o (initial_world env) =
                  (Exit 1, add_trace (initial_world env) [missing_file_diagnostic f])).
  { now rewrite load_environment_file_eq, Hsel, Hfile. }
  split; [|split; [|reflexivity]].
  - unfold run_producer, Producer.startup, Producer.configuration.
    unfold bind at 1 2 3. now rewrite Hload.
  - unfold run_consumer, Consumer.startup, Consumer.configuration.
    unfold bind at 1 2 3. now rewrite load_environment_file_same, Hload.
Qed.

Lemma missing_file_witness :
  let inv := mkInvocation ["avro_consumer_app.py"; "West"]
                          {[ "east.env" := sample_env ]} in
  fst (run_consumer inv sample_env idle_oracle) = Exit 1 /\
  trace (snd (run_consumer inv sample_env idle_oracle)) =
    [missing_file_diagnostic "west.env"].
Proof.
  intros inv.
  destruct (missing_file_exits_before_clients inv sample_env idle_oracle "west.env")
    as (_ & Hrun & _).
  - vm_compute. reflexivity.
  - vm_compute. reflexivity.
  - rewrite Hrun. split; reflexivity.
Defined.

(** X2: when the file exists, the loader returns after one
    [load_dotenv] and one [INFO] line, and the file is merged under the
    inherited environment: a variable the process already had keeps its
    value, any other variable gets the value the file gives it, if any. *)
Theorem environment_file_is_merged_under_the_inherited_environment
    (inv : invocation) (env parsed : gmap string string) (o : oracle) (f : string) :
  env_file_for (argv inv) = Some f ->
  files inv !! f = Some parsed ->
  exists w1,
    Producer.load_environment_file inv o (initial_world env) = (Ret tt, w1) /\
    Consumer.load_environment_file inv o (initial_world env) = (Ret tt, w1) /\
    trace w1 = [LoadDotenv f; loaded_line f] /\
    (forall k v, env !! k = Some v -> environ w1 !! k = Some v) /\
    (forall k, env !! k = None -> environ w1 !! k = parsed !! k).
Proof.
  intros Hsel Hfile. eexists. split; [|split; [|split; [|split]]].
  - now rewrite load_environment_file_eq, Hsel, Hfile.
  - now rewrite load_environment_file_same, load_environment_file_eq, Hsel, Hfile.
  - reflexivity.
  - intros k v Hk. cbn. now apply lookup_union_Some_l.
  - intros k Hk. cbn. now apply lookup_union_r.
Qed.

Lemma environment_merge_witness :
  let inv := mkInvocation ["avro_producer_app.py"] {[ ".env" := sample_env ]} in
  let env : gmap string string := {[ "TOPIC_NAME" := "override" ]} in
  exists w1,
    Producer.load_environment_file inv idle_oracle (initial_world env) = (Ret tt, w1) /\
    environ w1 !! "TOPIC_NAME" = Some "override" /\
    environ w1 !! "SASL_USERNAME" = Some "key".
Proof.
  intros inv env.
  destruct (environment_file_is_merged_under_the_inherited_environment
              inv env sample_env idle_oracle ".env")
    as (w1 & Hload & _ & _ & Hkeep & Hfill).
  - reflexivity.
  - apply lookup_singleton_eq.
  - exists w1. split; [exact Hload|]. split.
    + apply Hkeep. vm_compute. reflexivity.
    + rewrite Hfill; vm_compute; reflexivity.
Defined.

(** X3: only the lower-cased first argument matters to either script: the
    script name, the case of the selector and any further argument do not
    change the run. *)
Theorem selector_is_case_insensitive
    (prog prog' arg1 : string) (rest rest' : list string)
    (fs : gmap string (gmap string string)) (o : oracle) (w : world) :
  Producer.startup (mkInvocation (prog :: arg1 :: rest) fs) o w =
    Producer.startup (mkInvocation (prog' :: PyStr.lower arg1 :: rest') fs) o w /\
  Consumer.startup (mkInvocation (prog :: arg1 :: rest) fs) o w =
    Consumer.startup (mkInvocation (prog' :: PyStr.lower arg1 :: rest') fs) o w.
Proof.
  assert (Hload :
    Producer.load_environment_file (mkInvocation (prog :: arg1 :: rest) fs) o w =
    Producer.load_environment_file
      (mkInvocation (prog' :: PyStr.lower arg1 :: rest') fs) o w).
  { rewrite !load_environment_file_eq. cbn [argv files env_file_for].
    cbv zeta. rewrite lower_idempotent. cbn. now rewrite lower_idempotent. }
  split.
  - unfold Producer.startup, Producer.configuration. unfold bind at 1 2 5 6.
    now rewrite Hload.
  - unfold Consumer.startup, Consumer.configuration. unfold bind at 1 2 5 6.
    now rewrite !load_environment_file_same, Hload.
Qed.

(** ** Every way the module-level code can end *)

Lemma producer_startup_eq (inv : invocation) (o : oracle) (w : world) :
  Producer.startup inv o w =
  match Producer.load_environment_file inv o w with
  | (Ret _, w1) =>
      match Producer.settings o w1 with
      | (Ret g, w2) =>
          then_clients g (clients_outcome o (producer_clients_built g) ProducerShutdown w2)
      | r => r
      end
  | (Raise e, w1) => (Raise e, w1)
  | (Exit c, w1) => (Exit c, w1)
  end.
Proof.
  destruct (Producer.load_environment_file inv o w) as [[[]|e|c] w1] eqn:Hload.
  - now apply producer_startup_after_load.
  - unfold Producer.startup, Producer.configuration. unfold bind at 1 2 3.
    now rewrite Hload.
  - unfold Producer.startup, Producer.configuration. unfold bind at 1 2 3.
    now rewrite Hload.
Qed.

Lemma consumer_startup_eq (inv : invocation) (o : oracle) (w : world) :
  Consumer.startup inv o w =
  match Consumer.load_environment_file inv o w with
  | (Ret _, w1) =>
      match Consumer.settings o w1 with
      | (Ret g, w2) =>
          then_clients g (clients_outcome o (consumer_clients_built g) ConsumerShutdown w2)
      | r => r
      end
  | (Raise e, w1) => (Raise e, w1)
  | (Exit c, w1) => (Exit c, w1)
  end.
Proof.
  destruct (Consumer.load_environment_file inv o w) as [[[]|e|c] w1] eqn:Hload.
  - now apply consumer_startup_after_load.
  - unfold Consumer.startup, Consumer.configuration. unfold bind at 1 2 3.
    now rewrite Hload.
  - unfold Consumer.startup, Consumer.configuration. unfold bind at 1 2 3.
    now rewrite Hload.
Qed.

Lemma filter_all {A} (f : A -> bool) (l : list A) :
  forallb f l = true -> List.filter f l = l.
Proof.
  induction l as [|x l IH]; [reflexivity|]. cbn [forallb List.filter].
  intros H. apply andb_true_iff in H as [-> Hl]. now rewrite IH.
Qed.

(** X4: the producer's module-level code ends in one of four ways.
    - It returns: the three clients have been built, in the order
      registry client, Avro serializer, producer, the shutdown handler is
      registered for both signals, and no [ERROR] or [WARN] line was
      printed.
    - It exits: the status is 1, an [ERROR] line was printed, no client
      was built and no handler registered.
    - It raises the [ValueError] of [float]: no client was built.
    - It raises what a constructor raised: the clients before it in the
      order above were built, none after it.
    When it raises, no [ERROR] line was printed and no handler is
    registered. *)
Theorem producer_startup_outcomes
    (inv : invocation) (env : gmap string string) (o : oracle) :
  match run_producer inv env o with
  | (Ret g, w) =>
      List.filter is_client_construction (trace w) = producer_clients_built g /\
      handlers w = [(SIGTERM, ProducerShutdown); (SIGINT, ProducerShutdown)] /\
      existsb (is_print_at ERROR) (trace w) = false /\
      existsb (is_print_at WARN) (trace w) = false
  | (Exit c, w) =>
      c = 1 /\
      existsb (is_print_at ERROR) (trace w) = true /\
      no_client_constructed (trace w) = true /\ handlers w = []
  | (Raise e, w) =>
      ((exn_class e = "ValueError" /\ no_client_constructed (trace w) = true) \/
       (exists g done rest ev,
          producer_clients_built g = done ++ rest /\
          List.filter is_client_construction (trace w) = done /\
          head rest = Some ev /\ constructor_raises o ev = Some e)) /\
      existsb (is_print_at ERROR) (trace w) = false /\ handlers w = []
  end.
Proof.
  unfold run_producer. rewrite producer_startup_eq, load_environment_file_eq.
  destruct (env_file_for (argv inv)) as [f|]; [|repeat split].
  destruct (files inv !! f) as [parsed|]; [|repeat split].
  rewrite producer_settings_eq. cbv zeta.
  destruct (PyFloat.of_string _); [|split; [left|]; repeat split].
  destruct (Producer.missing_vars _); [|repeat split].
  match goal with |- context [clients_outcome o (producer_clients_built ?g0) _ ?w0] =>
    destruct (clients_outcome_cases o (producer_clients_built g0) ProducerShutdown w0)
      as [(x & done & rest & -> & Hes & _ & ev & Hhead & Hraise)|[-> _]];
    set (g := g0) in * end; cbn [then_clients].
  - assert (Hdone : forallb is_client_construction done = true).
    { apply (forallb_prefix _ done rest). now rewrite <- Hes. }
    cbn [trace add_trace with_environ initial_world handlers app List.filter
         is_client_construction loaded_line existsb].
    rewrite (filter_all _ _ Hdone), (constructions_are_quiet _ _ Hdone).
    split; [right; exists g, done, rest, ev; auto|]. split; reflexivity.
  - cbn [trace add_trace with_handlers with_environ initial_world handlers app].
    repeat split.
Qed.

(** X5: the consumer's module-level code either returns, with the three
    clients built in the order registry client, Avro deserializer,
    consumer, the shutdown handler registered for both signals and no
    [ERROR] line printed; or exits with status 1 after an [ERROR] line,
    with no client built and no handler registered; or raises what a
    constructor raised, with the clients before it built, none after it,
    no [ERROR] line printed and no handler registered.  Nothing before
    the constructors raises. *)
Theorem consumer_startup_outcomes
    (inv : invocation) (env : gmap string string) (o : oracle) :
  match run_consumer inv env o with
  | (Ret g, w) =>
      List.filter is_client_construction (trace w) = consumer_clients_built g /\
      handlers w = [(SIGTERM, ConsumerShutdown); (SIGINT, ConsumerShutdown)] /\
      existsb (is_print_at ERROR) (trace w) = false
  | (Exit c, w) =>
      c = 1 /\
      existsb (is_print_at ERROR) (trace w) = true /\
      no_client_constructed (trace w) = true /\ handlers w = []
  | (Raise e, w) =>
      (exists g done rest ev,
         consumer_clients_built g = done ++ rest /\
         List.filter is_client_construction (trace w) = done /\
         head rest = Some ev /\ constructor_raises o ev = Some e) /\
      existsb (is_print_at ERROR) (trace w) = false /\ handlers w = []
  end.
Proof.
  unfold run_consumer.
  rewrite consumer_startup_eq, load_environment_file_same, load_environment_file_eq.
  destruct (env_file_for (argv inv)) as [f|]; [|repeat split].
  destruct (files inv !! f) as [parsed|]; [|repeat split].
  rewrite consumer_settings_eq.
  destruct (Consumer.missing_vars _); [|repeat split].
  cbv zeta.
  destruct (PyStr.truthy _) eqn:Ht; cbv beta iota;
    (match goal with |- context [clients_outcome o (consumer_clients_built ?g0) _ ?w0] =>
       destruct (clients_outcome_cases o (consumer_clients_built g0) ConsumerShutdown w0)
         as [(x & done & rest & -> & Hes & _ & ev & Hhead & Hraise)|[-> _]];
       set (g := g0) in * end); cbn [then_clients].
  2,4: cbn [trace add_trace with_handlers with_environ initial_world handlers app];
    repeat split.
  all: assert (Hdone : forallb is_client_construction done = true)
    by (apply (forallb_prefix _ done rest); now rewrite <- Hes).
  all: cbn [trace add_trace with_environ initial_world handlers app List.filter
            is_client_construction loaded_line existsb];
    rewrite (filter_all _ _ Hdone), (constructions_are_quiet _ _ Hdone);
    (split; [exists g, done, rest, ev; auto|]); split; reflexivity.
Qed.

(** ** What a successful start-up has read *)

Lemma producer_startup_returns
    (inv : invocation) (env : gmap string string) (o : oracle)
    (g : Producer.globals) (w : world) :
  run_producer inv env o = (Ret g, w) ->
  exists f parsed interval,
    env_file_for (argv inv) = Some f /\ files inv !! f = Some parsed /\
    environ w = env ∪ parsed /\
    Producer.missing_vars (environ w) = [] /\
    PyFloat.of_string (default "1.0" (environ w !! "MESSAGE_INTERVAL")) = Some interval /\
    g = Producer.mkGlobals
          (environ w !! "BOOTSTRAP_SERVER") (environ w !! "SASL_USERNAME")
          (environ w !! "SASL_PASSWORD") (environ w !! "TOPIC_NAME")
          (environ w !! "SCHEMA_REGISTRY_URL") (environ w !! "SCHEMA_REGISTRY_API_KEY")
          (environ w !! "SCHEMA_REGISTRY_API_SECRET") interval /\
    trace w = [LoadDotenv f; loaded_line f] ++ producer_client_events g.
Proof.
  unfold run_producer. rewrite producer_startup_eq, load_environment_file_eq.
  destruct (env_file_for (argv inv)) as [f|] eqn:Hsel; [|discriminate].
  destruct (files inv !! f) as [parsed|] eqn:Hfile; [|discriminate].
  rewrite producer_settings_eq. cbv zeta.
  destruct (PyFloat.of_string _) as [interval|] eqn:Hf; [|discriminate].
  destruct (Producer.missing_vars _) eqn:Hm; [|discriminate].
  match goal with |- context [clients_outcome o (producer_clients_built ?g0) _ ?w0] =>
    destruct (clients_outcome_cases o (producer_clients_built g0) ProducerShutdown w0)
      as [(x & done & rest & -> & _)|[-> _]] end; [discriminate|].
  intros [= <- <-]. exists f, parsed, interval.
  cbn [environ with_handlers add_trace with_environ initial_world trace] in *.
  repeat split; try assumption; try reflexivity.
Qed.

Lemma consumer_startup_returns
    (inv : invocation) (env : gmap string string) (o : oracle)
    (g : Consumer.globals) (w : world) :
  run_consumer inv env o = (Ret g, w) ->
  exists f parsed,
    env_file_for (argv inv) = Some f /\ files inv !! f = Some parsed /\
    environ w = env ∪ parsed /\
    Consumer.missing_vars (environ w) = [] /\
    g = Consumer.mkGlobals
          (environ w !! "BOOTSTRAP_SERVER") (environ w !! "SASL_USERNAME")
          (environ w !! "SASL_PASSWORD") (environ w !! "TOPIC_NAME")
          (if PyStr.truthy (environ w !! "CONSUMER_GROUP")
           then environ w !! "CONSUMER_GROUP" else Some "demo-dr-consumer-group")
          (environ w !! "SCHEMA_REGISTRY_URL") (environ w !! "SCHEMA_REGISTRY_API_KEY")
          (environ w !! "SCHEMA_REGISTRY_API_SECRET") /\
    trace w = [LoadDotenv f; loaded_line f]
              ++ (if PyStr.truthy (environ w !! "CONSUMER_GROUP") then []
                  else [group_warning])
              ++ consumer_client_events g.
Proof.
  unfold run_consumer.
  rewrite consumer_startup_eq, load_environment_file_same, load_environment_file_eq.
  destruct (env_file_for (argv inv)) as [f|] eqn:Hsel; [|discriminate].
  destruct (files inv !! f) as [parsed|] eqn:Hfile; [|discriminate].
  rewrite consumer_settings_eq.
  destruct (Consumer.missing_vars _) eqn:Hm; [|discriminate].
  cbv zeta.
  destruct (PyStr.truthy _) eqn:Ht; cbv beta iota;
    (match goal with |- context [clients_outcome o (consumer_clients_built ?g0) _ ?w0] =>
       destruct (clients_outcome_cases o (consumer_clients_built g0) ConsumerShutdown w0)
         as [(x & done & rest & -> & _)|[-> _]] end; [discriminate|]);
    intros [= <- <-]; exists f, parsed;
    cbn [environ with_handlers add_trace with_environ initial_world trace] in *;
    rewrite ?Ht; repeat split; try assumption; try reflexivity.
Qed.

(** X6: when the producer's module-level code returns, each of the seven
    required settings is bound to the value [os.environ] holds for its
    key, none of them is [None], and the interval is [float] of the text
    of [MESSAGE_INTERVAL], or of ["1.0"] when that key is unset. *)
Theorem producer_settings_come_from_the_environment
    (inv : invocation) (env : gmap string string) (o : oracle)
    (g : Producer.globals) (w : world) :
  run_producer inv env o = (Ret g, w) ->
  map fst (producer_required_settings g) = required_vars /\
  (forall k v, (k, v) ∈ producer_required_settings g ->
               v = environ w !! k /\ is_Some v) /\
  PyFloat.of_string (default "1.0" (environ w !! "MESSAGE_INTERVAL"))
    = Some (Producer.MESSAGE_INTERVAL g).
Proof.
  intros Hrun.
  destruct (producer_startup_returns _ _ _ _ _ Hrun)
    as (f & parsed & interval & _ & _ & _ & Hm & Hf & -> & _).
  split; [reflexivity|]. split; [|exact Hf].
  intros k v Hkv.
  assert (Hk : k ∈ required_vars /\ v = environ w !! k).
  { unfold producer_required_settings in Hkv. cbn in Hkv.
    rewrite !elem_of_cons, elem_of_nil in Hkv. unfold required_vars.
    rewrite !elem_of_cons.
    destruct Hkv as [H|[H|[H|[H|[H|[H|[H|[]]]]]]]]; injection H as -> ->; tauto. }
  destruct Hk as [Hk ->]. split; [reflexivity|].
  destruct (environ w !! k) eqn:E; [eauto|].
  assert (Hin : k ∈ Producer.missing_vars (environ w))
    by now apply producer_missing_vars_spec.
  rewrite Hm in Hin. now apply elem_of_nil in Hin.
Qed.

Lemma producer_settings_witness :
  let inv := mkInvocation ["avro_producer_app.py"]
               {[ ".env" := <[ "MESSAGE_INTERVAL" := "-0.5" ]> sample_env ]} in
  exists g w,
    run_producer inv ∅ idle_oracle = (Ret g, w) /\
    PyFloat.of_string (default "1.0" (environ w !! "MESSAGE_INTERVAL"))
      = Some (Producer.MESSAGE_INTERVAL g) /\
    Producer.MESSAGE_INTERVAL g = PyFloat.Finite (Qopp (1 # 2)).
Proof.
  intros inv.
  pose (g := Producer.mkGlobals (Some "pkc-east.example:9092") (Some "key")
               (Some "secret") (Some "transactions") (Some "https://psrc.example")
               (Some "srkey") (Some "srsecret") (PyFloat.Finite (Qopp (1 # 2)))).
  pose (w := snd (run_producer inv ∅ idle_oracle)).
  assert (E : run_producer inv ∅ idle_oracle = (Ret g, w)) by (vm_compute; reflexivity).
  destruct (producer_settings_come_from_the_environment inv ∅ idle_oracle g w E)
    as (_ & _ & Hint).
  exists g, w. split; [exact E|]. split; [exact Hint | reflexivity].
Defined.

(** X7: when the consumer's module-level code returns, each of the seven
    required settings is bound to the value [os.environ] holds for its
    key and is a non-empty string.  The group is the value of
    [CONSUMER_GROUP] when that is a non-empty string, and then no [WARN]
    line is printed; when it is unset or empty the group is
    [demo-dr-consumer-group] and the [WARN] line is printed.  Either way
    the group is what the broker client receives as [group.id]. *)
Theorem consumer_settings_come_from_the_environment
    (inv : invocation) (env : gmap string string) (o : oracle)
    (g : Consumer.globals) (w : world) :
  run_consumer inv env o = (Ret g, w) ->
  map fst (consumer_required_settings g) = required_vars /\
  (forall k v, (k, v) ∈ consumer_required_settings g ->
               v = environ w !! k /\ PyStr.truthy v = true) /\
  (PyStr.truthy (environ w !! "CONSUMER_GROUP") = true ->
   Consumer.CONSUMER_GROUP g = environ w !! "CONSUMER_GROUP" /\
   existsb (is_print_at WARN) (trace w) = false) /\
  (PyStr.truthy (environ w !! "CONSUMER_GROUP") = false ->
   Consumer.CONSUMER_GROUP g = Some "demo-dr-consumer-group" /\
   existsb (is_print_at WARN) (trace w) = true) /\
  ("group.id", CStr (Consumer.CONSUMER_GROUP g)) ∈ Consumer.consumer_conf g.
Proof.
  intros Hrun.
  destruct (consumer_startup_returns _ _ _ _ _ Hrun)
    as (f & parsed & _ & _ & _ & Hm & Hg & Htr).
  split; [reflexivity|]. split; [|split; [|split]].
  - intros k v Hkv.
    assert (Hk : k ∈ required_vars /\ v = environ w !! k).
    { rewrite Hg in Hkv. unfold consumer_required_settings in Hkv. cbn in Hkv.
      rewrite !elem_of_cons, elem_of_nil in Hkv. unfold required_vars.
      rewrite !elem_of_cons.
      destruct Hkv as [H|[H|[H|[H|[H|[H|[H|[]]]]]]]]; injection H as -> ->; tauto. }
    destruct Hk as [Hk ->]. split; [reflexivity|].
    destruct (PyStr.truthy (environ w !! k)) eqn:E; [reflexivity|].
    assert (Hin : k ∈ Consumer.missing_vars (environ w)).
    { apply consumer_missing_vars_spec. split; [exact Hk|]. now apply truthy_false. }
    rewrite Hm in Hin. now apply elem_of_nil in Hin.
  - intros Ht. rewrite Htr, Hg, Ht. split; reflexivity.
  - intros Ht. rewrite Htr, Hg, Ht. split; reflexivity.
  - apply list_elem_of_In. cbn. tauto.
Qed.

Lemma consumer_settings_witness :
  let inv := mkInvocation ["avro_consumer_app.py"; "east"]
               {[ "east.env" := <[ "CONSUMER_GROUP" := "dr-group" ]> sample_env ]} in
  exists g w,
    run_consumer inv ∅ idle_oracle = (Ret g, w) /\
    Consumer.CONSUMER_GROUP g = Some "dr-group" /\
    existsb (is_print_at WARN) (trace w) = false.
Proof.
  intros inv.
  pose (g := Consumer.mkGlobals (Some "pkc-east.example:9092") (Some "key")
               (Some "secret") (Some "transactions") (Some "dr-group")
               (Some "https://psrc.example") (Some "srkey") (Some "srsecret")).
  pose (w := snd (run_consumer inv ∅ idle_oracle)).
  assert (E : run_consumer inv ∅ idle_oracle = (Ret g, w)) by (vm_compute; reflexivity).
  destruct (consumer_settings_come_from_the_environment inv ∅ idle_oracle g w E)
    as (_ & _ & Hset & _).
  destruct Hset as [Hgroup Hquiet]; [vm_compute; reflexivity|].
  exists g, w. split; [exact E|]. split; [reflexivity | exact Hquiet].
Defined.

(** ** The two validations, ordered *)

Lemma filter_sublist {A} (p q : A -> bool) (l : list A) :
  (forall x, p x = true -> q x = true) ->
  sublist (List.filter p l) (List.filter q l).
Proof.
  intros Hpq. induction l as [|x l IH]; [constructor|].
  cbn [List.filter]. destruct (p x) eqn:Ep.
  - rewrite (Hpq x Ep). now constructor.
  - destruct (q x); [now constructor | exact IH].
Qed.

Lemma producer_configuration_eq (inv : invocation) (o : oracle) (w : world) :
  Producer.configuration inv o w =
  match Producer.load_environment_file inv o w with
  | (Ret _, w1) => Producer.settings o w1
  | (Raise e, w1) => (Raise e, w1)
  | (Exit c, w1) => (Exit c, w1)
  end.
Proof.
  unfold Producer.configuration, bind.
  now destruct (Producer.load_environment_file inv o w) as [[[]|e|c] w1].
Qed.

Lemma consumer_configuration_eq (inv : invocation) (o : oracle) (w : world) :
  Consumer.configuration inv o w =
  match Consumer.load_environment_file inv o w with
  | (Ret _, w1) => Consumer.settings o w1
  | (Raise e, w1) => (Raise e, w1)
  | (Exit c, w1) => (Exit c, w1)
  end.
Proof.
  unfold Consumer.configuration, bind.
  now destruct (Consumer.load_environment_file inv o w) as [[[]|e|c] w1].
Qed.

(** X8: whatever the environment, the variables the producer reports
    missing are among those the consumer reports, and both lists follow
    the order of [required_vars].  Hence, for one command line, files and
    inherited environment, if the consumer's configuration section
    returns and [MESSAGE_INTERVAL] is unset or a float literal, the
    producer's returns as well: it goes on to build its clients. *)
Theorem consumer_validation_is_the_stricter
    (inv : invocation) (env : gmap string string) (o : oracle) :
  (forall e : gmap string string,
     sublist (Producer.missing_vars e) (Consumer.missing_vars e) /\
     sublist (Consumer.missing_vars e) required_vars) /\
  (forall g w,
     Consumer.configuration inv o (initial_world env) = (Ret g, w) ->
     is_Some (PyFloat.of_string (default "1.0" (environ w !! "MESSAGE_INTERVAL"))) ->
     returned (fst (Producer.configuration inv o (initial_world env))) = true).
Proof.
  split.
  - intros e. split.
    + apply filter_sublist. intros x Hx. apply bool_decide_eq_true_1 in Hx.
      now rewrite Hx.
    + unfold Consumer.missing_vars. induction required_vars as [|x l IH];
        [constructor|]. cbn [List.filter].
      destruct (negb _); now constructor.
  - intros g w. rewrite consumer_configuration_eq, producer_configuration_eq.
    rewrite load_environment_file_same, load_environment_file_eq.
    destruct (env_file_for (argv inv)) as [f|]; [|discriminate].
    destruct (files inv !! f) as [parsed|]; [|discriminate].
    rewrite consumer_settings_eq, producer_settings_eq.
    destruct (Consumer.missing_vars _) eqn:Hm; [|discriminate].
    cbv zeta. intros Hrun [interval Hint].
    assert (Henv : environ w = env ∪ parsed).
    { destruct (PyStr.truthy _); injection Hrun as _ <-; reflexivity. }
    cbn [environ with_environ add_trace initial_world] in *.
    rewrite <- Henv in *. rewrite Hint.
    assert (Hp : Producer.missing_vars (environ w) = []).
    { assert (Hs : sublist (Producer.missing_vars (environ w)) []).
      { rewrite <- Hm. apply filter_sublist. intros x Hx.
        apply bool_decide_eq_true_1 in Hx. now rewrite Hx. }
      now apply sublist_nil_r in Hs. }
    now rewrite Hp.
Qed.

Lemma consumer_validation_witness :
  let inv := mkInvocation ["avro_consumer_app.py"] {[ ".env" := sample_env ]} in
  returned (fst (Producer.configuration inv unreachable_oracle (initial_world ∅))) = true.
Proof.
  intros inv.
  destruct (consumer_validation_is_the_stricter inv ∅ unreachable_oracle) as [_ H].
  eapply (H _ (snd (Consumer.configuration inv unreachable_oracle (initial_world ∅)))).
  - vm_compute. reflexivity.
  - eexists. vm_compute. reflexivity.
Defined.

(** ** One round of the producer, event by event *)

Lemma producer_round_eq (g : Producer.globals) (o : oracle) (w : world) :
  exists t w',
    Producer.generate_random_transaction o w = (Ret t, after_transaction w) /\
    well_formed t /\
    Producer.loop_body g o w = (Ret tt, w') /\
    trace w' = trace w ++ fst (round_events g o w t) ++ caught (snd (round_events g o w t)) /\
    produce_pos w' = S (produce_pos w) /\
    handlers w' = handlers w /\ environ w' = environ w.
Proof.
  destruct (generate_random_transaction_eq o w) as (t & Hgen & Hwf & _).
  exists t. unfold Producer.loop_body, try_except, Producer.attempt, round_events.
  unfold bind at 1. rewrite Hgen.
  unfold bind at 1, Producer.produce.
  cbn [produce_pos reports_pos after_transaction].
  destruct (produce_raises o (produce_pos w)) as [e|].
  { eexists. split; [reflexivity|]. split; [exact Hwf|]. split; [reflexivity|].
    repeat split. }
  unfold emit at 1. unfold bind at 1. rewrite producer_poll_eq.
  cbn [reports_pos take_produce after_transaction].
  destruct (snd (reports o (reports_pos w))) as [e|].
  { eexists. split; [reflexivity|]. split; [exact Hwf|]. split; [reflexivity|].
    repeat split. cbn. now rewrite transaction_to_avro_id, <- !app_assoc. }
  unfold bind at 1, print at 1, emit at 1. rewrite time_sleep_eq.
  destruct (sleep_failure o (Producer.MESSAGE_INTERVAL g)) as [e|].
  - eexists. split; [reflexivity|]. split; [exact Hwf|]. split; [reflexivity|].
    repeat split. cbn. now rewrite transaction_to_avro_id, <- !app_assoc.
  - eexists. split; [reflexivity|]. split; [exact Hwf|]. split; [reflexivity|].
    repeat split. cbn. now rewrite transaction_to_avro_id, <- !app_assoc.
Qed.

Lemma callback_lines_are_prints (l : list (option KafkaError * message)) :
  List.filter is_produce (map callback_line l) = [] /\
  existsb is_sleep (map callback_line l) = false /\
  existsb is_caught_line (map callback_line l) = false.
Proof.
  induction l as [|[[e|] m] l (IH1 & IH2 & IH3)]; repeat split; cbn; assumption.
Qed.

(** A sleep of at most nine billion seconds is one [time.sleep] accepts. *)
Lemma sleep_accepts (o : oracle) (q : Q) :
  (0 <= q)%Q -> (q <= 9000000000)%Q ->
  sleep_raises o (PyFloat.Finite q) = None ->
  sleep_failure o (PyFloat.Finite q) = None.
Proof.
  intros H0 H1 Hos. unfold sleep_failure, time_sleep. cbv zeta.
  change (inject_Z SEC_TO_NS) with 1000000000%Q. unfold Binary.fmul.
  destruct (b64_between 0 9000000000000000000 (q * 1000000000))
    as [Hd0 Hd1]; [exact b64_0 | vm_compute; reflexivity | lra | lra |].
  set (d := Binary.b64 (q * 1000000000)) in *.
  unfold round_away. apply Qle_bool_iff in Hd0 as Hb. rewrite Hb.
  apply Qceiling_resp_le in Hd0, Hd1.
  change (Qceiling 0) with 0 in Hd0.
  change (Qceiling 9000000000000000000) with 9000000000000000000 in Hd1.
  destruct (Z.ltb_spec (Qceiling d) (- 2 ^ 63)); [lia|].
  destruct (Z.leb_spec (2 ^ 63) (Qceiling d)); [lia|].
  destruct (Z.ltb_spec (Qceiling d) 0); [lia|].
  cbn [orb]. now rewrite Hos.
Qed.

(** [time.sleep] raises on a negative length, an infinity and NaN. *)
Lemma sleep_refuses (o : oracle) (secs : PyFloat.t) :
  match secs with
  | PyFloat.Finite q => (q < 0)%Q
  | _ => True
  end -> sleep_failure o secs <> None.
Proof.
  unfold sleep_failure, time_sleep. destruct secs as [q| |]; try discriminate.
  intros Hq. cbv zeta.
  change (inject_Z SEC_TO_NS) with 1000000000%Q. unfold Binary.fmul.
  assert (Hd : (Binary.b64 (q * 1000000000) < 0)%Q) by (apply b64_neg; lra).
  set (d := Binary.b64 (q * 1000000000)) in *.
  unfold round_away.
  destruct (Qle_bool 0 d) eqn:E; [apply Qle_bool_iff in E; lra|].
  assert (Hf : Qfloor d < 0).
  { rewrite Zlt_Qlt. eapply Qle_lt_trans; [apply Qfloor_le | exact Hd]. }
  destruct (_ || _); [discriminate|].
  destruct (Z.ltb_spec (Qfloor d) 0); [discriminate | lia].
Qed.

(** X12: a round in which [produce] and [poll] return, the interval is a
    finite number of seconds between 0 and nine billion and the
    operating system grants the sleep does exactly this: it hands one
    well-formed record to [produce] for the configured topic, polls with
    timeout 0, lets the callback print one line per delivery report in
    the order served, logs the same record, and sleeps for the interval. *)
Theorem a_round_produces_polls_logs_and_sleeps
    (g : Producer.globals) (o : oracle) (w : world) (q : Q) :
  Producer.MESSAGE_INTERVAL g = PyFloat.Finite q ->
  (0 <= q)%Q -> (q <= 9000000000)%Q ->
  sleep_raises o (PyFloat.Finite q) = None ->
  produce_raises o (produce_pos w) = None ->
  snd (reports o (reports_pos w)) = None ->
  exists t w',
    Producer.generate_random_transaction o w = (Ret t, after_transaction w) /\
    well_formed t /\
    Producer.loop_body g o w = (Ret tt, w') /\
    trace w' = trace w
      ++ [Produce (Producer.TOPIC_NAME g) t; ProducerPoll 0]
      ++ map callback_line (fst (reports o (reports_pos w)))
      ++ [produced_line t; Sleep (PyFloat.Finite q)].
Proof.
  intros Hint Hq0 Hq1 Hos Hproduce Hpoll.
  destruct (producer_round_eq g o w) as (t & w' & Hgen & Hwf & Hrun & Htr & _).
  exists t, w'. split; [exact Hgen|]. split; [exact Hwf|]. split; [exact Hrun|].
  rewrite Htr. unfold round_events.
  rewrite Hproduce, Hpoll, Hint, (sleep_accepts o q Hq0 Hq1 Hos).
  cbn [fst snd caught]. now rewrite app_nil_r, <- !app_assoc.
Qed.

Lemma a_round_witness :
  exists w',
    Producer.loop_body sample_globals reporting_oracle (initial_world ∅) = (Ret tt, w') /\
    length (trace w') = 6%nat.
Proof.
  destruct (a_round_produces_polls_logs_and_sleeps
              sample_globals reporting_oracle (initial_world ∅) 1)
    as (t & w' & _ & _ & Hrun & Htr).
  - reflexivity.
  - discriminate.
  - discriminate.
  - reflexivity.
  - reflexivity.
  - reflexivity.
  - exists w'. split; [exact Hrun|]. rewrite Htr. reflexivity.
Defined.

(** X13: a round of the producer ends in one of two ways, never both:
    with the sleep, and then no exception was logged in the round, or
    with the [ERROR] line of a caught exception, and then the round did
    not sleep: after an error the next round starts at once. *)
Theorem a_round_sleeps_or_logs_an_exception
    (g : Producer.globals) (o : oracle) (w : world) :
  exists w' es,
    Producer.loop_body g o w = (Ret tt, w') /\
    trace w' = trace w ++ es /\
    ((last es = Some (Sleep (Producer.MESSAGE_INTERVAL g)) /\
      existsb is_caught_line es = false) \/
     (exists e, last es = Some (caught_line e) /\ existsb is_sleep es = false)).
Proof.
  destruct (producer_round_eq g o w) as (t & w' & _ & _ & Hrun & Htr & _).
  exists w'. eexists. split; [exact Hrun|]. split; [exact Htr|].
  destruct (callback_lines_are_prints (fst (reports o (reports_pos w))))
    as (_ & Hs & Hc).
  unfold round_events.
  destruct (produce_raises o (produce_pos w)) as [e|].
  { right. exists e. split; reflexivity. }
  destruct (snd (reports o (reports_pos w))) as [e|].
  { right. exists e. cbn [fst snd caught]. split.
    - first [now rewrite last_snoc | now rewrite app_assoc, last_snoc].
    - rewrite !existsb_app, Hs. reflexivity. }
  destruct (sleep_failure o (Producer.MESSAGE_INTERVAL g)) as [e|].
  - right. exists e. cbn [fst snd caught]. split.
    + first [now rewrite last_snoc | now rewrite app_assoc, last_snoc].
    + rewrite !existsb_app, Hs. reflexivity.
  - left. cbn [fst snd caught]. rewrite app_nil_r. split.
    + change [produced_line t; Sleep (Producer.MESSAGE_INTERVAL g)]
        with ([produced_line t] ++ [Sleep (Producer.MESSAGE_INTERVAL g)]).
      first [now rewrite last_snoc | now rewrite !app_assoc, last_snoc].
    + rewrite !existsb_app, Hc. reflexivity.
Qed.

Lemma producer_loop_trace (g : Producer.globals) (o : oracle) (n : nat) (w : world) :
  exists w' es,
    while_true n (Producer.loop_body g) o w = (Ret tt, w') /\
    trace w' = trace w ++ es /\
    produce_pos w' = (n + produce_pos w)%nat /\
    length (List.filter is_produce es)
      = length (List.filter (produce_returns o) (seq (produce_pos w) n)) /\
    (sleep_failure o (Producer.MESSAGE_INTERVAL g) <> None ->
     existsb is_sleep es = false).
Proof.
  revert w. induction n as [|n IH]; intros w.
  - exists w, []. repeat split. now rewrite app_nil_r.
  - cbn [while_true]. unfold bind.
    destruct (producer_round_eq g o w) as (t & w1 & _ & _ & -> & Htr & Hp & _).
    destruct (IH w1) as (w2 & es & -> & Htr2 & Hp2 & Hcount & Hsleep).
    destruct (callback_lines_are_prints (fst (reports o (reports_pos w))))
      as (Hf & Hs & _).
    exists w2. eexists. split; [reflexivity|].
    split; [rewrite Htr2, Htr, <- !app_assoc; reflexivity|].
    split; [rewrite Hp2, Hp; lia|]. split.
    + rewrite !List.filter_app, !length_app, Hcount, Hp. cbn [seq List.filter].
      unfold round_events, produce_returns at 2.
      destruct (produce_raises o (produce_pos w)) as [e|]; [reflexivity|].
      destruct (snd (reports o (reports_pos w))) as [e|].
      { cbn [fst snd caught]. cbn [app List.filter is_produce]. rewrite Hf.
        reflexivity. }
      destruct (sleep_failure o (Producer.MESSAGE_INTERVAL g)) as [e|];
        cbn [fst snd caught]; cbn [app List.filter is_produce];
        rewrite List.filter_app, Hf; reflexivity.
    + intros Hbad. rewrite !existsb_app, (Hsleep Hbad), orb_false_r.
      unfold round_events.
      destruct (produce_raises o (produce_pos w)) as [e|]; [reflexivity|].
      destruct (snd (reports o (reports_pos w))) as [e|].
      { cbn [fst snd caught]. rewrite existsb_app, Hs. reflexivity. }
      destruct (sleep_failure o (Producer.MESSAGE_INTERVAL g)) as [e|];
        [|congruence].
      cbn [fst snd caught]. rewrite !existsb_app, Hs. reflexivity.
Qed.

(** X14: with an interval that is negative, an infinity or NaN (all of
    them values [float] yields, so values the module-level code lets
    through), [time.sleep] raises in every round, so however long the
    loop runs it never sleeps. *)
Theorem a_bad_interval_makes_the_loop_spin
    (g : Producer.globals) (o : oracle) (n : nat) (w : world) :
  match Producer.MESSAGE_INTERVAL g with
  | PyFloat.Finite q => (q < 0)%Q
  | _ => True
  end ->
  exists w' es,
    while_true n (Producer.loop_body g) o w = (Ret tt, w') /\
    trace w' = trace w ++ es /\
    existsb is_sleep es = false.
Proof.
  intros Hbad.
  destruct (producer_loop_trace g o n w) as (w' & es & Hrun & Htr & _ & _ & Hsleep).
  exists w', es. split; [exact Hrun|]. split; [exact Htr|]. apply Hsleep.
  now apply sleep_refuses.
Qed.

Lemma bad_interval_witness :
  exists w' es,
    while_true 3 (Producer.loop_body negative_interval_globals) idle_oracle
               (initial_world ∅) = (Ret tt, w') /\
    trace w' = es /\ existsb is_sleep es = false.
Proof.
  destruct (a_bad_interval_makes_the_loop_spin
              negative_interval_globals idle_oracle 3 (initial_world ∅))
    as (w' & es & Hrun & Htr & Hsleep).
  - reflexivity.
  - exists w', es. split; [exact Hrun|]. split; [exact Htr | exact Hsleep].
Defined.

(** X15: every round of the producer calls [produce] exactly once, so
    after [n] rounds the messages handed to the broker client are as many
    as the calls of [produce] that returned among those [n]. *)
Theorem one_produce_per_round
    (g : Producer.globals) (o : oracle) (n : nat) (w : world) :
  exists w' es,
    while_true n (Producer.loop_body g) o w = (Ret tt, w') /\
    trace w' = trace w ++ es /\
    produce_pos w' = (n + produce_pos w)%nat /\
    length (List.filter is_produce es)
      = length (List.filter (produce_returns o) (seq (produce_pos w) n)).
Proof.
  destruct (producer_loop_trace g o n w) as (w' & es & Hrun & Htr & Hp & Hc & _).
  now exists w', es.
Qed.

(** ** The consumer's [main()] *)

Lemma poll_outcome_lines (o : oracle) (i : nat) (out : list event) :
  poll_outcome o i = inr out ->
  List.filter is_subscribe out = [] /\
  List.filter is_consumer_poll out = [] /\
  existsb (is_print_at ERROR) out = false /\
  length (List.filter (is_print_at INFO) out)
    = (if poll_returns_record o i then 1 else 0)%nat.
Proof.
  unfold poll_returns_record. intros H. rewrite H. revert H. unfold poll_outcome.
  destruct (polls o i) as [msg|]; [|intros [= <-]; repeat split].
  destruct (msg_error msg); [discriminate|].
  destruct (decode_raises o i); [discriminate|].
  intros [= <-]. repeat split.
Qed.

Lemma consumer_rounds_spec (o : oracle) (n : nat) :
  forall a,
    let es := rounds_events o a n in
    let b := rounds_end o a n in
    (a <= b <= n + a)%nat /\
    (rounds_failure o a n = None -> b = (n + a)%nat) /\
    List.filter is_subscribe es = [] /\
    List.filter is_consumer_poll es = replicate (b - a) (ConsumerPoll 1) /\
    existsb (is_print_at ERROR) es = false /\
    length (List.filter (is_print_at INFO) es)
      = length (List.filter (poll_returns_record o) (seq a (b - a))).
Proof.
  unfold rounds_events, rounds_end, rounds_failure.
  induction n as [|n IH]; intros a.
  - cbn [consumer_rounds fst snd]. rewrite Nat.sub_diag. repeat split; lia.
  - cbn [consumer_rounds]. destruct (poll_outcome o a) as [e|out] eqn:E.
    + cbn [fst snd]. replace (S a - a)%nat with 1%nat by lia.
      split; [lia|]. split; [discriminate|]. repeat split.
      cbn [seq List.filter]. unfold poll_returns_record. now rewrite E.
    + destruct (IH (S a)) as (Hb & Hnone & Hsub & Hpolls & Herr & Hinfo).
      destruct (consumer_rounds o (S a) n) as [[es b] failure]. cbn [fst snd] in *.
      destruct (poll_outcome_lines o a out E) as (Hs & Hp & He & Hi).
      replace (b - a)%nat with (S (b - S a)) by lia.
      split; [lia|]. split; [intros H; rewrite (Hnone H); lia|].
      cbn [List.filter is_subscribe is_consumer_poll existsb is_print_at replicate seq].
      rewrite !List.filter_app, existsb_app, length_app.
      rewrite Hs, Hp, He, Hsub, Hpolls, Herr, Hinfo, Hi.
      repeat split. destruct (poll_returns_record o a); reflexivity.
Qed.

(** X16: [main()] of the consumer, observed for at most [n] rounds,
    prints its banner, subscribes once, to the one configured topic,
    before the first poll, and then polls, each time with a timeout of
    one second, until a poll raises or the [n] rounds are over; it never
    subscribes again, and when no poll raises it has polled [n] times. *)
Theorem consumer_subscribes_once_then_polls
    (g : Consumer.globals) (n : nat) (o : oracle) (w : world) :
  let es := rounds_events o (polls_pos w) n in
  let b := rounds_end o (polls_pos w) n in
  Consumer.main g n o w =
    (ended_by (rounds_failure o (polls_pos w) n),
     set_polls w b (trace w ++ consumer_preamble g ++ es)) /\
  List.filter is_subscribe (consumer_preamble g ++ es)
    = [Subscribe [Consumer.TOPIC_NAME g]] /\
  List.filter is_consumer_poll es = replicate (b - polls_pos w) (ConsumerPoll 1) /\
  existsb is_consumer_poll (consumer_preamble g) = false /\
  (polls_pos w <= b <= n + polls_pos w)%nat /\
  (rounds_failure o (polls_pos w) n = None -> b = (n + polls_pos w)%nat).
Proof.
  intros es b. subst es b.
  destruct (consumer_rounds_spec o n (polls_pos w)) as (Hb & Hnone & Hsub & Hpolls & _).
  split; [apply consumer_main_eq|].
  split; [rewrite List.filter_app, Hsub; reflexivity|].
  split; [exact Hpolls|]. split; [reflexivity|]. split; [exact Hb | exact Hnone].
Qed.

(** X17: the consumer's loop never prints an [ERROR] line, whatever the
    polls bring: until a poll raises, its only output is one
    [Consumed record] line per record returned, so after the rounds run
    there are exactly as many of those as polls that returned a record.
    Empty polls add nothing, and a poll that raises ends the loop with
    its exception. *)
Theorem consumer_log_counts_the_records (o : oracle) (n : nat) (w : world) :
  let es := rounds_events o (polls_pos w) n in
  let b := rounds_end o (polls_pos w) n in
  while_true n Consumer.loop_body o w =
    (ended_by (rounds_failure o (polls_pos w) n), set_polls w b (trace w ++ es)) /\
  existsb (is_print_at ERROR) es = false /\
  length (List.filter (is_print_at INFO) es)
    = length (List.filter (poll_returns_record o)
                          (seq (polls_pos w) (b - polls_pos w))).
Proof.
  intros es b. subst es b.
  destruct (consumer_rounds_spec o n (polls_pos w)) as (_ & _ & _ & _ & Herr & Hinfo).
  split; [apply consumer_loop_eq|]. split; [exact Herr | exact Hinfo].
Qed.

Example mixed_polls_are_counted :
  let es := rounds_events mixed_oracle 0 5 in
  rounds_end mixed_oracle 0 5 = 4%nat /\
  rounds_failure mixed_oracle 0 5
    = Some (Exc "ValueDeserializationError" "Unknown magic byte") /\
  length (List.filter (is_print_at ERROR) es) = 0%nat /\
  length (List.filter (is_print_at INFO) es) = 2%nat /\
  length (List.filter is_consumer_poll es) = 4%nat.
Proof. repeat split. Qed.

(** ** Delivery reports *)

(** X18: [producer.poll(0)] prints one line per delivery report that is
    ready, in the order served: an [ERROR] line for a report that carries
    an error, an [INFO] line otherwise.  A failed delivery does not keep
    the later reports from being served. *)
Theorem each_delivery_report_is_logged (o : oracle) (w : world) :
  let served := fst (reports o (reports_pos w)) in
  (exists r, Producer.producer_poll 0 o w =
     (r, add_trace (take_reports w) (ProducerPoll 0 :: map callback_line served))) /\
  length (map callback_line served) = length served /\
  map (is_print_at ERROR) (map callback_line served) = map report_failed served /\
  map (is_print_at INFO) (map callback_line served)
    = map (fun r => negb (report_failed r)) served.
Proof.
  intros served. split; [eexists; apply producer_poll_eq|].
  split; [apply length_map|]. rewrite !map_map.
  split; apply map_ext; intros [[e|] m]; reflexivity.
Qed.
